(** * Wendy backend: order lifecycle, dispatch and location tracking

    A shallow embedding of the request handlers of the delivery
    marketplace that decide the life of an order:

    - [src/routes/orders.py]: [update_order_status], [accept_delivery];
    - [src/routes/deliverers.py]: [toggle_online],
      [accept_delivery_request], [update_delivery_request_status];
    - [src/routes/admin.py]: [approve_deliverer], [reject_deliverer],
      [delete_store], [delete_deliverer], [reassign_order],
      [calculate_delivery_fee], [update_order_status_admin];
    - [src/routes/geolocation.py]: [calculate_distance],
      [estimate_arrival_time], [update_deliverer_location], [track_order].

    Conventions of the embedding.

    - The relational store is a record of tables; a table is the list of
      its rows in insertion order.  [Model.query.get(k)] is the first row
      with primary key [k], [filter_by(...).first()] the first matching
      row, [filter_by(...).all()] the matching rows in table order.
    - A handler is a function from the database to a response and the
      database after the request.  A handler that returns early has
      written nothing; one that raises runs [db.session.rollback()], so
      both give back the database they received.
    - A handler starts where its decorators hand over: the token has been
      verified (the caller's id is [get_jwt_identity()]), the rate limiter
      has let the request through and the JSON body has its required
      fields.
    - Python [float] is idealised as a real number (no rounding, no
      infinities, no NaN): a number of a JSON body is a finite number, and
      [calculate_distance] is the formula over the reals (see there for
      what rounding does to it).  A [datetime] is a real number of
      minutes, and the [datetime.utcnow()] readings of one request are one
      clock value [now]; a handler whose answer is the difference of two
      readings is given both.
    - Rows are deleted through the ORM: [db.session.delete] also clears
      the foreign keys of the rows that refer to the deleted row, and the
      flush fails where such a column is [nullable=False] (see
      [Admin.user_is_held]).
    - Columns that no embedded handler reads (names, e-mails, prices, ...)
      are left out of the rows. *)

From Stdlib Require Import ZArith String List Bool Lia Reals Lra Relations.
Import ListNotations.

Local Open Scope string_scope.
Local Open Scope Z_scope.

(** ** Python values *)

(** Truth value of a nullable integer column: [None] and [0] are false. *)
Definition truthy_id (x : option Z) : bool :=
  match x with
  | Some n => negb (n =? 0)
  | None => false
  end.

(** Truth value of a nullable text column: [None] and [''] are false. *)
Definition truthy_str (x : option string) : bool :=
  match x with
  | Some s => negb (s =? "")%string
  | None => false
  end.

(** [column == value] for a nullable integer column. *)
Definition id_eqb (x : option Z) (v : Z) : bool :=
  match x with
  | Some n => n =? v
  | None => false
  end.

(** [s in l] for a list of strings. *)
Definition str_in (s : string) (l : list string) : bool :=
  existsb (String.eqb s) l.

(** [d.get(k, default)] for a dict with string keys, kept as the list of
    its items. *)
Definition dict_get {V : Type} (d : list (string * V)) (k : string)
    (default : V) : V :=
  match find (fun kv => (fst kv =? k)%string) d with
  | Some kv => snd kv
  | None => default
  end.

(** Writing back the one row an ORM object stands for: the first row that
    satisfies [p] is replaced, every other row is kept. *)
Fixpoint replace_first {A : Type} (p : A -> bool) (x : A) (l : list A)
    : list A :=
  match l with
  | [] => []
  | y :: l' => if p y then x :: l' else y :: replace_first p x l'
  end.

(** ** Rows ([src/models/wendy_models.py], [geolocation_models.py]) *)

Module User.
Record t := mk {
  id : Z;
  user_type : string;       (* 'client', 'store', 'deliverer', 'admin' *)
  is_active : bool;
  is_approved : bool
}.
End User.

Module Store.
Record t := mk {
  id : Z;
  user_id : Z
}.
End Store.

Module Deliverer.
Record t := mk {
  id : Z;
  user_id : Z;
  is_online : bool;
  is_approved : bool;
  total_deliveries : Z
}.

Definition set_is_online (b : bool) (d : t) : t :=
  mk (id d) (user_id d) b (is_approved d) (total_deliveries d).

Definition set_is_approved (b : bool) (d : t) : t :=
  mk (id d) (user_id d) (is_online d) b (total_deliveries d).

Definition set_total_deliveries (n : Z) (d : t) : t :=
  mk (id d) (user_id d) (is_online d) (is_approved d) n.
End Deliverer.

Module Order.
Record t := mk {
  id : Z;
  client_id : Z;
  store_id : Z;
  deliverer_id : option Z;
  status : string;
  delivery_address : string;
  delivery_city : string;
  notes : option string;
  updated_at : R
}.

Definition set_status (s : string) (o : t) : t :=
  mk (id o) (client_id o) (store_id o) (deliverer_id o) s
     (delivery_address o) (delivery_city o) (notes o) (updated_at o).

Definition set_deliverer_id (d : option Z) (o : t) : t :=
  mk (id o) (client_id o) (store_id o) d (status o)
     (delivery_address o) (delivery_city o) (notes o) (updated_at o).

Definition set_notes (n : option string) (o : t) : t :=
  mk (id o) (client_id o) (store_id o) (deliverer_id o) (status o)
     (delivery_address o) (delivery_city o) n (updated_at o).

Definition set_updated_at (time : R) (o : t) : t :=
  mk (id o) (client_id o) (store_id o) (deliverer_id o) (status o)
     (delivery_address o) (delivery_city o) (notes o) time.
End Order.

Module DeliveryRequest.
Record t := mk {
  id : Z;
  client_id : Z;
  deliverer_id : option Z;
  status : string   (* pending, accepted, picked_up, delivered, cancelled *)
}.

Definition set_status (s : string) (r : t) : t :=
  mk (id r) (client_id r) (deliverer_id r) s.

Definition set_deliverer_id (d : option Z) (r : t) : t :=
  mk (id r) (client_id r) d (status r).
End DeliveryRequest.

Module DelivererLocation.
Record t := mk {
  deliverer_id : Z;
  latitude : R;
  longitude : R;
  accuracy : option R;
  speed : option R;
  heading : option R;
  is_active : bool;
  created_at : R
}.

Definition set_is_active (b : bool) (l : t) : t :=
  mk (deliverer_id l) (latitude l) (longitude l) (accuracy l) (speed l)
     (heading l) b (created_at l).
End DelivererLocation.

Module OrderTracking.
Record t := mk {
  order_id : Z;
  deliverer_id : Z;
  latitude : R;
  longitude : R;
  status : string;          (* 'pickup', 'in_transit', 'delivered' *)
  estimated_arrival : R;
  distance_remaining : R;
  created_at : R
}.
End OrderTracking.

Module AllowedCity.
Record t := mk {
  id : Z;
  is_active : bool;
  delivery_fee_per_km : R;
  minimum_order_value : R
}.
End AllowedCity.

(** ** The database *)

Module DB.
(** [platform_settings] maps a [setting_key] to the number that
    [float(setting_value)] reads from the stored text. *)
Record t := mk {
  users : list User.t;
  stores : list Store.t;
  deliverers : list Deliverer.t;
  orders : list Order.t;
  delivery_requests : list DeliveryRequest.t;
  deliverer_locations : list DelivererLocation.t;
  order_tracking : list OrderTracking.t;
  allowed_cities : list AllowedCity.t;
  platform_settings : list (string * R)
}.

Definition set_users (x : list User.t) (d : t) : t :=
  mk x (stores d) (deliverers d) (orders d) (delivery_requests d)
     (deliverer_locations d) (order_tracking d) (allowed_cities d)
     (platform_settings d).

Definition set_stores (x : list Store.t) (d : t) : t :=
  mk (users d) x (deliverers d) (orders d) (delivery_requests d)
     (deliverer_locations d) (order_tracking d) (allowed_cities d)
     (platform_settings d).

Definition set_deliverers (x : list Deliverer.t) (d : t) : t :=
  mk (users d) (stores d) x (orders d) (delivery_requests d)
     (deliverer_locations d) (order_tracking d) (allowed_cities d)
     (platform_settings d).

Definition set_orders (x : list Order.t) (d : t) : t :=
  mk (users d) (stores d) (deliverers d) x (delivery_requests d)
     (deliverer_locations d) (order_tracking d) (allowed_cities d)
     (platform_settings d).

Definition set_delivery_requests (x : list DeliveryRequest.t) (d : t) : t :=
  mk (users d) (stores d) (deliverers d) (orders d) x
     (deliverer_locations d) (order_tracking d) (allowed_cities d)
     (platform_settings d).

Definition set_deliverer_locations (x : list DelivererLocation.t) (d : t)
    : t :=
  mk (users d) (stores d) (deliverers d) (orders d) (delivery_requests d)
     x (order_tracking d) (allowed_cities d) (platform_settings d).

Definition set_order_tracking (x : list OrderTracking.t) (d : t) : t :=
  mk (users d) (stores d) (deliverers d) (orders d) (delivery_requests d)
     (deliverer_locations d) x (allowed_cities d) (platform_settings d).
End DB.

(** ** Queries shared by the handlers *)

(** [User.query.get(user_id)] *)
Definition get_user (db : DB.t) (user_id : Z) : option User.t :=
  find (fun u => User.id u =? user_id) (DB.users db).

(** [Order.query.get(order_id)] *)
Definition get_order (db : DB.t) (order_id : Z) : option Order.t :=
  find (fun o => Order.id o =? order_id) (DB.orders db).

(** [Store.query.get(store_id)] *)
Definition get_store (db : DB.t) (store_id : Z) : option Store.t :=
  find (fun s => Store.id s =? store_id) (DB.stores db).

(** [Deliverer.query.get(deliverer_id)] *)
Definition get_deliverer (db : DB.t) (deliverer_id : Z) : option Deliverer.t :=
  find (fun d => Deliverer.id d =? deliverer_id) (DB.deliverers db).

(** [DeliveryRequest.query.get(request_id)] *)
Definition get_delivery_request (db : DB.t) (request_id : Z)
    : option DeliveryRequest.t :=
  find (fun r => DeliveryRequest.id r =? request_id) (DB.delivery_requests db).

(** [Store.query.filter_by(user_id=user_id).first()] *)
Definition store_of_user (db : DB.t) (user_id : Z) : option Store.t :=
  find (fun s => Store.user_id s =? user_id) (DB.stores db).

(** [Deliverer.query.filter_by(user_id=user_id).first()] *)
Definition deliverer_of_user (db : DB.t) (user_id : Z) : option Deliverer.t :=
  find (fun d => Deliverer.user_id d =? user_id) (DB.deliverers db).

(** Committing a changed [Order] object. *)
Definition save_order (o : Order.t) (db : DB.t) : DB.t :=
  DB.set_orders
    (replace_first (fun x => Order.id x =? Order.id o) o (DB.orders db)) db.

(** Committing a changed [DeliveryRequest] object. *)
Definition save_delivery_request (r : DeliveryRequest.t) (db : DB.t) : DB.t :=
  DB.set_delivery_requests
    (replace_first (fun x => DeliveryRequest.id x =? DeliveryRequest.id r) r
       (DB.delivery_requests db)) db.

(** Committing a changed [Deliverer] object. *)
Definition save_deliverer (d : Deliverer.t) (db : DB.t) : DB.t :=
  DB.set_deliverers
    (replace_first (fun x => Deliverer.id x =? Deliverer.id d) d
       (DB.deliverers db)) db.

(** Committing a changed [User] object. *)
Definition save_user (u : User.t) (db : DB.t) : DB.t :=
  DB.set_users
    (replace_first (fun x => User.id x =? User.id u) u (DB.users db)) db.

(** ** Responses *)

(** The error kinds of the handlers, named as the specification names
    them, each with the answers it stands for.
    - [Forbidden]: 403 "Acesso negado";
    - [NotFound]: 404;
    - [BadRequest]: 400 for a missing or empty field;
    - [InvalidState]: 400 "Pedido não está disponível para entrega",
      "Solicitação não está disponível", "Pedido não pode ser reatribuído
      neste status";
    - [AlreadyAssigned]: 400 "Pedido já foi aceito por outro entregador",
      "Solicitação já foi aceita";
    - [NotEligible]: 403 "Entregador deve estar online", 403 "Entregador
      não aprovado", 400 "Entregador não está aprovado";
    - [InvalidTransition from to]: 400 "Transição de from para to não
      permitida";
    - [DistanceExceeded]: 400 "Distância excede o máximo permitido";
    - [InternalError]: 500, after [db.session.rollback()]. *)
Inductive error : Type :=
  | Forbidden
  | NotFound
  | BadRequest
  | InvalidState
  | AlreadyAssigned
  | NotEligible
  | InvalidTransition (from to : string)
  | DistanceExceeded
  | InternalError.

Inductive response : Type :=
  | Ok
  | Error (e : error).

(** ** [src/routes/orders.py] *)

Module Orders.

(** The dict [valid_transitions] of [update_order_status]: user type,
    then current status, then the statuses that may be requested. *)
Definition valid_transitions : list (string * list (string * list string)) :=
  [ ("store",
      [ ("pending", ["accepted"; "cancelled"]);
        ("accepted", ["preparing"]);
        ("preparing", ["ready"]) ]);
    ("deliverer",
      [ ("ready", ["delivering"]);
        ("delivering", ["delivered"]) ]);
    ("admin",
      [ ("pending", ["accepted"; "cancelled"]);
        ("accepted", ["preparing"; "cancelled"]);
        ("preparing", ["ready"; "cancelled"]);
        ("ready", ["delivering"; "cancelled"]);
        ("delivering", ["delivered"; "cancelled"]) ]) ].

(** The [has_permission] flag of [update_order_status]. *)
Definition has_permission (db : DB.t) (user : User.t) (user_id : Z)
    (order : Order.t) : bool :=
  if (User.user_type user =? "store")%string then
    match store_of_user db user_id with
    | Some store => Order.store_id order =? Store.id store
    | None => false
    end
  else if ((User.user_type user =? "deliverer")%string
           && id_eqb (Order.deliverer_id order) user_id)%bool then true
  else if (User.user_type user =? "admin")%string then true
  else false.

(** [PUT /api/orders/<order_id>/status].  [new_status] is the requested
    status after [SecurityValidator.sanitize_string(..., 50)].  A caller
    id without a user row makes [user.user_type] raise, which the handler
    answers with 500. *)
Definition update_order_status (now : R) (user_id order_id : Z)
    (new_status : string) (db : DB.t) : response * DB.t :=
  match get_order db order_id with
  | None => (Error NotFound, db)
  | Some order =>
    if (new_status =? "")%string then (Error BadRequest, db)
    else
      match get_user db user_id with
      | None => (Error InternalError, db)
      | Some user =>
        if negb (has_permission db user user_id order) then
          (Error Forbidden, db)
        else
          let user_transitions :=
            dict_get valid_transitions (User.user_type user) [] in
          let current_status_transitions :=
            dict_get user_transitions (Order.status order) [] in
          if negb (str_in new_status current_status_transitions) then
            (Error (InvalidTransition (Order.status order) new_status), db)
          else
            (Ok,
             save_order
               (Order.set_updated_at now (Order.set_status new_status order))
               db)
      end
  end.

(** [POST /api/orders/<order_id>/accept]: a deliverer claims an order. *)
Definition accept_delivery (now : R) (user_id order_id : Z) (db : DB.t)
    : response * DB.t :=
  match get_user db user_id with
  | None => (Error Forbidden, db)
  | Some user =>
    if negb (User.user_type user =? "deliverer")%string then
      (Error Forbidden, db)
    else
      match get_order db order_id with
      | None => (Error NotFound, db)
      | Some order =>
        if negb (Order.status order =? "ready")%string then
          (Error InvalidState, db)
        else if truthy_id (Order.deliverer_id order) then
          (Error AlreadyAssigned, db)
        else
          (Ok,
           save_order
             (Order.set_updated_at now
                (Order.set_status "delivering"
                   (Order.set_deliverer_id (Some user_id) order)))
             db)
      end
  end.

(** [GET /api/orders/available]: the orders a deliverer may claim,
    [Order.query.filter_by(status="ready", deliverer_id=None)]. *)
Definition available_orders (db : DB.t) : list Order.t :=
  filter
    (fun o =>
       ((Order.status o =? "ready")%string
        && match Order.deliverer_id o with None => true | Some _ => false end)%bool)
    (DB.orders db).

End Orders.

(** ** [src/routes/deliverers.py] *)

Module Deliverers.

(** [POST /api/deliverers/toggle-online] *)
Definition toggle_online (user_id : Z) (db : DB.t) : response * DB.t :=
  match get_user db user_id with
  | None => (Error Forbidden, db)
  | Some user =>
    if negb (User.user_type user =? "deliverer")%string then
      (Error Forbidden, db)
    else
      match deliverer_of_user db user_id with
      | None => (Error NotFound, db)
      | Some deliverer =>
        if negb (Deliverer.is_approved deliverer) then
          (Error NotEligible, db)
        else
          (Ok,
           save_deliverer
             (Deliverer.set_is_online
                (negb (Deliverer.is_online deliverer)) deliverer)
             db)
      end
  end.

(** [POST /api/deliverers/delivery-requests/<request_id>/accept] *)
Definition accept_delivery_request (user_id request_id : Z) (db : DB.t)
    : response * DB.t :=
  match get_user db user_id with
  | None => (Error Forbidden, db)
  | Some user =>
    if negb (User.user_type user =? "deliverer")%string then
      (Error Forbidden, db)
    else
      match deliverer_of_user db user_id with
      | None => (Error NotEligible, db)
      | Some deliverer =>
        if negb (Deliverer.is_online deliverer) then (Error NotEligible, db)
        else
          match get_delivery_request db request_id with
          | None => (Error NotFound, db)
          | Some delivery_request =>
            if negb (DeliveryRequest.status delivery_request =? "pending")%string
            then (Error InvalidState, db)
            else if truthy_id (DeliveryRequest.deliverer_id delivery_request)
            then (Error AlreadyAssigned, db)
            else
              (Ok,
               save_delivery_request
                 (DeliveryRequest.set_status "accepted"
                    (DeliveryRequest.set_deliverer_id (Some user_id)
                       delivery_request))
                 db)
          end
      end
  end.

(** [SecurityValidator.sanitize_int(request_id)].  The class
    [SecurityValidator] of [src/security_improvements.py] has the methods
    [validate_email], [validate_password], [validate_phone],
    [validate_cpf], [validate_cnpj], [sanitize_string] and
    [validate_numeric_range], and no [sanitize_int]: the attribute lookup
    raises [AttributeError], which the [except Exception] of the calling
    handler answers with 500. *)
Definition sanitize_int (n : Z) : error + option Z := inl InternalError.

(** The dict [valid_transitions] of [update_delivery_request_status]. *)
Definition valid_transitions : list (string * list string) :=
  [ ("accepted", ["picked_up"; "cancelled"]);
    ("picked_up", ["delivered"]);
    ("delivered", []);
    ("cancelled", []) ].

(** [Deliverer.query.filter_by(user_id=user_id).first()] followed by
    [deliverer.total_deliveries += 1] when the profile exists. *)
Definition increment_total_deliveries (user_id : Z) (db : DB.t) : DB.t :=
  match deliverer_of_user db user_id with
  | Some deliverer =>
    save_deliverer
      (Deliverer.set_total_deliveries
         (Deliverer.total_deliveries deliverer + 1) deliverer)
      db
  | None => db
  end.

(** [PUT /api/deliverers/delivery-requests/<request_id>/status].  The
    handler is written out as the source has it; what follows the call of
    [sanitize_int] is never reached. *)
Definition update_delivery_request_status (user_id request_id : Z)
    (new_status : string) (db : DB.t) : response * DB.t :=
  match get_user db user_id with
  | None => (Error Forbidden, db)
  | Some user =>
    if negb (User.user_type user =? "deliverer")%string then
      (Error Forbidden, db)
    else
      match sanitize_int request_id with
      | inl raised => (Error raised, db)
      | inr None => (Error BadRequest, db)
      | inr (Some sanitized_request_id) =>
        if sanitized_request_id <=? 0 then (Error BadRequest, db)
        else
          match
            find
              (fun r =>
                 ((DeliveryRequest.id r =? sanitized_request_id)
                  && id_eqb (DeliveryRequest.deliverer_id r) user_id)%bool)
              (DB.delivery_requests db)
          with
          | None => (Error NotFound, db)
          | Some delivery_request =>
            if (new_status =? "")%string then (Error BadRequest, db)
            else
              let current_transitions :=
                dict_get valid_transitions
                  (DeliveryRequest.status delivery_request) [] in
              if negb (str_in new_status current_transitions) then
                (Error
                   (InvalidTransition
                      (DeliveryRequest.status delivery_request) new_status),
                 db)
              else
                let db1 :=
                  save_delivery_request
                    (DeliveryRequest.set_status new_status delivery_request)
                    db in
                (Ok,
                 if (new_status =? "delivered")%string
                 then increment_total_deliveries user_id db1
                 else db1)
          end
      end
  end.

End Deliverers.


(** ** [src/routes/admin.py] *)

Module Admin.

(** [admin_required()]: the caller has a user row of type ['admin']. *)
Definition admin_required (db : DB.t) (caller_id : Z) : bool :=
  match get_user db caller_id with
  | Some user => (User.user_type user =? "admin")%string
  | None => false
  end.

(** [db.session.delete(obj)]: the first row that satisfies [p] goes. *)
Fixpoint remove_first {A : Type} (p : A -> bool) (l : list A) : list A :=
  match l with
  | [] => []
  | y :: l' => if p y then l' else y :: remove_first p l'
  end.

(** [POST /api/admin/deliverers/<deliverer_id>/approve] *)
Definition approve_deliverer (caller_id deliverer_id : Z) (db : DB.t)
    : response * DB.t :=
  if negb (admin_required db caller_id) then (Error Forbidden, db)
  else
    match get_deliverer db deliverer_id with
    | None => (Error NotFound, db)
    | Some deliverer =>
      match get_user db (Deliverer.user_id deliverer) with
      | None => (Error InternalError, db)
      | Some user =>
        (Ok,
         save_user
           (User.mk (User.id user) (User.user_type user)
              (User.is_active user) true)
           (save_deliverer (Deliverer.set_is_approved true deliverer) db))
      end
    end.

(** [POST /api/admin/deliverers/<deliverer_id>/reject]: the profile and
    its user lose their approval and the user is deactivated; [is_online]
    is not written. *)
Definition reject_deliverer (caller_id deliverer_id : Z) (db : DB.t)
    : response * DB.t :=
  if negb (admin_required db caller_id) then (Error Forbidden, db)
  else
    match get_deliverer db deliverer_id with
    | None => (Error NotFound, db)
    | Some deliverer =>
      match get_user db (Deliverer.user_id deliverer) with
      | None => (Error InternalError, db)
      | Some user =>
        (Ok,
         save_user
           (User.mk (User.id user) (User.user_type user) false false)
           (save_deliverer (Deliverer.set_is_approved false deliverer) db))
      end
    end.

(** The loop of [delete_store] over
    [Order.query.filter_by(store_id=store.id, status='pending')]: each such
    order is cancelled.  [updated_at] follows from the column's
    [onupdate=datetime.utcnow]. *)
Definition cancel_pending_orders (now : R) (store_id : Z)
    (orders : list Order.t) : list Order.t :=
  map
    (fun order =>
       if ((Order.store_id order =? store_id)
           && (Order.status order =? "pending")%string)%bool
       then Order.set_updated_at now (Order.set_status "cancelled" order)
       else order)
    orders.

(** The flush of [db.session.delete(user)].  The relationships of the
    models put a backref on [User] ([client_orders], [deliverer_orders],
    [delivery_requests], [assigned_deliveries], [store],
    [deliverer_profile], [locations], [tracking_history]) and none has a
    delete cascade: the ORM writes NULL into the foreign key of every row
    it finds through them, unless the row is deleted in the same flush.

    [orders.deliverer_id] and [delivery_requests.deliverer_id] are
    nullable: these rows lose their deliverer.  [updated_at] of an order
    follows from the column's [onupdate=datetime.utcnow]. *)
Definition clear_deliverer_orders (now : R) (user_id : Z)
    (orders : list Order.t) : list Order.t :=
  map
    (fun order =>
       if id_eqb (Order.deliverer_id order) user_id
       then Order.set_updated_at now (Order.set_deliverer_id None order)
       else order)
    orders.

Definition clear_assigned_deliveries (user_id : Z)
    (requests : list DeliveryRequest.t) : list DeliveryRequest.t :=
  map
    (fun request =>
       if id_eqb (DeliveryRequest.deliverer_id request) user_id
       then DeliveryRequest.set_deliverer_id None request
       else request)
    requests.

(** [orders.client_id], [delivery_requests.client_id], [stores.user_id],
    [deliverers.user_id], [deliverer_locations.deliverer_id] and
    [order_tracking.deliverer_id] are declared [nullable=False]: a row
    that refers to the user through one of them makes the flush fail with
    [IntegrityError].  (The tables that are not part of [DB.t] are taken
    to hold no row of the user.) *)
Definition user_is_held (user_id : Z) (db : DB.t) : bool :=
  existsb (fun o => Order.client_id o =? user_id) (DB.orders db)
  || existsb (fun r => DeliveryRequest.client_id r =? user_id)
       (DB.delivery_requests db)
  || existsb (fun s => Store.user_id s =? user_id) (DB.stores db)
  || existsb (fun d => Deliverer.user_id d =? user_id) (DB.deliverers db)
  || existsb (fun l => DelivererLocation.deliverer_id l =? user_id)
       (DB.deliverer_locations db)
  || existsb (fun t => OrderTracking.deliverer_id t =? user_id)
       (DB.order_tracking db).

(** The rows of the user that are left once the flush has gone through. *)
Definition delete_user_row (now : R) (user_id : Z) (db : DB.t) : DB.t :=
  DB.set_users
    (remove_first (fun u => User.id u =? user_id) (DB.users db))
    (DB.set_delivery_requests
       (clear_assigned_deliveries user_id (DB.delivery_requests db))
       (DB.set_orders (clear_deliverer_orders now user_id (DB.orders db))
          db)).

(** [DELETE /api/admin/stores/<store_id>/delete].  The store is deleted
    through the ORM as well: the backref [orders] of [Order.store_rel]
    makes the flush write NULL into [orders.store_id], which is
    [nullable=False], so a store that has an order, of any status, cannot
    be deleted: the flush raises [IntegrityError], the handler rolls back
    (the cancellations of its loop included) and answers 500.  ([products]
    is not a table of [DB.t]; the store is taken to have no product, which
    would stop the flush in the same way.) *)
Definition delete_store (now : R) (caller_id store_id : Z) (db : DB.t)
    : response * DB.t :=
  if negb (admin_required db caller_id) then (Error Forbidden, db)
  else
    match get_store db store_id with
    | None => (Error NotFound, db)
    | Some store =>
      match get_user db (Store.user_id store) with
      | None => (Error InternalError, db)
      | Some user =>
        let db1 :=
          DB.set_stores
            (remove_first (fun s => Store.id s =? Store.id store)
               (DB.stores db))
            (DB.set_orders
               (cancel_pending_orders now (Store.id store) (DB.orders db))
               db) in
        if existsb (fun o => Order.store_id o =? Store.id store)
             (DB.orders db1)
        then (Error InternalError, db)
        else if user_is_held (User.id user) db1 then (Error InternalError, db)
        else (Ok, delete_user_row now (User.id user) db1)
      end
    end.

(** The loop of [delete_deliverer] over the deliverer's orders whose status
    is in [['accepted', 'preparing', 'ready', 'delivering']]: the
    assignment is cleared and the order goes back to ['pending']. *)
Definition release_deliveries (now : R) (deliverer_user_id : Z)
    (orders : list Order.t) : list Order.t :=
  map
    (fun order =>
       if (id_eqb (Order.deliverer_id order) deliverer_user_id
           && str_in (Order.status order)
                ["accepted"; "preparing"; "ready"; "delivering"])%bool
       then
         Order.set_updated_at now
           (Order.set_status "pending" (Order.set_deliverer_id None order))
       else order)
    orders.

(** [DELETE /api/admin/deliverers/<deliverer_id>/delete].  After the
    loop the profile and its user are deleted through the ORM: the
    deliverer's other orders (pending, delivered, cancelled) and delivery
    requests lose their [deliverer_id], and a deliverer with a location or
    tracking row cannot be deleted (the handler rolls back and answers
    500). *)
Definition delete_deliverer (now : R) (caller_id deliverer_id : Z)
    (db : DB.t) : response * DB.t :=
  if negb (admin_required db caller_id) then (Error Forbidden, db)
  else
    match get_deliverer db deliverer_id with
    | None => (Error NotFound, db)
    | Some deliverer =>
      match get_user db (Deliverer.user_id deliverer) with
      | None => (Error InternalError, db)
      | Some user =>
        let db1 :=
          DB.set_deliverers
            (remove_first (fun d => Deliverer.id d =? Deliverer.id deliverer)
               (DB.deliverers db))
            (DB.set_orders
               (release_deliveries now (Deliverer.user_id deliverer)
                  (DB.orders db))
               db) in
        if user_is_held (User.id user) db1 then (Error InternalError, db)
        else (Ok, delete_user_row now (User.id user) db1)
      end
    end.

(** The line feed of the f-strings. *)
Definition newline : string := String (Ascii.ascii_of_nat 10) EmptyString.

(** The audit note of the admin handlers: a new entry is appended to
    existing notes after a blank line, or becomes the notes. *)
Definition append_note (entry : string) (notes : option string)
    : option string :=
  if truthy_str notes then
    match notes with
    | Some old => Some (old ++ newline ++ newline ++ entry)
    | None => Some entry
    end
  else Some entry.

(** [POST /api/admin/orders/reassign].  [order_id], [new_deliverer_id] and
    [reason] are the required fields of the body; [log_entry] gives the
    dated entry the handler formats from the previous assignee. *)
Definition reassign_order (now : R) (caller_id order_id new_deliverer_id : Z)
    (reason : string) (log_entry : option Z -> string) (db : DB.t)
    : response * DB.t :=
  if negb (admin_required db caller_id) then (Error Forbidden, db)
  else if ((order_id =? 0) || (new_deliverer_id =? 0)
           || (reason =? "")%string)%bool then (Error BadRequest, db)
  else
    match get_order db order_id with
    | None => (Error NotFound, db)
    | Some order =>
      if negb (str_in (Order.status order) ["accepted"; "preparing"; "ready"])
      then (Error InvalidState, db)
      else
        match
          find
            (fun u =>
               ((User.id u =? new_deliverer_id)
                && (User.user_type u =? "deliverer")%string
                && User.is_active u)%bool)
            (DB.users db)
        with
        | None => (Error NotFound, db)
        | Some new_deliverer =>
          match deliverer_of_user db (User.id new_deliverer) with
          | None => (Error NotEligible, db)
          | Some deliverer_profile =>
            if negb (Deliverer.is_approved deliverer_profile) then
              (Error NotEligible, db)
            else
              let old_deliverer_id := Order.deliverer_id order in
              (Ok,
               save_order
                 (Order.set_notes
                    (append_note (log_entry old_deliverer_id)
                       (Order.notes order))
                    (Order.set_updated_at now
                       (Order.set_deliverer_id (Some new_deliverer_id)
                          order)))
                 db)
          end
        end
    end.

(** [PUT /api/admin/orders/<order_id>/status].  The view is declared as
    [update_order_status_admin()], without the [order_id] its route
    passes.  Flask calls a view with the arguments of the route as
    keywords, so every request raises [TypeError] before the body of the
    view and its [try] are entered: the answer is 500 and nothing is
    written.  The body, which would write any of seven statuses over any
    status, never runs. *)
Definition update_order_status_admin (caller_id order_id : Z)
    (status : option string) (db : DB.t) : response * DB.t :=
  (Error InternalError, db).

(** [get_platform_setting(key, default_value)] followed by [float(...)]. *)
Definition get_platform_setting (db : DB.t) (key : string) (default_value : R)
    : R :=
  dict_get (DB.platform_settings db) key default_value.

(** [AllowedCity.query.get(city_id)] *)
Definition get_city (db : DB.t) (city_id : Z) : option AllowedCity.t :=
  find (fun c => AllowedCity.id c =? city_id) (DB.allowed_cities db).

(** Python's [max(a, b)] on two numbers: [b] when [b > a], else [a]. *)
Definition py_max (a b : R) : R :=
  if Rlt_dec a b then b else a.

(** The JSON object [calculate_delivery_fee] answers with. *)
Record fee_quote := mk_fee_quote {
  distance_km : R;
  fee_per_km : R;
  calculated_fee : R;
  minimum_fee : R;
  final_delivery_fee : R;
  within_delivery_area : bool
}.

(** The per-km rate [calculate_delivery_fee] selects. *)
Definition select_fee_per_km (db : DB.t) (city_id : option Z) : R :=
  if truthy_id city_id then
    match city_id with
    | Some cid =>
      match get_city db cid with
      | Some city =>
        if AllowedCity.is_active city then AllowedCity.delivery_fee_per_km city
        else get_platform_setting db "default_delivery_fee_per_km" 2
      | None => get_platform_setting db "default_delivery_fee_per_km" 2
      end
    | None => get_platform_setting db "default_delivery_fee_per_km" 2
    end
  else get_platform_setting db "default_delivery_fee_per_km" 2.

(** [POST /api/admin/platform/calculate-delivery-fee].  [distance] is the
    field ['distance_km'] of the body read by [float], if present;
    [city_id] the optional field ['city_id']. *)
Definition calculate_delivery_fee (distance : option R) (city_id : option Z)
    (db : DB.t) : error + fee_quote :=
  match distance with
  | None => inl BadRequest
  | Some distance =>
    let fee_per_km := select_fee_per_km db city_id in
    let calculated_fee := (distance * fee_per_km)%R in
    let minimum_fee := get_platform_setting db "minimum_delivery_fee" 5 in
    let maximum_distance :=
      get_platform_setting db "maximum_delivery_distance" 10 in
    if Rlt_dec maximum_distance distance then inl DistanceExceeded
    else
      let final_fee := py_max calculated_fee minimum_fee in
      inr (mk_fee_quote distance fee_per_km calculated_fee minimum_fee
             final_fee
             (if Rle_dec distance maximum_distance then true else false))
  end.

End Admin.


(** ** [src/routes/geolocation.py] *)

(** The JSON body of [update-location]: ['latitude'] and ['longitude'] are
    required by the handler, the other three are read with [data.get].  A
    field is [None] when its key is missing; the two coordinates are given
    as [float] reads them. *)
Module LocationBody.
Record t := mk {
  latitude : option R;
  longitude : option R;
  accuracy : option R;
  speed : option R;
  heading : option R
}.
End LocationBody.

(** What [track_order] answers with. *)
Module TrackingView.
Record t := mk {
  order_id : Z;
  status : string;
  latest_tracking : option OrderTracking.t;
  current_location : option DelivererLocation.t;
  tracking_history : list OrderTracking.t
}.
End TrackingView.

Module Geolocation.

Local Open Scope R_scope.

(** [math.radians] *)
Definition radians (x : R) : R := x * PI / 180.

(** [math.atan2] *)
Definition atan2 (y x : R) : R :=
  if Rlt_dec 0 x then atan (y / x)
  else if Rlt_dec x 0 then
    if Rle_dec 0 y then atan (y / x) + PI else atan (y / x) - PI
  else if Rlt_dec 0 y then PI / 2
  else if Rlt_dec y 0 then - (PI / 2)
  else 0.

(** [calculate_distance]: the Haversine formula with Earth radius 6371 km,
    over the real numbers, where [0 <= a <= 1].  The source computes [a]
    in double precision: for two points that are nearly antipodal the
    rounded [a] can exceed 1, and [math.sqrt(1 - a)] then raises
    [ValueError], which the calling handlers answer with 500.  The
    embedding gives the distance of the formula there; what is proved
    about an answer that carries a distance is stated for requests that
    were answered. *)
Definition calculate_distance (lat1 lon1 lat2 lon2 : R) : R :=
  let R_earth := 6371 in
  let dlat := radians (lat2 - lat1) in
  let dlon := radians (lon2 - lon1) in
  let a :=
    sin (dlat / 2) * sin (dlat / 2)
    + cos (radians lat1) * cos (radians lat2)
      * sin (dlon / 2) * sin (dlon / 2) in
  let c := 2 * atan2 (sqrt a) (sqrt (1 - a)) in
  R_earth * c.

(** [estimate_arrival_time(distance_km, avg_speed_kmh=25)], in minutes
    after the clock value [now]. *)
Definition estimate_arrival_time (now distance_km : R) : R :=
  let avg_speed_kmh := 25 in
  if Rle_dec distance_km 0 then now
  else
    let time_hours := distance_km / avg_speed_kmh in
    let time_minutes := time_hours * 60 in
    now + time_minutes.

(** The destination [update_deliverer_location] measures to, for every
    order: the example coordinates written in its loop. *)
Definition dest_lat : R := -23.5505.
Definition dest_lon : R := -46.6333.

(** [DelivererLocation.query.filter_by(deliverer_id=user_id,
    is_active=True).update({'is_active': False})] *)
Definition deactivate_locations (user_id : Z)
    (locations : list DelivererLocation.t) : list DelivererLocation.t :=
  map
    (fun l =>
       if ((DelivererLocation.deliverer_id l =? user_id)%Z
           && DelivererLocation.is_active l)%bool
       then DelivererLocation.set_is_active false l
       else l)
    locations.

(** [Order.query.filter_by(deliverer_id=user_id, status='delivering').all()] *)
Definition active_orders (db : DB.t) (user_id : Z) : list Order.t :=
  filter
    (fun o =>
       (id_eqb (Order.deliverer_id o) user_id
        && (Order.status o =? "delivering")%string)%bool)
    (DB.orders db).

(** The [OrderTracking] row the loop builds for one active order. *)
Definition tracking_row (now : R) (user_id : Z) (latitude longitude : R)
    (order : Order.t) : OrderTracking.t :=
  let distance := calculate_distance latitude longitude dest_lat dest_lon in
  let estimated_arrival := estimate_arrival_time now distance in
  OrderTracking.mk (Order.id order) user_id latitude longitude "in_transit"
    estimated_arrival distance now.

(** [POST /api/geolocation/update-location] *)
Definition update_deliverer_location (now : R) (user_id : Z)
    (data : LocationBody.t) (db : DB.t) : response * DB.t :=
  match get_user db user_id with
  | None => (Error Forbidden, db)
  | Some user =>
    if negb (User.user_type user =? "deliverer")%string then
      (Error Forbidden, db)
    else
      match deliverer_of_user db user_id with
      | None => (Error NotEligible, db)
      | Some deliverer =>
        if negb (Deliverer.is_online deliverer) then (Error NotEligible, db)
        else
          match LocationBody.latitude data, LocationBody.longitude data with
          | Some latitude, Some longitude =>
            let location :=
              DelivererLocation.mk user_id latitude longitude
                (LocationBody.accuracy data) (LocationBody.speed data)
                (LocationBody.heading data) true now in
            let tracking :=
              map (tracking_row now user_id latitude longitude)
                (active_orders db user_id) in
            (Ok,
             DB.set_order_tracking (DB.order_tracking db ++ tracking)
               (DB.set_deliverer_locations
                  (deactivate_locations user_id (DB.deliverer_locations db)
                   ++ [location])
                  db))
          | _, _ => (Error BadRequest, db)
          end
      end
  end.

(** The [has_access] flag of [track_order]. *)
Definition has_access (db : DB.t) (user : User.t) (user_id : Z)
    (order : Order.t) : bool :=
  if ((User.user_type user =? "client")%string
      && (Order.client_id order =? user_id)%Z)%bool then true
  else if (User.user_type user =? "store")%string then
    match store_of_user db user_id with
    | Some store => (Order.store_id order =? Store.id store)%Z
    | None => false
    end
  else if ((User.user_type user =? "deliverer")%string
           && id_eqb (Order.deliverer_id order) user_id)%bool then true
  else if (User.user_type user =? "admin")%string then true
  else false.

(** The tracking rows of an order, newest first: the table is append-only
    and [created_at] is the clock at insertion, so
    [order_by(created_at.desc())] reads it backwards. *)
Definition trackings_of (db : DB.t) (order_id : Z) : list OrderTracking.t :=
  rev (filter (fun t => (OrderTracking.order_id t =? order_id)%Z)
         (DB.order_tracking db)).

(** [GET /api/geolocation/track-order/<order_id>] *)
Definition track_order (user_id order_id : Z) (db : DB.t)
    : error + TrackingView.t :=
  match get_order db order_id with
  | None => inl NotFound
  | Some order =>
    match get_user db user_id with
    | None => inl InternalError
    | Some user =>
      if negb (has_access db user user_id order) then inl Forbidden
      else
        let latest_tracking := hd_error (trackings_of db order_id) in
        let current_location :=
          if truthy_id (Order.deliverer_id order) then
            find
              (fun l =>
                 (id_eqb (Order.deliverer_id order)
                    (DelivererLocation.deliverer_id l)
                  && DelivererLocation.is_active l)%bool)
              (DB.deliverer_locations db)
          else None in
        let tracking_history := firstn 10 (trackings_of db order_id) in
        inr (TrackingView.mk order_id (Order.status order) latest_tracking
               current_location tracking_history)
    end
  end.

End Geolocation.


(** ** The handlers as one transition system *)

Module System.

(** One request to one of the embedded handlers. *)
Inductive op : Type :=
  | UpdateOrderStatus (now : R) (user_id order_id : Z) (new_status : string)
  | AcceptDelivery (now : R) (user_id order_id : Z)
  | ToggleOnline (user_id : Z)
  | AcceptDeliveryRequest (user_id request_id : Z)
  | UpdateDeliveryRequestStatus (user_id request_id : Z) (new_status : string)
  | ApproveDeliverer (caller_id deliverer_id : Z)
  | RejectDeliverer (caller_id deliverer_id : Z)
  | DeleteStore (now : R) (caller_id store_id : Z)
  | DeleteDeliverer (now : R) (caller_id deliverer_id : Z)
  | ReassignOrder (now : R) (caller_id order_id new_deliverer_id : Z)
      (reason : string) (log_entry : option Z -> string)
  | UpdateLocation (now : R) (user_id : Z) (data : LocationBody.t).

Definition step (o : op) (db : DB.t) : response * DB.t :=
  match o with
  | UpdateOrderStatus now user_id order_id new_status =>
    Orders.update_order_status now user_id order_id new_status db
  | AcceptDelivery now user_id order_id =>
    Orders.accept_delivery now user_id order_id db
  | ToggleOnline user_id => Deliverers.toggle_online user_id db
  | AcceptDeliveryRequest user_id request_id =>
    Deliverers.accept_delivery_request user_id request_id db
  | UpdateDeliveryRequestStatus user_id request_id new_status =>
    Deliverers.update_delivery_request_status user_id request_id new_status db
  | ApproveDeliverer caller_id deliverer_id =>
    Admin.approve_deliverer caller_id deliverer_id db
  | RejectDeliverer caller_id deliverer_id =>
    Admin.reject_deliverer caller_id deliverer_id db
  | DeleteStore now caller_id store_id =>
    Admin.delete_store now caller_id store_id db
  | DeleteDeliverer now caller_id deliverer_id =>
    Admin.delete_deliverer now caller_id deliverer_id db
  | ReassignOrder now caller_id order_id new_deliverer_id reason log_entry =>
    Admin.reassign_order now caller_id order_id new_deliverer_id reason
      log_entry db
  | UpdateLocation now user_id data =>
    Geolocation.update_deliverer_location now user_id data db
  end.

(** The database after a sequence of requests, served one after another. *)
Fixpoint run (ops : list op) (db : DB.t) : DB.t :=
  match ops with
  | [] => db
  | o :: rest => run rest (snd (step o db))
  end.

(** The responses of a sequence of requests. *)
Fixpoint responses (ops : list op) (db : DB.t) : list response :=
  match ops with
  | [] => []
  | o :: rest => fst (step o db) :: responses rest (snd (step o db))
  end.

Definition is_deliverer_deletion (o : op) : bool :=
  match o with
  | DeleteDeliverer _ _ _ => true
  | _ => false
  end.

Definition is_claim (o : op) : bool :=
  match o with
  | AcceptDelivery _ _ _ | AcceptDeliveryRequest _ _ => true
  | _ => false
  end.

Definition is_update_location (o : op) : bool :=
  match o with
  | UpdateLocation _ _ _ => true
  | _ => false
  end.

End System.

(** ** The specification's tables and predicates *)

Module Spec.

(** The states from which an order can still move. *)
Definition active_state (s : string) : bool :=
  str_in s ["pending"; "accepted"; "preparing"; "ready"; "delivering"].

(** The chain of section 4.1 from [pending] to [delivered]. *)
Definition chain : list (string * string) :=
  [ ("pending", "accepted"); ("accepted", "preparing");
    ("preparing", "ready"); ("ready", "delivering");
    ("delivering", "delivered") ].

(** The transition graph of section 4.1: the chain, and [cancelled] from
    every state that is not terminal. *)
Definition graph_edge (from to : string) : bool :=
  existsb (fun e => ((fst e =? from) && (snd e =? to))%string) chain
  || (active_state from && ("cancelled" =? to)%string).

(** The rows of the role table of section 4.1 for stores and deliverers. *)
Definition store_row (from to : string) : bool :=
  if ("pending" =? from)%string then str_in to ["accepted"; "cancelled"]
  else if ("accepted" =? from)%string then str_in to ["preparing"]
  else if ("preparing" =? from)%string then str_in to ["ready"]
  else false.

Definition deliverer_row (from to : string) : bool :=
  if ("ready" =? from)%string then str_in to ["delivering"]
  else if ("delivering" =? from)%string then str_in to ["delivered"]
  else false.

(** The role table of section 4.1: the admin row is the union of the two
    others plus cancellation from any active state; a role that is not in
    the table may request nothing. *)
Definition table (role from to : string) : bool :=
  if ("store" =? role)%string then store_row from to
  else if ("deliverer" =? role)%string then deliverer_row from to
  else if ("admin" =? role)%string then
    store_row from to || deliverer_row from to
    || (active_state from && ("cancelled" =? to)%string)
  else false.

(** What one request may do to one order row according to the graph: the
    row keeps its id, and its status stays or moves along an edge. *)
Definition graph_step (o o' : Order.t) : Prop :=
  Order.id o' = Order.id o
  /\ (Order.status o' = Order.status o
      \/ graph_edge (Order.status o) (Order.status o') = true).

(** The same, with what deleting a deliverer does to the deliverer's
    unfinished orders: back to [pending], without an assignee. *)
Definition order_step (op : System.op) (o o' : Order.t) : Prop :=
  Order.id o' = Order.id o
  /\ (Order.status o' = Order.status o
      \/ graph_edge (Order.status o) (Order.status o') = true
      \/ (System.is_deliverer_deletion op = true
          /\ str_in (Order.status o)
               ["accepted"; "preparing"; "ready"; "delivering"] = true
          /\ Order.status o' = "pending"
          /\ Order.deliverer_id o' = None)).

(** Every request of a sequence treats every order row as [order_step]
    allows. *)
Fixpoint trace_ok (ops : list System.op) (db : DB.t) : Prop :=
  match ops with
  | [] => True
  | op :: rest =>
    Forall2 (order_step op) (DB.orders db)
      (DB.orders (snd (System.step op db)))
    /\ trace_ok rest (snd (System.step op db))
  end.

(** Every request of a sequence moves every order row along the graph. *)
Fixpoint graph_trace (ops : list System.op) (db : DB.t) : Prop :=
  match ops with
  | [] => True
  | op :: rest =>
    Forall2 graph_step (DB.orders db) (DB.orders (snd (System.step op db)))
    /\ graph_trace rest (snd (System.step op db))
  end.

(** The number of active location rows of a deliverer. *)
Definition active_count (user_id : Z) (locations : list DelivererLocation.t)
    : nat :=
  length
    (filter
       (fun l =>
          ((DelivererLocation.deliverer_id l =? user_id)
           && DelivererLocation.is_active l)%bool)
       locations).

(** The invariant of section 3 on [DelivererLocation]. *)
Definition at_most_one_active (db : DB.t) : Prop :=
  forall user_id : Z,
    (active_count user_id (DB.deliverer_locations db) <= 1)%nat.

(** A location row with its [is_active] flag put aside: what the history
    keeps of it. *)
Definition location_data (l : DelivererLocation.t) : DelivererLocation.t :=
  DelivererLocation.set_is_active false l.

(** The caller may act on the order under the ownership rule: an admin,
    the user of the store the order belongs to, or the deliverer the order
    is assigned to. *)
Definition owner_or_admin (db : DB.t) (user_id : Z) (order : Order.t)
    : Prop :=
  exists user : User.t,
    get_user db user_id = Some user
    /\ (User.user_type user = "admin"
        \/ (User.user_type user = "store"
            /\ exists store : Store.t,
                 store_of_user db user_id = Some store
                 /\ Order.store_id order = Store.id store)
        \/ (User.user_type user = "deliverer"
            /\ Order.deliverer_id order = Some user_id)).

(** The client who placed the order. *)
Definition placing_client (db : DB.t) (user_id : Z) (order : Order.t)
    : Prop :=
  exists user : User.t,
    get_user db user_id = Some user
    /\ User.user_type user = "client"
    /\ Order.client_id order = user_id.

(** The active city override of a fee request, if there is one: the
    request names a city (by an id that Python takes as true, so not 0),
    the city exists and it is active. *)
Definition active_override (db : DB.t) (city_id : option Z)
    : option AllowedCity.t :=
  match city_id with
  | Some cid =>
    if cid =? 0 then None
    else
      match Admin.get_city db cid with
      | Some city => if AllowedCity.is_active city then Some city else None
      | None => None
      end
  | None => None
  end.

(** The per-km rate of section 4.4. *)
Definition rate (db : DB.t) (city_id : option Z) : R :=
  match active_override db city_id with
  | Some city => AllowedCity.delivery_fee_per_km city
  | None => Admin.get_platform_setting db "default_delivery_fee_per_km" 2
  end.

(** The caller has a user row of type ['deliverer']. *)
Definition is_deliverer_user (db : DB.t) (user_id : Z) : bool :=
  match get_user db user_id with
  | Some user => (User.user_type user =? "deliverer")%string
  | None => false
  end.

(** The caller has a deliverer profile that is online. *)
Definition is_online_deliverer (db : DB.t) (user_id : Z) : bool :=
  match deliverer_of_user db user_id with
  | Some deliverer => Deliverer.is_online deliverer
  | None => false
  end.

(** The caller has a deliverer profile that is approved. *)
Definition is_approved_deliverer (db : DB.t) (user_id : Z) : bool :=
  match deliverer_of_user db user_id with
  | Some deliverer => Deliverer.is_approved deliverer
  | None => false
  end.

End Spec.


(** ** Example databases *)

Module Examples.

Definition admin : User.t := User.mk 1 "admin" true true.
Definition store_user : User.t := User.mk 2 "store" true true.
Definition client : User.t := User.mk 3 "client" true true.
Definition other_store_user : User.t := User.mk 4 "store" true true.
Definition other_client : User.t := User.mk 5 "client" true true.
Definition deliverer_user : User.t := User.mk 7 "deliverer" true false.
Definition second_deliverer_user : User.t := User.mk 8 "deliverer" true true.
Definition third_deliverer_user : User.t := User.mk 9 "deliverer" true true.

(** A deliverer who has registered: offline and waiting for approval. *)
Definition new_profile : Deliverer.t := Deliverer.mk 70 7 false false 0.

(** A deliverer who is approved and online. *)
Definition working_profile : Deliverer.t := Deliverer.mk 80 8 true true 0.

Definition ready_order : Order.t :=
  Order.mk 100 3 20 None "ready" "Rua Augusta 10" "Sao Paulo" None 0.

Definition pending_order : Order.t :=
  Order.mk 101 3 20 None "pending" "Avenida Atlantica 5" "Rio de Janeiro"
    None 0.

Definition pending_request : DeliveryRequest.t :=
  DeliveryRequest.mk 500 3 None "pending".

(** A marketplace with two stores, three deliverers, an order that is ready
    and an order and a delivery request that are pending. *)
Definition market : DB.t :=
  DB.mk
    [admin; store_user; client; other_store_user; other_client;
     deliverer_user; second_deliverer_user; third_deliverer_user]
    [Store.mk 20 2; Store.mk 21 4]
    [new_profile; working_profile; Deliverer.mk 90 9 true true 0]
    [ready_order; pending_order]
    [pending_request]
    [] [] [] [].

(** The order of [market] that is ready, once deliverer 8 has claimed it. *)
Definition claimed_market : DB.t :=
  snd (Orders.accept_delivery 1 8 100 market).

(** Deliverer 7 is approved, goes online and is then rejected by the
    admin: the profile stays online without approval. *)
Definition rejected_online : DB.t :=
  System.run
    [System.ApproveDeliverer 1 70; System.ToggleOnline 7;
     System.RejectDeliverer 1 70]
    market.

(** Deliverer 8 carries two orders, addressed to different cities. *)
Definition two_in_flight : DB.t :=
  DB.set_orders
    [ Order.mk 100 3 20 (Some 8) "delivering" "Rua Augusta 10" "Sao Paulo"
        None 0;
      Order.mk 101 3 20 (Some 8) "delivering" "Avenida Atlantica 5"
        "Rio de Janeiro" None 0;
      Order.mk 102 5 21 (Some 7) "delivering" "Rua Chile 3" "Salvador"
        None 0;
      Order.mk 103 5 21 (Some 8) "delivered" "Rua Chile 3" "Salvador"
        None 0 ]
    market.

(** The platform settings as [initialize_default_settings] writes them,
    and a city with its own rate. *)
Definition priced_market : DB.t :=
  DB.mk [] [] [] [] [] [] []
    [AllowedCity.mk 1 true 3 40; AllowedCity.mk 2 false 4 50]
    [ ("platform_commission_percentage", 5%R);
      ("default_delivery_fee_per_km", 2%R);
      ("minimum_delivery_fee", 5%R);
      ("maximum_delivery_distance", 10%R);
      ("default_minimum_order_value", 30%R) ].



(** A position report with latitude and longitude only. *)
Definition report (latitude longitude : R) : LocationBody.t :=
  LocationBody.mk (Some latitude) (Some longitude) None None None.

End Examples.

From Stdlib Require Import Sorted.

(** ** More of [src/routes/orders.py]: the read side *)

Module OrderQueries.

(** The rows of a query that ends in [order_by(Order.created_at.desc())]:
    orders are appended with [created_at] the clock at insertion and are
    never removed, so the newest come last in the table. *)
Definition newest_first (p : Order.t -> bool) (db : DB.t) : list Order.t :=
  rev (filter p (DB.orders db)).

(** [GET /api/orders/my-orders] *)
Definition get_my_orders (user_id : Z) (db : DB.t) : error + list Order.t :=
  match get_user db user_id with
  | None => inl NotFound
  | Some user =>
    if (User.user_type user =? "client")%string then
      inr (newest_first (fun o => Order.client_id o =? user_id) db)
    else if (User.user_type user =? "store")%string then
      match store_of_user db user_id with
      | None => inl NotFound
      | Some store =>
        inr (newest_first (fun o => Order.store_id o =? Store.id store) db)
      end
    else if (User.user_type user =? "deliverer")%string then
      inr (newest_first (fun o => id_eqb (Order.deliverer_id o) user_id) db)
    else inl Forbidden
  end.

(** The [has_access] flag of [get_order]. *)
Definition has_access (db : DB.t) (user : User.t) (user_id : Z)
    (order : Order.t) : bool :=
  if ((User.user_type user =? "client")%string
      && (Order.client_id order =? user_id))%bool then true
  else if (User.user_type user =? "store")%string then
    match store_of_user db user_id with
    | Some store => Order.store_id order =? Store.id store
    | None => false
    end
  else if ((User.user_type user =? "deliverer")%string
           && id_eqb (Order.deliverer_id order) user_id)%bool then true
  else if (User.user_type user =? "admin")%string then true
  else false.

(** [GET /api/orders/<order_id>] *)
Definition get_order (user_id order_id : Z) (db : DB.t) : error + Order.t :=
  match get_order db order_id with
  | None => inl NotFound
  | Some order =>
    match get_user db user_id with
    | None => inl InternalError
    | Some user =>
      if negb (has_access db user user_id order) then inl Forbidden
      else inr order
    end
  end.

End OrderQueries.

(** ** More of [src/routes/deliverers.py]: delivery requests *)

Module DeliveryRequests.

(** The list [allowed_payment_methods] of [create_delivery_request]. *)
Definition allowed_payment_methods : list string :=
  ["credit_card"; "debit_card"; "cash"; "pix"].

(** [POST /api/deliverers/delivery-requests].  The three texts are the
    required fields after [sanitize_string]; [payment_method] is the
    optional field after [sanitize_string], [None] when the body has no
    such key; [new_id] is the primary key the database gives the new row.
    The estimated price and time drawn with [random] go to columns that
    are left out. *)
Definition create_delivery_request (new_id user_id : Z)
    (pickup_address delivery_address item_description : string)
    (payment_method : option string) (db : DB.t) : response * DB.t :=
  match get_user db user_id with
  | None => (Error Forbidden, db)
  | Some user =>
    if negb (User.user_type user =? "client")%string then
      (Error Forbidden, db)
    else
      let payment_method :=
        match payment_method with
        | Some m => m
        | None => "pix"
        end in
      if ((pickup_address =? "")%string || (delivery_address =? "")%string
          || (item_description =? "")%string)%bool then (Error BadRequest, db)
      else if negb (str_in payment_method allowed_payment_methods) then
        (Error BadRequest, db)
      else
        (Ok,
         DB.set_delivery_requests
           (DB.delivery_requests db
            ++ [DeliveryRequest.mk new_id user_id None "pending"])
           db)
  end.

(** The rows of a query that ends in
    [order_by(DeliveryRequest.created_at.desc())]. *)
Definition newest_first (p : DeliveryRequest.t -> bool) (db : DB.t)
    : list DeliveryRequest.t :=
  rev (filter p (DB.delivery_requests db)).

(** [GET /api/deliverers/delivery-requests/available] *)
Definition get_available_delivery_requests (user_id : Z) (db : DB.t)
    : error + list DeliveryRequest.t :=
  match get_user db user_id with
  | None => inl Forbidden
  | Some user =>
    if negb (User.user_type user =? "deliverer")%string then inl Forbidden
    else
      match deliverer_of_user db user_id with
      | None => inl NotEligible
      | Some deliverer =>
        if negb (Deliverer.is_online deliverer) then inl NotEligible
        else
          inr
            (newest_first
               (fun r =>
                  ((DeliveryRequest.status r =? "pending")%string
                   && match DeliveryRequest.deliverer_id r with
                      | None => true
                      | Some _ => false
                      end)%bool)
               db)
      end
  end.

(** [GET /api/deliverers/my-delivery-requests] *)
Definition get_my_delivery_requests (user_id : Z) (db : DB.t)
    : error + list DeliveryRequest.t :=
  match get_user db user_id with
  | None => inl NotFound
  | Some user =>
    if (User.user_type user =? "client")%string then
      inr (newest_first (fun r => DeliveryRequest.client_id r =? user_id) db)
    else if (User.user_type user =? "deliverer")%string then
      inr
        (newest_first
           (fun r => id_eqb (DeliveryRequest.deliverer_id r) user_id) db)
    else inl Forbidden
  end.

End DeliveryRequests.

(** ** More of [src/routes/admin.py]: deliverers, cities and settings *)

(** The JSON body of [update_allowed_city].  A field is [None] when its key
    is missing; ['name'] and ['state'] go to columns that are left out. *)
Module CityBody.
Record t := mk {
  delivery_fee_per_km : option R;
  minimum_order_value : option R;
  is_active : option bool
}.
End CityBody.

(** The JSON body of [update_platform_fees], its numbers as [float] reads
    them.  The numbers are real numbers: a body with ['nan'] for a number
    is not covered (the comparisons of the handler are all false for it,
    so that it is written like a number within the bounds).  The two flags ['allow_store_set_minimum'] and
    ['allow_store_set_delivery_fee'] are written as the texts ['true'] and
    ['false'] under their own keys; no embedded handler reads those keys,
    and [DB.platform_settings] holds the numeric settings only. *)
Module FeesBody.
Record t := mk {
  platform_commission_percentage : option R;
  default_delivery_fee_per_km : option R;
  minimum_delivery_fee : option R;
  maximum_delivery_distance : option R;
  default_minimum_order_value : option R
}.
End FeesBody.

Module AdminMore.

(** [POST /api/admin/deliverers/<deliverer_id>/reactivate]: the profile
    goes back to review, the user is active again; [is_online] is not
    written. *)
Definition reactivate_deliverer (caller_id deliverer_id : Z) (db : DB.t)
    : response * DB.t :=
  if negb (Admin.admin_required db caller_id) then (Error Forbidden, db)
  else
    match get_deliverer db deliverer_id with
    | None => (Error NotFound, db)
    | Some deliverer =>
      match get_user db (Deliverer.user_id deliverer) with
      | None => (Error InternalError, db)
      | Some user =>
        (Ok,
         save_user
           (User.mk (User.id user) (User.user_type user) true false)
           (save_deliverer (Deliverer.set_is_approved false deliverer) db))
      end
    end.

(** The assignments of [update_allowed_city], field by field. *)
Definition apply_city_body (data : CityBody.t) (city : AllowedCity.t)
    : AllowedCity.t :=
  let fee :=
    match CityBody.delivery_fee_per_km data with
    | Some v => v
    | None => AllowedCity.delivery_fee_per_km city
    end in
  let minimum :=
    match CityBody.minimum_order_value data with
    | Some v => v
    | None => AllowedCity.minimum_order_value city
    end in
  let active :=
    match CityBody.is_active data with
    | Some v => v
    | None => AllowedCity.is_active city
    end in
  AllowedCity.mk (AllowedCity.id city) active fee minimum.

Definition set_allowed_cities (x : list AllowedCity.t) (d : DB.t) : DB.t :=
  DB.mk (DB.users d) (DB.stores d) (DB.deliverers d) (DB.orders d)
    (DB.delivery_requests d) (DB.deliverer_locations d) (DB.order_tracking d)
    x (DB.platform_settings d).

Definition set_platform_settings (x : list (string * R)) (d : DB.t) : DB.t :=
  DB.mk (DB.users d) (DB.stores d) (DB.deliverers d) (DB.orders d)
    (DB.delivery_requests d) (DB.deliverer_locations d) (DB.order_tracking d)
    (DB.allowed_cities d) x.

(** [PUT /api/admin/cities/<city_id>] *)
Definition update_allowed_city (caller_id city_id : Z) (data : CityBody.t)
    (db : DB.t) : response * DB.t :=
  if negb (Admin.admin_required db caller_id) then (Error Forbidden, db)
  else
    match Admin.get_city db city_id with
    | None => (Error NotFound, db)
    | Some city =>
      (Ok,
       set_allowed_cities
         (replace_first (fun c => AllowedCity.id c =? AllowedCity.id city)
            (apply_city_body data city) (DB.allowed_cities db))
         db)
    end.

(** [DELETE /api/admin/cities/<city_id>] *)
Definition delete_allowed_city (caller_id city_id : Z) (db : DB.t)
    : response * DB.t :=
  if negb (Admin.admin_required db caller_id) then (Error Forbidden, db)
  else
    match Admin.get_city db city_id with
    | None => (Error NotFound, db)
    | Some city =>
      (Ok,
       set_allowed_cities
         (Admin.remove_first (fun c => AllowedCity.id c =? AllowedCity.id city)
            (DB.allowed_cities db))
         db)
    end.

(** [update_platform_setting(key, value)] for a number: the first row with
    the key takes the value, or a new row is added.  The row stores
    [str(value)], which [float] reads back as the value. *)
Definition update_platform_setting (key : string) (value : R) (db : DB.t)
    : DB.t :=
  match find (fun kv => (fst kv =? key)%string) (DB.platform_settings db) with
  | Some _ =>
    set_platform_settings
      (replace_first (fun kv => (fst kv =? key)%string) (key, value)
         (DB.platform_settings db))
      db
  | None =>
    set_platform_settings (DB.platform_settings db ++ [(key, value)]) db
  end.

(** [PUT /api/admin/platform/fees]: the fields are checked and written one
    after the other, each write with its own commit; the first value out
    of range ends the request with 400. *)
Definition update_platform_fees (caller_id : Z) (data : FeesBody.t)
    (db : DB.t) : response * DB.t :=
  if negb (Admin.admin_required db caller_id) then (Error Forbidden, db)
  else
    let step1 (db : DB.t) (k : DB.t -> response * DB.t) :=
      match FeesBody.platform_commission_percentage data with
      | None => k db
      | Some commission =>
        if Rlt_dec commission 0 then (Error BadRequest, db)
        else if Rlt_dec 50 commission then (Error BadRequest, db)
        else
          k (update_platform_setting "platform_commission_percentage"
               commission db)
      end in
    let step2 (db : DB.t) (k : DB.t -> response * DB.t) :=
      match FeesBody.default_delivery_fee_per_km data with
      | None => k db
      | Some fee_per_km =>
        if Rlt_dec fee_per_km 0 then (Error BadRequest, db)
        else
          k (update_platform_setting "default_delivery_fee_per_km"
               fee_per_km db)
      end in
    let step3 (db : DB.t) (k : DB.t -> response * DB.t) :=
      match FeesBody.minimum_delivery_fee data with
      | None => k db
      | Some min_fee =>
        if Rlt_dec min_fee 0 then (Error BadRequest, db)
        else k (update_platform_setting "minimum_delivery_fee" min_fee db)
      end in
    let step4 (db : DB.t) (k : DB.t -> response * DB.t) :=
      match FeesBody.maximum_delivery_distance data with
      | None => k db
      | Some max_distance =>
        if Rle_dec max_distance 0 then (Error BadRequest, db)
        else
          k (update_platform_setting "maximum_delivery_distance"
               max_distance db)
      end in
    let step5 (db : DB.t) (k : DB.t -> response * DB.t) :=
      match FeesBody.default_minimum_order_value data with
      | None => k db
      | Some min_order =>
        if Rlt_dec min_order 0 then (Error BadRequest, db)
        else
          k (update_platform_setting "default_minimum_order_value"
               min_order db)
      end in
    step1 db (fun db =>
    step2 db (fun db =>
    step3 db (fun db =>
    step4 db (fun db =>
    step5 db (fun db => (Ok, db)))))).

End AdminMore.

(** ** More of [src/routes/geolocation.py]: nearby deliverers, estimates *)

(** One item of the list [get_nearby_deliverers] answers with: the fields
    of the location, ['distance_km'] and ['estimated_arrival']. *)
Module NearbyDeliverer.
Record t := mk {
  location : DelivererLocation.t;
  distance_km : R;
  estimated_arrival : R
}.
End NearbyDeliverer.

(** The JSON body of [estimate-delivery]; a field is [None] when its key
    is missing. *)
Module EstimateBody.
Record t := mk {
  pickup_lat : option R;
  pickup_lon : option R;
  delivery_lat : option R;
  delivery_lon : option R
}.
End EstimateBody.

(** What [estimate_delivery_time] answers with. *)
Module Estimate.
Record t := mk {
  distance_km : R;
  estimated_time_minutes : Z;
  estimated_price : R
}.
End Estimate.

Module GeolocationMore.

Local Open Scope R_scope.

(** Python's [round(x)]: the nearest integer, the even one of two that are
    equally near. *)
Definition py_round (x : R) : Z :=
  let below := Int_part x in
  let rest := x - IZR below in
  if Rlt_dec rest (1 / 2) then below
  else if Rlt_dec (1 / 2) rest then (below + 1)%Z
  else if Z.even below then below
  else (below + 1)%Z.

(** Python's [round(x, 2)]: the nearest multiple of 0.01. *)
Definition py_round2 (x : R) : R := IZR (py_round (x * 100)) / 100.

(** [list.sort(key=...)]: a stable sort, smaller keys first. *)
Fixpoint insert_by {A : Type} (key : A -> R) (x : A) (l : list A) : list A :=
  match l with
  | [] => [x]
  | y :: l' =>
    if Rle_dec (key x) (key y) then x :: y :: l'
    else y :: insert_by key x l'
  end.

Definition sort_by {A : Type} (key : A -> R) (l : list A) : list A :=
  fold_right (insert_by key) [] l.

(** The join of [get_nearby_deliverers]: the active locations of the last
    ten minutes whose deliverer has a profile that is online and approved.
    A query for one entity gives each row once, however many profiles
    match it. *)
Definition recent_locations (now : R) (db : DB.t) : list DelivererLocation.t :=
  let recent_time := now - 10 in
  filter
    (fun l =>
       (DelivererLocation.is_active l
        && (if Rle_dec recent_time (DelivererLocation.created_at l)
            then true else false)
        && existsb
             (fun d =>
                ((Deliverer.user_id d =? DelivererLocation.deliverer_id l)%Z
                 && Deliverer.is_online d && Deliverer.is_approved d)%bool)
             (DB.deliverers db))%bool)
    (DB.deliverer_locations db).

(** The loop of [get_nearby_deliverers] over the locations. *)
Definition within_radius (now latitude longitude radius_km : R)
    (locations : list DelivererLocation.t) : list NearbyDeliverer.t :=
  flat_map
    (fun l =>
       let distance :=
         Geolocation.calculate_distance latitude longitude
           (DelivererLocation.latitude l) (DelivererLocation.longitude l) in
       if Rle_dec distance radius_km then
         [NearbyDeliverer.mk l (py_round2 distance)
            (Geolocation.estimate_arrival_time now distance)]
       else [])
    locations.

(** [GET /api/geolocation/nearby-deliverers].  The three arguments of the
    query string are [None] when missing. *)
Definition get_nearby_deliverers (now : R) (user_id : Z)
    (latitude longitude radius : option R) (db : DB.t)
    : error + list NearbyDeliverer.t :=
  match get_user db user_id with
  | None => inl Forbidden
  | Some user =>
    if negb (str_in (User.user_type user) ["store"; "admin"]) then
      inl Forbidden
    else
      let latitude :=
        match latitude with Some v => v | None => -23.5505 end in
      let longitude :=
        match longitude with Some v => v | None => -46.6333 end in
      let radius_km := match radius with Some v => v | None => 5 end in
      inr
        (sort_by NearbyDeliverer.distance_km
           (within_radius now latitude longitude radius_km
              (recent_locations now db)))
  end.

(** [POST /api/geolocation/estimate-delivery].  The handler reads the
    clock twice: [estimate_arrival_time] adds the travel time to the
    reading [now], and the minutes of the answer are counted from a
    second reading [later], taken when the answer is built. *)
Definition estimate_delivery_time (now later : R) (data : EstimateBody.t)
    : error + Estimate.t :=
  match
    EstimateBody.pickup_lat data, EstimateBody.pickup_lon data,
    EstimateBody.delivery_lat data, EstimateBody.delivery_lon data
  with
  | Some pickup_lat, Some pickup_lon, Some delivery_lat, Some delivery_lon =>
    let distance :=
      Geolocation.calculate_distance pickup_lat pickup_lon delivery_lat
        delivery_lon in
    let estimated_time := Geolocation.estimate_arrival_time now distance in
    let base_price := 5 in
    let price_per_km := 2.5 in
    let estimated_price := base_price + distance * price_per_km in
    inr
      (Estimate.mk (py_round2 distance) (py_round (estimated_time - later))
         (py_round2 estimated_price))
  | _, _, _, _ => inl BadRequest
  end.

End GeolocationMore.

(** ** [src/security_improvements.py]: the rate limiter *)

Module RateLimit.

Local Open Scope R_scope.

(** [request_counts]: for each key the deque of the times of the requests
    that were let through, oldest first.  A key that was never used has an
    empty deque. *)
Definition counts : Type := list (string * list R).

Definition get (c : counts) (key : string) : list R := dict_get c key [].

(** [request_counts[key] = q] *)
Fixpoint set (c : counts) (key : string) (q : list R) : counts :=
  match c with
  | [] => [(key, q)]
  | (k, v) :: c' =>
    if (k =? key)%string then (key, q) :: c' else (k, v) :: set c' key q
  end.

(** The loop [while q and q[0] < window_start: q.popleft()]. *)
Fixpoint drop_old (window_start : R) (q : list R) : list R :=
  match q with
  | [] => []
  | t :: q' => if Rlt_dec t window_start then drop_old window_start q' else q
  end.

(** One pass through the decorator [rate_limit(max_requests,
    window_minutes)] for the key of the caller at the clock value [now]:
    whether the request is let through to the handler ([false] is the
    answer 429), and the deques after it. *)
Definition rate_limit (max_requests : Z) (window_minutes : R) (key : string)
    (now : R) (c : counts) : bool * counts :=
  let window_start := now - window_minutes in
  let q := drop_old window_start (get c key) in
  if (Z.of_nat (length q) >=? max_requests)%Z then (false, set c key q)
  else (true, set c key (q ++ [now])).

(** The requests of one caller to routes with the same limit, at the
    given times, one after the other: which of them are let through. *)
Fixpoint serve (max_requests : Z) (window_minutes : R) (key : string)
    (times : list R) (c : counts) : list bool :=
  match times with
  | [] => []
  | now :: rest =>
    fst (rate_limit max_requests window_minutes key now c)
    :: serve max_requests window_minutes key rest
         (snd (rate_limit max_requests window_minutes key now c))
  end.

(** The deques after the same requests. *)
Fixpoint after (max_requests : Z) (window_minutes : R) (key : string)
    (times : list R) (c : counts) : counts :=
  match times with
  | [] => c
  | now :: rest =>
    after max_requests window_minutes key rest
      (snd (rate_limit max_requests window_minutes key now c))
  end.

End RateLimit.

(** ** More of [src/routes/orders.py]: placing an order *)

(** The columns of [products] that [create_order] reads and writes. *)
Module Product.
Record t := mk {
  id : Z;
  store_id : Z;
  price : R;
  stock_quantity : Z;
  is_active : bool
}.

Definition set_stock_quantity (n : Z) (p : t) : t :=
  mk (id p) (store_id p) (price p) n (is_active p).
End Product.

Module OrderItem.
Record t := mk {
  order_id : Z;
  product_id : Z;
  quantity : Z;
  unit_price : R;
  total_price : R
}.
End OrderItem.

(** The rows of [stores] as [create_order] and the approval handlers of
    the admin read and write them: with the columns [is_approved] and
    [is_active], which no other embedded handler reads. *)
Module StoreFlags.
Record t := mk {
  id : Z;
  user_id : Z;
  is_approved : bool;
  is_active : bool
}.
End StoreFlags.

(** The money columns of [orders], which no other embedded handler
    reads. *)
Module OrderAmount.
Record t := mk {
  order_id : Z;
  total_amount : R;
  delivery_fee : R;
  payment_method : string
}.
End OrderAmount.

(** The tables and columns that only [create_order] uses. *)
Module Catalogue.
Record t := mk {
  store_flags : list StoreFlags.t;
  products : list Product.t;
  order_items : list OrderItem.t;
  order_amounts : list OrderAmount.t
}.
End Catalogue.

(** The JSON body of [create_order].  ['store_id'] is a JSON integer.  An
    item gives ['product_id'] and ['quantity'] as JSON integers, [None]
    standing for a key that is missing or a value that is not an integer.
    ['delivery_address'], ['payment_method'], ['delivery_city'] and
    ['notes'] are the texts after [sanitize_string], the two optional ones
    empty when missing; ['delivery_fee'] is the number [float] reads,
    [None] when the key is missing.  ['delivery_state'] and
    ['delivery_zip_code'] go to columns that are left out. *)
Module OrderBody.
Record item := mk_item {
  product_id : option Z;
  quantity : option Z
}.

Record t := mk {
  store_id : Z;
  items : list item;
  delivery_address : string;
  payment_method : string;
  delivery_fee : option R;
  delivery_city : string;
  notes : string
}.
End OrderBody.

Module OrdersMore.

(** The list [allowed_payment_methods] of [create_order]. *)
Definition allowed_payment_methods : list string :=
  ["credit_card"; "debit_card"; "cash"; "pix"].

(** [str(n).isdigit()] for an integer: the decimal text of [n] has digits
    only, that is, no sign. *)
Definition isdigit (n : Z) : bool := 0 <=? n.

(** The filter of [Product.query.filter_by(id=product_id,
    store_id=store_id, is_active=True)]. *)
Definition sold_by (store_id product_id : Z) (p : Product.t) : bool :=
  ((Product.id p =? product_id) && (Product.store_id p =? store_id)
   && Product.is_active p)%bool.

(** The first loop of [create_order]: each item is checked against the
    products as they are before the order, and the list [order_items] of
    products and quantities is built. *)
Fixpoint check_items (store_id : Z) (products : list Product.t)
    (items : list OrderBody.item) : error + list (Product.t * Z) :=
  match items with
  | [] => inr []
  | item_data :: rest =>
    match OrderBody.product_id item_data, OrderBody.quantity item_data with
    | Some product_id, Some quantity =>
      if (negb (isdigit product_id) || negb (isdigit quantity))%bool then
        inl BadRequest
      else if quantity <=? 0 then inl BadRequest
      else
        match find (sold_by store_id product_id) products with
        | None => inl NotFound
        | Some product =>
          if Product.stock_quantity product <? quantity then inl BadRequest
          else
            match check_items store_id products rest with
            | inl e => inl e
            | inr order_items => inr ((product, quantity) :: order_items)
            end
        end
    | _, _ => inl BadRequest
    end
  end.

(** [item_total = product.price * quantity] *)
Definition item_total (line : Product.t * Z) : R :=
  (Product.price (fst line) * IZR (snd line))%R.

(** [total_amount], summed in the order of the items. *)
Definition total_amount (order_items : list (Product.t * Z)) : R :=
  fold_left (fun total line => (total + item_total line)%R) order_items 0%R.

(** [item_data["product"].stock_quantity -= item_data["quantity"]]: the
    product of an item is the row that the query of the first loop found,
    and the same query finds it again, whatever stock was taken from it
    meanwhile. *)
Definition take_stock (store_id : Z) (products : list Product.t)
    (line : Product.t * Z) : list Product.t :=
  match find (sold_by store_id (Product.id (fst line))) products with
  | Some product =>
    replace_first (sold_by store_id (Product.id (fst line)))
      (Product.set_stock_quantity
         (Product.stock_quantity product - snd line) product)
      products
  | None => products
  end.

(** The row of [order_items] for one item. *)
Definition order_item_row (order_id : Z) (line : Product.t * Z)
    : OrderItem.t :=
  OrderItem.mk order_id (Product.id (fst line)) (snd line)
    (Product.price (fst line)) (item_total line).

(** [POST /api/orders/], the view behind its decorators.  [new_id] is the
    primary key the database gives the order at [flush]; the order number
    drawn with [random] goes to a column that is left out.  The order is
    created with the defaults of its columns: status ['pending'], no
    deliverer. *)
Definition create_order (new_id : Z) (now : R) (user_id : Z)
    (data : OrderBody.t) (state : DB.t * Catalogue.t)
    : response * (DB.t * Catalogue.t) :=
  let (db, catalogue) := state in
  match get_user db user_id with
  | None => (Error Forbidden, state)
  | Some user =>
    if negb (User.user_type user =? "client")%string then
      (Error Forbidden, state)
    else if negb (isdigit (OrderBody.store_id data)) then
      (Error BadRequest, state)
    else
      let store_id := OrderBody.store_id data in
      match
        find
          (fun s =>
             ((StoreFlags.id s =? store_id) && StoreFlags.is_approved s
              && StoreFlags.is_active s)%bool)
          (Catalogue.store_flags catalogue)
      with
      | None => (Error NotFound, state)
      | Some store =>
        match OrderBody.items data with
        | [] => (Error BadRequest, state)
        | _ :: _ =>
          if (OrderBody.delivery_address data =? "")%string then
            (Error BadRequest, state)
          else if negb (str_in (OrderBody.payment_method data)
                          allowed_payment_methods) then
            (Error BadRequest, state)
          else
            match
              check_items store_id (Catalogue.products catalogue)
                (OrderBody.items data)
            with
            | inl e => (Error e, state)
            | inr order_items =>
              let delivery_fee :=
                match OrderBody.delivery_fee data with
                | Some fee => fee
                | None => 0%R
                end in
              let order :=
                Order.mk new_id user_id store_id None "pending"
                  (OrderBody.delivery_address data)
                  (OrderBody.delivery_city data)
                  (Some (OrderBody.notes data)) now in
              (Ok,
               (DB.set_orders (DB.orders db ++ [order]) db,
                Catalogue.mk (Catalogue.store_flags catalogue)
                  (fold_left (take_stock store_id) order_items
                     (Catalogue.products catalogue))
                  (Catalogue.order_items catalogue
                   ++ map (order_item_row new_id) order_items)
                  (Catalogue.order_amounts catalogue
                   ++ [OrderAmount.mk new_id (total_amount order_items)
                         delivery_fee (OrderBody.payment_method data)])))
            end
        end
      end
  end.

End OrdersMore.

(** ** More of [src/routes/admin.py]: the approval of stores *)

Module AdminStores.

Definition set_store_flags (x : list StoreFlags.t) (c : Catalogue.t)
    : Catalogue.t :=
  Catalogue.mk x (Catalogue.products c) (Catalogue.order_items c)
    (Catalogue.order_amounts c).

(** [POST /api/admin/stores/<store_id>/approve]: the store and its user
    are approved; [is_active] is not written.  A store without a user row
    makes [store.user.is_approved = True] raise, which the handler answers
    with 500 after a rollback. *)
Definition approve_store (caller_id store_id : Z) (state : DB.t * Catalogue.t)
    : response * (DB.t * Catalogue.t) :=
  let (db, catalogue) := state in
  if negb (Admin.admin_required db caller_id) then (Error Forbidden, state)
  else
    match
      find (fun s => StoreFlags.id s =? store_id)
        (Catalogue.store_flags catalogue)
    with
    | None => (Error NotFound, state)
    | Some store =>
      match get_user db (StoreFlags.user_id store) with
      | None => (Error InternalError, state)
      | Some user =>
        (Ok,
         (save_user
            (User.mk (User.id user) (User.user_type user) (User.is_active user)
               true)
            db,
          set_store_flags
            (replace_first (fun s => StoreFlags.id s =? StoreFlags.id store)
               (StoreFlags.mk (StoreFlags.id store) (StoreFlags.user_id store)
                  true (StoreFlags.is_active store))
               (Catalogue.store_flags catalogue))
            catalogue))
      end
    end.

(** [POST /api/admin/stores/<store_id>/reject]: the store and its user
    lose their approval and are deactivated. *)
Definition reject_store (caller_id store_id : Z) (state : DB.t * Catalogue.t)
    : response * (DB.t * Catalogue.t) :=
  let (db, catalogue) := state in
  if negb (Admin.admin_required db caller_id) then (Error Forbidden, state)
  else
    match
      find (fun s => StoreFlags.id s =? store_id)
        (Catalogue.store_flags catalogue)
    with
    | None => (Error NotFound, state)
    | Some store =>
      match get_user db (StoreFlags.user_id store) with
      | None => (Error InternalError, state)
      | Some user =>
        (Ok,
         (save_user
            (User.mk (User.id user) (User.user_type user) false
               false)
            db,
          set_store_flags
            (replace_first (fun s => StoreFlags.id s =? StoreFlags.id store)
               (StoreFlags.mk (StoreFlags.id store) (StoreFlags.user_id store)
                  false false)
               (Catalogue.store_flags catalogue))
            catalogue))
      end
    end.

(** [POST /api/admin/stores/<store_id>/reactivate]: the store and its
    user are active again and go back to review. *)
Definition reactivate_store (caller_id store_id : Z) (state : DB.t * Catalogue.t)
    : response * (DB.t * Catalogue.t) :=
  let (db, catalogue) := state in
  if negb (Admin.admin_required db caller_id) then (Error Forbidden, state)
  else
    match
      find (fun s => StoreFlags.id s =? store_id)
        (Catalogue.store_flags catalogue)
    with
    | None => (Error NotFound, state)
    | Some store =>
      match get_user db (StoreFlags.user_id store) with
      | None => (Error InternalError, state)
      | Some user =>
        (Ok,
         (save_user
            (User.mk (User.id user) (User.user_type user) true
               false)
            db,
          set_store_flags
            (replace_first (fun s => StoreFlags.id s =? StoreFlags.id store)
               (StoreFlags.mk (StoreFlags.id store) (StoreFlags.user_id store)
                  false true)
               (Catalogue.store_flags catalogue))
            catalogue))
      end
    end.

End AdminStores.

(** ** More of [src/routes/admin.py]: the settings *)

Module AdminSettings.

(** One round of the loop of [update_platform_settings]: the first row
    with the key takes the value, or a new row is added.  The row stores
    [str(value)], which [float] reads back as the value. *)
Definition write_setting (db : DB.t) (item : string * R) : DB.t :=
  let (key, value) := item in
  match find (fun kv => (fst kv =? key)%string) (DB.platform_settings db) with
  | Some _ =>
    AdminMore.set_platform_settings
      (replace_first (fun kv => (fst kv =? key)%string) (key, value)
         (DB.platform_settings db))
      db
  | None =>
    AdminMore.set_platform_settings
      (DB.platform_settings db ++ [(key, value)]) db
  end.

(** [POST /api/admin/settings].  [data] gives the items of the JSON object
    of the body in their order, its values numbers; no value is checked,
    and all rows are committed together. *)
Definition update_platform_settings (caller_id : Z) (data : list (string * R))
    (db : DB.t) : response * DB.t :=
  if negb (Admin.admin_required db caller_id) then (Error Forbidden, db)
  else (Ok, fold_left write_setting data db).

End AdminSettings.

(** ** Predicates for the further properties *)

Module Props.

(** A location row that [get_nearby_deliverers] may show at the clock
    value [now]: it is active, not older than ten minutes, and a profile
    that is online and approved belongs to its deliverer. *)
Definition shown_location (now : R) (db : DB.t) (l : DelivererLocation.t)
    : Prop :=
  In l (DB.deliverer_locations db)
  /\ DelivererLocation.is_active l = true
  /\ (now - 10 <= DelivererLocation.created_at l)%R
  /\ exists d : Deliverer.t,
       In d (DB.deliverers db)
       /\ Deliverer.user_id d = DelivererLocation.deliverer_id l
       /\ Deliverer.is_online d = true
       /\ Deliverer.is_approved d = true.

(** The item [get_nearby_deliverers] builds for a location. *)
Definition nearby_item (now latitude longitude : R) (l : DelivererLocation.t)
    : NearbyDeliverer.t :=
  let distance :=
    Geolocation.calculate_distance latitude longitude
      (DelivererLocation.latitude l) (DelivererLocation.longitude l) in
  NearbyDeliverer.mk l (GeolocationMore.py_round2 distance)
    (Geolocation.estimate_arrival_time now distance).

(** The term [a] of [calculate_distance]: the square of half the chord
    between the two points, on a sphere of diameter 1. *)
Definition haversine (lat1 lon1 lat2 lon2 : R) : R :=
  (sin (Geolocation.radians (lat2 - lat1) / 2)
   * sin (Geolocation.radians (lat2 - lat1) / 2)
   + cos (Geolocation.radians lat1) * cos (Geolocation.radians lat2)
     * sin (Geolocation.radians (lon2 - lon1) / 2)
     * sin (Geolocation.radians (lon2 - lon1) / 2))%R.

(** Coordinates of a point of the globe, in degrees. *)
Definition geographic (lat lon : R) : Prop :=
  (-90 <= lat <= 90)%R /\ (-180 <= lon <= 180)%R.

(** Two points are clear of each other's antipode: [a] stays below 1 by
    a billionth, which is what it does for two points that are not
    within some hundred metres of being opposite on the globe.  For
    geographic coordinates the source computes [a] in double precision
    with an error many orders smaller, so that [1 - a] cannot become
    negative there and [math.sqrt(1 - a)] does not raise. *)
Definition clear_of_antipode (lat1 lon1 lat2 lon2 : R) : Prop :=
  (haversine lat1 lon1 lat2 lon2 <= 1 - 1 / 1000000000)%R.

(** The body of [estimate-delivery] for the way back. *)
Definition way_back (data : EstimateBody.t) : EstimateBody.t :=
  EstimateBody.mk (EstimateBody.delivery_lat data)
    (EstimateBody.delivery_lon data) (EstimateBody.pickup_lat data)
    (EstimateBody.pickup_lon data).

(** The times of the requests that were let through. *)
Definition let_through (times : list R) (flags : list bool) : list R :=
  map fst (filter snd (combine times flags)).

(** The times of a list that are not before [start]. *)
Definition since (start : R) (times : list R) : list R :=
  filter (fun u => if Rle_dec start u then true else false) times.

(** The primary keys of a table are different from each other. *)
Definition unique_request_ids (db : DB.t) : Prop :=
  NoDup (map DeliveryRequest.id (DB.delivery_requests db)).

Definition unique_deliverer_ids (db : DB.t) : Prop :=
  NoDup (map Deliverer.id (DB.deliverers db)).

Definition unique_order_ids (db : DB.t) : Prop :=
  NoDup (map Order.id (DB.orders db)).

Definition unique_user_ids (db : DB.t) : Prop :=
  NoDup (map User.id (DB.users db)).

Definition unique_store_ids (db : DB.t) : Prop :=
  NoDup (map Store.id (DB.stores db)).

Definition unique_city_ids (db : DB.t) : Prop :=
  NoDup (map AllowedCity.id (DB.allowed_cities db)).

(** The five numbers of the fee settings: the key, the field of the body
    of [update_platform_fees] and the default [get_platform_fees] reads
    the key with. *)
Definition fee_fields : list (string * (FeesBody.t -> option R) * R) :=
  [ ("platform_commission_percentage",
     FeesBody.platform_commission_percentage, 5%R);
    ("default_delivery_fee_per_km", FeesBody.default_delivery_fee_per_km,
     2%R);
    ("minimum_delivery_fee", FeesBody.minimum_delivery_fee, 5%R);
    ("maximum_delivery_distance", FeesBody.maximum_delivery_distance, 10%R);
    ("default_minimum_order_value", FeesBody.default_minimum_order_value,
     30%R) ].

(** The fee settings once the fields that a body gives are written over
    them, one after the other. *)
Definition written_fees (data : FeesBody.t) (db : DB.t) : DB.t :=
  fold_left
    (fun db entry =>
       match snd (fst entry) data with
       | Some v => AdminMore.update_platform_setting (fst (fst entry)) v db
       | None => db
       end)
    fee_fields db.

(** A fee setting as a body gives it, or else as the database has it. *)
Definition fee_after (data : FeesBody.t) (db : DB.t)
    (entry : string * (FeesBody.t -> option R) * R) : R :=
  match snd (fst entry) data with
  | Some v => v
  | None => Admin.get_platform_setting db (fst (fst entry)) (snd entry)
  end.

(** The fee settings are within the bounds [update_platform_fees] checks. *)
Definition fees_in_range (db : DB.t) : Prop :=
  (0 <= Admin.get_platform_setting db "platform_commission_percentage" 5
   <= 50)%R
  /\ (0 <= Admin.get_platform_setting db "default_delivery_fee_per_km" 2)%R
  /\ (0 <= Admin.get_platform_setting db "minimum_delivery_fee" 5)%R
  /\ (0 < Admin.get_platform_setting db "maximum_delivery_distance" 10)%R
  /\ (0 <= Admin.get_platform_setting db "default_minimum_order_value" 30)%R.

Definition unique_store_rows (catalogue : Catalogue.t) : Prop :=
  NoDup (map StoreFlags.id (Catalogue.store_flags catalogue)).

(** A store takes orders: it is approved and active. *)
Definition takes_orders (catalogue : Catalogue.t) (store_id : Z) : bool :=
  existsb
    (fun s =>
       ((StoreFlags.id s =? store_id) && StoreFlags.is_approved s
        && StoreFlags.is_active s)%bool)
    (Catalogue.store_flags catalogue).

(** The stock of all products together. *)
Definition total_stock (catalogue : Catalogue.t) : Z :=
  fold_right Z.add 0
    (map Product.stock_quantity (Catalogue.products catalogue)).

(** The quantities an order asks for, together. *)
Definition ordered_quantity (data : OrderBody.t) : Z :=
  fold_right Z.add 0
    (map
       (fun item_data =>
          match OrderBody.quantity item_data with
          | Some quantity => quantity
          | None => 0
          end)
       (OrderBody.items data)).

(** The products an order names, item by item. *)
Definition ordered_products (data : OrderBody.t) : list (option Z) :=
  map OrderBody.product_id (OrderBody.items data).

(** No product has a negative stock. *)
Definition stock_is_not_negative (catalogue : Catalogue.t) : Prop :=
  Forall (fun p => 0 <= Product.stock_quantity p)
    (Catalogue.products catalogue).

(** A product before and after an order: the same product, with no more
    stock than before. *)
Definition stock_taken (p p' : Product.t) : Prop :=
  Product.id p' = Product.id p
  /\ Product.store_id p' = Product.store_id p
  /\ Product.price p' = Product.price p
  /\ Product.is_active p' = Product.is_active p
  /\ Product.stock_quantity p' <= Product.stock_quantity p.

(** The statuses of an order on its way, as [delete_deliverer] lists
    them. *)
Definition on_its_way (o : Order.t) : bool :=
  str_in (Order.status o) ["accepted"; "preparing"; "ready"; "delivering"].

(** What one request to the server does to one delivery request: it
    leaves the row as it is, it binds a row that is pending and unbound to
    the deliverer who claims it, or it clears the deliverer of the row
    (the deliverer's user has been deleted). *)
Definition request_step (r r' : DeliveryRequest.t) : Prop :=
  r' = r
  \/ (DeliveryRequest.status r = "pending"
      /\ truthy_id (DeliveryRequest.deliverer_id r) = false
      /\ exists user_id : Z,
           r' = DeliveryRequest.set_status "accepted"
                  (DeliveryRequest.set_deliverer_id (Some user_id) r))
  \/ ((exists user_id : Z, DeliveryRequest.deliverer_id r = Some user_id)
      /\ r' = DeliveryRequest.set_deliverer_id None r).

(** What a sequence of requests to the server does to one delivery
    request. *)
Definition request_path : DeliveryRequest.t -> DeliveryRequest.t -> Prop :=
  clos_refl_trans DeliveryRequest.t request_step.

(** A profile after some requests is a profile of before with the same
    counter. *)
Definition same_counter (d d' : Deliverer.t) : Prop :=
  Deliverer.id d' = Deliverer.id d
  /\ Deliverer.user_id d' = Deliverer.user_id d
  /\ Deliverer.total_deliveries d' = Deliverer.total_deliveries d.

(** Every profile that is online is approved. *)
Definition online_are_approved (db : DB.t) : Prop :=
  Forall
    (fun d => Deliverer.is_online d = true -> Deliverer.is_approved d = true)
    (DB.deliverers db).

(** The requests that write or read the flags of a deliverer: those of
    [System], and [reactivate_deliverer]. *)
Inductive request : Type :=
  | Served (o : System.op)
  | ReactivateDeliverer (caller_id deliverer_id : Z).

Definition serve (q : request) (db : DB.t) : response * DB.t :=
  match q with
  | Served o => System.step o db
  | ReactivateDeliverer caller_id deliverer_id =>
    AdminMore.reactivate_deliverer caller_id deliverer_id db
  end.

(** The database after a sequence of such requests. *)
Fixpoint serve_all (qs : list request) (db : DB.t) : DB.t :=
  match qs with
  | [] => db
  | q :: rest => serve_all rest (snd (serve q db))
  end.

(** The two requests that take an approval back: [reject_deliverer] and
    [reactivate_deliverer] (which puts the deliverer back in review). *)
Definition withdraws_approval (q : request) : bool :=
  match q with
  | Served (System.RejectDeliverer _ _) => true
  | ReactivateDeliverer _ _ => true
  | _ => false
  end.

End Props.

(** ** More example databases *)

Module Examples2.

(** Deliverers 8 and 9 have reported positions; the first report of
    deliverer 8 is no longer active, the report of deliverer 9 is half an
    hour old at the clock value 40. *)
Definition tracked_market : DB.t :=
  DB.set_deliverer_locations
    [ DelivererLocation.mk 8 1 1 None None None false 30;
      DelivererLocation.mk 9 0 0 None None None true 10;
      DelivererLocation.mk 8 0 0 None None None true 35 ]
    Examples.market.

(** Deliverer 8 claims the delivery request 500 and reports it picked up
    and delivered. *)
Definition request_500 : list System.op :=
  [ System.AcceptDeliveryRequest 8 500;
    System.UpdateDeliveryRequestStatus 8 500 "picked_up";
    System.UpdateDeliveryRequestStatus 8 500 "delivered" ].

(** The same, and the admin then deletes deliverer 8. *)
Definition request_500_deleted : list System.op :=
  request_500 ++ [System.DeleteDeliverer 9 1 80].

(** A body of [update_platform_fees] with a commission and a fee per
    km. *)
Definition fees_body (commission fee_per_km : R) : FeesBody.t :=
  FeesBody.mk (Some commission) (Some fee_per_km) None None None.

(** [priced_market] with an admin. *)
Definition priced_market_with_admin : DB.t :=
  DB.set_users [Examples.admin] Examples.priced_market.

(** A shop: store 20 is approved and sells products 1 and 2, store 21 is
    not approved. *)
Definition shop : Catalogue.t :=
  Catalogue.mk
    [StoreFlags.mk 20 2 true true; StoreFlags.mk 21 4 false true]
    [Product.mk 1 20 10 5 true; Product.mk 2 20 4 3 true;
     Product.mk 3 21 7 9 true]
    [] [].

(** Two of product 1 and three of product 2, to be paid in cash. *)
Definition basket : OrderBody.t :=
  OrderBody.mk 20
    [OrderBody.mk_item (Some 1) (Some 2); OrderBody.mk_item (Some 2) (Some 3)]
    "Rua Augusta 10" "cash" None "Sao Paulo" "".

(** Three of product 1, and three of product 1 again. *)
Definition double_basket : OrderBody.t :=
  OrderBody.mk 20
    [OrderBody.mk_item (Some 1) (Some 3); OrderBody.mk_item (Some 1) (Some 3)]
    "Rua Augusta 10" "cash" None "Sao Paulo" "".

End Examples2.

(** ** Tactics *)

(** Comparisons between two string literals are computed; comparisons
    with a variable are left alone. *)
Ltac eval_eqb :=
  repeat match goal with
         | |- context [String.eqb ?a ?b] =>
           tryif first [is_var a | is_var b] then fail
           else
             let v := eval vm_compute in (String.eqb a b) in
             change (String.eqb a b) with v
         end;
  cbn [find fst snd existsb orb andb negb].

(** A literal that differs from [s] fails both comparisons with [s]. *)
Ltac neq_eqb s :=
  repeat match goal with
         | H : ?a <> s |- _ =>
           rewrite ?(proj2 (String.eqb_neq a s) H);
           rewrite ?(proj2 (String.eqb_neq s a) (not_eq_sym H));
           clear H
         end.

(** Every branch of a handler is visited. *)
Ltac handler_cases :=
  repeat match goal with
         | |- context [match ?x with _ => _ end] => destruct x
         end.

(** String comparisons in the goal are decided, one after the other. *)
Ltac string_cases :=
  repeat match goal with
         | |- context [String.eqb ?a ?b] =>
           tryif first [is_var a | is_var b]
           then destruct (String.eqb_spec a b); subst
           else
             let v := eval vm_compute in (String.eqb a b) in
             change (String.eqb a b) with v
         end;
  cbn [find fst snd existsb orb andb negb].

(** The primary keys of an example database are different from each
    other. *)
Ltac unique_ids :=
  unfold Props.unique_request_ids, Props.unique_deliverer_ids,
    Props.unique_order_ids, Props.unique_user_ids, Props.unique_store_ids,
    Props.unique_city_ids, Props.unique_store_rows;
  match goal with
  | |- NoDup ?l => let v := eval vm_compute in l in change (NoDup v)
  end;
  repeat (apply NoDup_cons; [simpl; intuition discriminate|]);
  apply NoDup_nil.

(** * Properties *)

(** ** Lists and rows *)

Lemma replace_first_length :
  forall (A : Type) (p : A -> bool) (x : A) (l : list A),
    length (replace_first p x l) = length l.
Proof.
  intros A p x l; induction l as [|y l IH]; simpl; [reflexivity|].
  destruct (p y); simpl; congruence.
Qed.

Lemma Forall2_same :
  forall (A : Type) (R : A -> A -> Prop) (l : list A),
    (forall y, R y y) -> Forall2 R l l.
Proof.
  intros A R l HR; induction l; constructor; auto.
Qed.

Lemma Forall2_map_r :
  forall (A : Type) (R : A -> A -> Prop) (f : A -> A) (l : list A),
    (forall y, R y (f y)) -> Forall2 R l (map f l).
Proof.
  intros A R f l HR; induction l; simpl; constructor; auto.
Qed.

Lemma Forall2_replace_first :
  forall (A : Type) (R : A -> A -> Prop) (p : A -> bool) (x : A) (l : list A),
    (forall y, R y y) ->
    (forall y, find p l = Some y -> R y x) ->
    Forall2 R l (replace_first p x l).
Proof.
  intros A R p x l Hrefl; induction l as [|y l IH]; simpl; intros Hx.
  - constructor.
  - destruct (p y) eqn:Hp.
    + constructor; [apply Hx; reflexivity | apply Forall2_same; assumption].
    + constructor; [apply Hrefl | apply IH; assumption].
Qed.

Lemma replace_first_no_match :
  forall (A : Type) (p : A -> bool) (x : A) (l : list A),
    find p l = None -> replace_first p x l = l.
Proof.
  intros A p x l; induction l as [|y l IH]; simpl; [reflexivity|].
  destruct (p y); [discriminate | intros H; f_equal; auto].
Qed.

Lemma find_replace_first :
  forall (A : Type) (p : A -> bool) (x : A) (l : list A) (y : A),
    find p l = Some y -> p x = true -> find p (replace_first p x l) = Some x.
Proof.
  intros A p x l y; induction l as [|z l IH]; simpl; [discriminate|].
  destruct (p z) eqn:Hz; intros Hf Hx; simpl.
  - rewrite Hx; reflexivity.
  - rewrite Hz; auto.
Qed.

Lemma find_replace_first_other :
  forall (A : Type) (p q : A -> bool) (x : A) (l : list A),
    q x = false ->
    (forall y, p y = true -> q y = false) ->
    find q (replace_first p x l) = find q l.
Proof.
  intros A p q x l Hx Hp; induction l as [|y l IH]; simpl; [reflexivity|].
  destruct (p y) eqn:Hy; simpl.
  - rewrite Hx, (Hp y Hy); reflexivity.
  - rewrite IH; reflexivity.
Qed.

Lemma get_order_id :
  forall db order_id order,
    get_order db order_id = Some order -> Order.id order = order_id.
Proof.
  unfold get_order; intros db order_id order H.
  apply find_some in H; destruct H as [_ H]; apply Z.eqb_eq; exact H.
Qed.

Lemma get_order_save_order :
  forall db order_id order order',
    get_order db order_id = Some order ->
    Order.id order' = order_id ->
    get_order (save_order order' db) order_id = Some order'.
Proof.
  unfold get_order, save_order; intros db order_id order order' H Hid; simpl.
  rewrite Hid.
  apply find_replace_first with (y := order); [exact H|].
  rewrite Hid; apply Z.eqb_refl.
Qed.

(** ** Claims: single assignment (C1) *)

Section SingleAssignment.

Variables (now : R) (user_id : Z) (db : DB.t).

(** A claim that is refused leaves the database as it was. *)
Lemma accept_delivery_error :
  forall order_id e,
    fst (Orders.accept_delivery now user_id order_id db) = Error e ->
    snd (Orders.accept_delivery now user_id order_id db) = db.
Proof.
  intros order_id e; unfold Orders.accept_delivery.
  handler_cases; simpl; intros H; try reflexivity; discriminate.
Qed.

(** A claim changes no other order, and no order that has a deliverer. *)
Lemma accept_delivery_keeps_assigned :
  forall claimed_id order_id order,
    get_order db order_id = Some order ->
    truthy_id (Order.deliverer_id order) = true ->
    get_order (snd (Orders.accept_delivery now user_id claimed_id db))
      order_id
    = Some order.
Proof.
  intros claimed_id order_id order Ho Ht; unfold Orders.accept_delivery.
  destruct (get_user db user_id) as [user|]; [|exact Ho].
  destruct (negb _); [exact Ho|].
  destruct (get_order db claimed_id) as [claimed|] eqn:Hc; [|exact Ho].
  destruct (negb _); [exact Ho|].
  destruct (truthy_id (Order.deliverer_id claimed)) eqn:Hf; [exact Ho|].
  cbn [snd]; unfold get_order, save_order; simpl.
  destruct (Z.eq_dec claimed_id order_id) as [E|N].
  - subst claimed_id; rewrite Ho in Hc; injection Hc as <-; congruence.
  - rewrite find_replace_first_other; [exact Ho | |].
    + simpl; rewrite (get_order_id db claimed_id claimed Hc).
      apply Z.eqb_neq; exact N.
    + intros y Hy; simpl in Hy.
      rewrite (get_order_id db claimed_id claimed Hc) in Hy.
      apply Z.eqb_eq in Hy; rewrite Hy; apply Z.eqb_neq; exact N.
Qed.

(** The same for the claim of a delivery request. *)
Lemma accept_delivery_request_keeps_assigned :
  forall claimed_id request_id request,
    get_delivery_request db request_id = Some request ->
    truthy_id (DeliveryRequest.deliverer_id request) = true ->
    get_delivery_request
      (snd (Deliverers.accept_delivery_request user_id claimed_id db))
      request_id
    = Some request.
Proof.
  intros claimed_id request_id request Hr Ht.
  unfold Deliverers.accept_delivery_request.
  destruct (get_user db user_id) as [user|]; [|exact Hr].
  destruct (negb _); [exact Hr|].
  destruct (deliverer_of_user db user_id) as [deliverer|]; [|exact Hr].
  destruct (negb _); [exact Hr|].
  destruct (get_delivery_request db claimed_id) as [claimed|] eqn:Hc;
    [|exact Hr].
  destruct (negb _); [exact Hr|].
  destruct (truthy_id (DeliveryRequest.deliverer_id claimed)) eqn:Hf;
    [exact Hr|].
  cbn [snd]; unfold get_delivery_request, save_delivery_request; simpl.
  assert (Hid : DeliveryRequest.id claimed = claimed_id).
  { unfold get_delivery_request in Hc; apply find_some in Hc.
    apply Z.eqb_eq, Hc. }
  destruct (Z.eq_dec claimed_id request_id) as [E|N].
  - rewrite E, Hr in Hc; injection Hc as <-; congruence.
  - rewrite find_replace_first_other; [exact Hr | |].
    + simpl; rewrite Hid; apply Z.eqb_neq; exact N.
    + intros y Hy; simpl in Hy; rewrite Hid in Hy.
      apply Z.eqb_eq in Hy; rewrite Hy; apply Z.eqb_neq; exact N.
Qed.

(** A successful claim binds the caller and starts the delivery. *)
Lemma accept_delivery_ok :
  forall order_id,
    fst (Orders.accept_delivery now user_id order_id db) = Ok ->
    exists order order',
      get_order db order_id = Some order
      /\ get_order (snd (Orders.accept_delivery now user_id order_id db))
           order_id = Some order'
      /\ Order.deliverer_id order' = Some user_id
      /\ Order.status order' = "delivering".
Proof.
  intros order_id; unfold Orders.accept_delivery.
  destruct (get_user db user_id) as [user|]; [|discriminate].
  destruct (negb _); [discriminate|].
  destruct (get_order db order_id) as [order|] eqn:Ho; [|discriminate].
  destruct (negb _); [discriminate|].
  destruct (truthy_id _); [discriminate|].
  intros _; simpl.
  eexists; eexists; split; [reflexivity|]; split.
  - eapply get_order_save_order; [exact Ho|].
    simpl; eapply get_order_id; exact Ho.
  - split; reflexivity.
Qed.

End SingleAssignment.

(** Claims, however many and by whomever, leave an assigned job to its
    assignee. *)
Lemma claims_keep_assignment :
  forall (ops : list System.op) (db : DB.t),
    forallb System.is_claim ops = true ->
    (forall order_id order,
        get_order db order_id = Some order ->
        truthy_id (Order.deliverer_id order) = true ->
        get_order (System.run ops db) order_id = Some order)
    /\ (forall request_id request,
          get_delivery_request db request_id = Some request ->
          truthy_id (DeliveryRequest.deliverer_id request) = true ->
          get_delivery_request (System.run ops db) request_id = Some request).
Proof.
  intros ops; induction ops as [|op ops IH]; intros db Hops; simpl.
  - split; intros; assumption.
  - simpl in Hops; apply andb_prop in Hops; destruct Hops as [Hop Hops].
    destruct (IH (snd (System.step op db)) Hops) as [IHo IHr].
    destruct op; try discriminate; simpl in *; split.
    + intros oid order Ho Ht; apply IHo; [|exact Ht].
      apply accept_delivery_keeps_assigned; assumption.
    + intros rid request Hr Ht; apply IHr; [|exact Ht].
      assert (E : DB.delivery_requests
                    (snd (Orders.accept_delivery now user_id order_id db))
                  = DB.delivery_requests db).
      { unfold Orders.accept_delivery; handler_cases; reflexivity. }
      unfold get_delivery_request; rewrite E; exact Hr.
    + intros oid order Ho Ht; apply IHo; [|exact Ht].
      assert (E : DB.orders
                    (snd (Deliverers.accept_delivery_request user_id
                            request_id db))
                  = DB.orders db).
      { unfold Deliverers.accept_delivery_request; handler_cases;
          reflexivity. }
      unfold get_order; rewrite E; exact Ho.
    + intros rid request Hr Ht; apply IHr; [|exact Ht].
      apply accept_delivery_request_keeps_assigned; assumption.
Qed.

(** C1, as amended: a claim succeeds only on a job that is claimable
    (order [ready], request [pending]) and whose [deliverer_id] is unset;
    a claim on a job whose [deliverer_id] is set fails and leaves the
    database as it was, so that no sequence of claims replaces an
    assignment.  The error is [AlreadyAssigned] only when the claimant
    passes the earlier checks and the job is still claimable; otherwise it
    is the error of the first check that fails: [Forbidden], [NotEligible]
    (requests only) or [InvalidState]. *)
Theorem claim_never_rebinds :
  forall (now : R) (user_id order_id request_id : Z) (db : DB.t),
    (fst (Orders.accept_delivery now user_id order_id db) = Ok ->
     Spec.is_deliverer_user db user_id = true
     /\ exists order,
          get_order db order_id = Some order
          /\ Order.status order = "ready"
          /\ truthy_id (Order.deliverer_id order) = false)
    /\ (forall order,
          get_order db order_id = Some order ->
          truthy_id (Order.deliverer_id order) = true ->
          Orders.accept_delivery now user_id order_id db
          = (Error
               (if negb (Spec.is_deliverer_user db user_id) then Forbidden
                else if negb (Order.status order =? "ready")%string
                     then InvalidState
                else AlreadyAssigned),
             db))
    /\ (fst (Deliverers.accept_delivery_request user_id request_id db) = Ok ->
        Spec.is_deliverer_user db user_id = true
        /\ Spec.is_online_deliverer db user_id = true
        /\ exists request,
             get_delivery_request db request_id = Some request
             /\ DeliveryRequest.status request = "pending"
             /\ truthy_id (DeliveryRequest.deliverer_id request) = false)
    /\ (forall request,
          get_delivery_request db request_id = Some request ->
          truthy_id (DeliveryRequest.deliverer_id request) = true ->
          Deliverers.accept_delivery_request user_id request_id db
          = (Error
               (if negb (Spec.is_deliverer_user db user_id) then Forbidden
                else if negb (Spec.is_online_deliverer db user_id)
                     then NotEligible
                else if negb (DeliveryRequest.status request =? "pending")%string
                     then InvalidState
                else AlreadyAssigned),
             db))
    /\ (forall ops : list System.op,
          forallb System.is_claim ops = true ->
          (forall order,
              get_order db order_id = Some order ->
              truthy_id (Order.deliverer_id order) = true ->
              get_order (System.run ops db) order_id = Some order)
          /\ (forall request,
                get_delivery_request db request_id = Some request ->
                truthy_id (DeliveryRequest.deliverer_id request) = true ->
                get_delivery_request (System.run ops db) request_id
                = Some request)).
Proof.
  intros now user_id order_id request_id db.
  assert (Hclaims :
            forall ops : list System.op,
              forallb System.is_claim ops = true ->
              (forall order,
                  get_order db order_id = Some order ->
                  truthy_id (Order.deliverer_id order) = true ->
                  get_order (System.run ops db) order_id = Some order)
              /\ (forall request,
                    get_delivery_request db request_id = Some request ->
                    truthy_id (DeliveryRequest.deliverer_id request) = true ->
                    get_delivery_request (System.run ops db) request_id
                    = Some request)).
  { intros ops Hops.
    destruct (claims_keep_assignment ops db Hops) as [Ho Hr].
    split; intros; [apply Ho | apply Hr]; assumption. }
  unfold Orders.accept_delivery, Deliverers.accept_delivery_request,
    Spec.is_deliverer_user, Spec.is_online_deliverer.
  destruct (get_user db user_id) as [user|]; simpl.
  2: { repeat split; try discriminate; intros; try reflexivity;
       apply (Hclaims ops); assumption. }
  destruct (User.user_type user =? "deliverer")%string; simpl.
  2: { repeat split; try discriminate; intros; try reflexivity;
       apply (Hclaims ops); assumption. }
  split; [|split; [|split; [|split; [|exact Hclaims]]]].
  - destruct (get_order db order_id) as [order|]; [|discriminate].
    destruct (Order.status order =? "ready")%string eqn:Hs; simpl;
      [|discriminate].
    destruct (truthy_id (Order.deliverer_id order)) eqn:Ht; [discriminate|].
    intros _; split; [reflexivity|].
    exists order; repeat split; try assumption.
    apply String.eqb_eq; exact Hs.
  - intros order Ho Ht; rewrite Ho.
    destruct (Order.status order =? "ready")%string; simpl;
      [rewrite Ht|]; reflexivity.
  - destruct (deliverer_of_user db user_id) as [deliverer|]; [|discriminate].
    destruct (Deliverer.is_online deliverer); simpl; [|discriminate].
    destruct (get_delivery_request db request_id) as [request|];
      [|discriminate].
    destruct (DeliveryRequest.status request =? "pending")%string eqn:Hs;
      simpl; [|discriminate].
    destruct (truthy_id (DeliveryRequest.deliverer_id request)) eqn:Ht;
      [discriminate|].
    intros _; split; [reflexivity|]; split; [reflexivity|].
    exists request; repeat split; try assumption.
    apply String.eqb_eq; exact Hs.
  - intros request Hr Ht.
    destruct (deliverer_of_user db user_id) as [deliverer|]; [|reflexivity].
    destruct (Deliverer.is_online deliverer); simpl; [|reflexivity].
    rewrite Hr.
    destruct (DeliveryRequest.status request =? "pending")%string; simpl;
      [rewrite Ht|]; reflexivity.
Qed.

(** C1 as stated fails: after deliverer 8 has claimed order 100, the order
    has a deliverer and the claim of deliverer 9 is refused with
    [InvalidState], not with [AlreadyAssigned]. *)
Lemma second_claim_is_invalid_state :
  fst (Orders.accept_delivery 1 8 100 Examples.market) = Ok
  /\ (exists order,
        get_order Examples.claimed_market 100 = Some order
        /\ Order.deliverer_id order = Some 8)
  /\ Orders.accept_delivery 2 9 100 Examples.claimed_market
     = (Error InvalidState, Examples.claimed_market)
  /\ fst (Orders.accept_delivery 2 9 100 Examples.claimed_market)
     <> Error AlreadyAssigned.
Proof.
  split; [reflexivity|].
  split; [eexists; split; reflexivity|].
  split; [reflexivity|].
  discriminate.
Qed.

(** The amended claim at the same input: the order of [claimed_market] is
    bound to deliverer 8, and the claim of deliverer 9 leaves it so. *)
Lemma claim_never_rebinds_witness :
  Orders.accept_delivery 2 9 100 Examples.claimed_market
  = (Error InvalidState, Examples.claimed_market).
Proof.
  exact
    (proj1 (proj2 (claim_never_rebinds 2 9 100 500 Examples.claimed_market))
       (Order.mk 100 3 20 (Some 8) "delivering" "Rua Augusta 10" "Sao Paulo"
          None 1)
       eq_refl eq_refl).
Defined.

(** The scenario of section 8: an order listed as available is claimed
    by a deliverer; it is then [delivering] and bound to the deliverer. *)
Lemma available_order_is_claimed :
  forall (now : R) (user_id : Z) (db : DB.t) (order : Order.t),
    In order (Orders.available_orders db) ->
    get_order db (Order.id order) = Some order ->
    Spec.is_deliverer_user db user_id = true ->
    fst (Orders.accept_delivery now user_id (Order.id order) db) = Ok
    /\ get_order
         (snd (Orders.accept_delivery now user_id (Order.id order) db))
         (Order.id order)
       = Some
           (Order.set_updated_at now
              (Order.set_status "delivering"
                 (Order.set_deliverer_id (Some user_id) order))).
Proof.
  intros now user_id db order Hin Ho Hd.
  unfold Orders.available_orders in Hin.
  apply filter_In in Hin; destruct Hin as [_ Hin].
  apply andb_prop in Hin; destruct Hin as [Hs Hn].
  unfold Orders.accept_delivery, Spec.is_deliverer_user in *.
  destruct (get_user db user_id) as [user|]; [|discriminate].
  rewrite Hd, Ho, Hs; simpl.
  destruct (Order.deliverer_id order); [discriminate|]; simpl.
  split; [reflexivity|].
  eapply get_order_save_order; [exact Ho | reflexivity].
Qed.

(** [AlreadyAssigned] is the answer for an order that is still [ready]:
    the admin gives order 100 to deliverer 8, and deliverer 9 then tries to
    claim it. *)
Lemma claim_after_reassignment :
  let entry := fun _ : option Z => "reassigned" in
  let db := snd (Admin.reassign_order 1 1 100 8 "late" entry Examples.market) in
  fst (Admin.reassign_order 1 1 100 8 "late" entry Examples.market) = Ok
  /\ get_order db 100
     = Some (Order.mk 100 3 20 (Some 8) "ready" "Rua Augusta 10" "Sao Paulo"
               (Some "reassigned") 1)
  /\ Orders.accept_delivery 2 9 100 db = (Error AlreadyAssigned, db).
Proof.
  repeat split.
Qed.

(** The admin override of the order status writes no status: whoever
    calls it and whatever the body says, the orders stay as they are. *)
Lemma admin_override_never_runs :
  forall (caller_id order_id : Z) (status : option string) (db : DB.t),
    Admin.update_order_status_admin caller_id order_id status db
    = (Error InternalError, db).
Proof.
  reflexivity.
Qed.

(** ** Claims: the role table (C2) *)

(** The nested dict of [update_order_status] is the role table of
    section 4.1. *)
Lemma valid_transitions_table :
  forall role from to : string,
    str_in to
      (dict_get (dict_get Orders.valid_transitions role []) from [])
    = Spec.table role from to.
Proof.
  intros role from to.
  unfold Spec.table, Spec.store_row, Spec.deliverer_row, Spec.active_state,
    str_in, dict_get, Orders.valid_transitions.
  cbn [find fst snd].
  destruct ("store" =? role)%string.
  { cbn [find fst snd].
    repeat (match goal with
            | |- context [(?a =? from)%string] => destruct (a =? from)%string
            end; cbn [find fst snd]; try reflexivity). }
  destruct ("deliverer" =? role)%string.
  { cbn [find fst snd].
    repeat (match goal with
            | |- context [(?a =? from)%string] => destruct (a =? from)%string
            end; cbn [find fst snd]; try reflexivity). }
  destruct ("admin" =? role)%string; [|reflexivity].
  cbn [find fst snd].
  rewrite (String.eqb_sym "cancelled" to).
  destruct (String.eqb_spec "pending" from) as [<-|H1];
    [eval_eqb; destruct (to =? "accepted")%string,
       (to =? "cancelled")%string; reflexivity|].
  destruct (String.eqb_spec "accepted" from) as [<-|H2];
    [eval_eqb; destruct (to =? "preparing")%string,
       (to =? "cancelled")%string; reflexivity|].
  destruct (String.eqb_spec "preparing" from) as [<-|H3];
    [eval_eqb; destruct (to =? "ready")%string,
       (to =? "cancelled")%string; reflexivity|].
  destruct (String.eqb_spec "ready" from) as [<-|H4];
    [eval_eqb; destruct (to =? "delivering")%string,
       (to =? "cancelled")%string; reflexivity|].
  destruct (String.eqb_spec "delivering" from) as [<-|H5];
    [eval_eqb; destruct (to =? "delivered")%string,
       (to =? "cancelled")%string; reflexivity|].
  cbn [find fst snd existsb orb].
  neq_eqb from.
  reflexivity.
Qed.

(** [update_order_status] for a request that passes the first checks: the
    ownership flag, then the role table. *)
Lemma update_order_status_cases :
  forall (now : R) (user_id order_id : Z) (new_status : string) (db : DB.t)
         (order : Order.t) (user : User.t),
    get_order db order_id = Some order ->
    get_user db user_id = Some user ->
    new_status <> "" ->
    Orders.update_order_status now user_id order_id new_status db
    = (if negb (Orders.has_permission db user user_id order) then
         (Error Forbidden, db)
       else if Spec.table (User.user_type user) (Order.status order)
                 new_status
       then
         (Ok,
          save_order
            (Order.set_updated_at now (Order.set_status new_status order)) db)
       else (Error (InvalidTransition (Order.status order) new_status), db)).
Proof.
  intros now user_id order_id new_status db order user Ho Hu Hn.
  unfold Orders.update_order_status.
  rewrite Ho, Hu.
  destruct (String.eqb_spec new_status "") as [E|_]; [contradiction|].
  rewrite valid_transitions_table.
  destruct (Orders.has_permission db user user_id order); simpl;
    [|reflexivity].
  destruct (Spec.table (User.user_type user) (Order.status order) new_status);
    reflexivity.
Qed.

(** C2, as amended: for a request that names an existing order and a
    status that is not empty, made by a caller with a user row,
    [update_order_status] first applies the ownership rule ([Forbidden]
    for a caller who fails it, whatever the table says) and then the role
    table of section 4.1: the update succeeds if and only if the caller
    passes the ownership rule and the table lists the requested status for
    the caller's role and the order's status; a request the table does not
    list fails with [InvalidTransition] and the database is as before. *)
Theorem update_order_status_follows_table :
  forall (now : R) (user_id order_id : Z) (new_status : string) (db : DB.t)
         (order : Order.t) (user : User.t),
    get_order db order_id = Some order ->
    get_user db user_id = Some user ->
    new_status <> "" ->
    Orders.update_order_status now user_id order_id new_status db
    = (if negb (Orders.has_permission db user user_id order) then
         (Error Forbidden, db)
       else if Spec.table (User.user_type user) (Order.status order)
                 new_status
       then
         (Ok,
          save_order
            (Order.set_updated_at now (Order.set_status new_status order)) db)
       else (Error (InvalidTransition (Order.status order) new_status), db))
    /\ (fst (Orders.update_order_status now user_id order_id new_status db)
        = Ok
        <-> Orders.has_permission db user user_id order = true
            /\ Spec.table (User.user_type user) (Order.status order)
                 new_status = true).
Proof.
  intros now user_id order_id new_status db order user Ho Hu Hn.
  split;
    [apply update_order_status_cases; assumption|].
  rewrite (update_order_status_cases now user_id order_id new_status db order
             user Ho Hu Hn).
  destruct (Orders.has_permission db user user_id order); simpl.
  - destruct (Spec.table (User.user_type user) (Order.status order)
                new_status); simpl.
    + split; auto.
    + split; [discriminate|]; intros [_ H]; discriminate.
  - split; [discriminate|]; intros [H _]; discriminate.
Qed.

(** The scenario of section 8: a store that asks to move its order from
    [preparing] straight to [delivering] gets [InvalidTransition]. *)
Lemma store_cannot_skip_ready :
  forall (now : R),
    let db :=
      DB.set_orders
        [Order.mk 100 3 20 None "preparing" "Rua Augusta 10" "Sao Paulo"
           None 0]
        Examples.market in
    Orders.update_order_status now 2 100 "delivering" db
    = (Error (InvalidTransition "preparing" "delivering"), db).
Proof.
  intros now; reflexivity.
Qed.

(** C2 as stated fails: the table lets a store move a pending order to
    [accepted], yet the store of user 4 is refused on order 101, which
    belongs to the store of user 2; and the request of client 3, whose
    role has no row in the table, is not answered with
    [InvalidTransition].  Both answers are [Forbidden]. *)
Lemma listed_transition_refused :
  Spec.table "store" "pending" "accepted" = true
  /\ get_order Examples.market 101 = Some Examples.pending_order
  /\ get_user Examples.market 4 = Some Examples.other_store_user
  /\ Orders.update_order_status 1 4 101 "accepted" Examples.market
     = (Error Forbidden, Examples.market)
  /\ Spec.table "client" "pending" "accepted" = false
  /\ get_user Examples.market 3 = Some Examples.client
  /\ Orders.update_order_status 1 3 101 "accepted" Examples.market
     = (Error Forbidden, Examples.market).
Proof.
  repeat split.
Qed.

(** The amended claim at two inputs: the owning store moves order 101 to
    [accepted]; its request for [ready] is an invalid transition. *)
Lemma update_order_status_follows_table_witness :
  fst (Orders.update_order_status 1 2 101 "accepted" Examples.market) = Ok
  /\ Orders.update_order_status 1 2 101 "ready" Examples.market
     = (Error (InvalidTransition "pending" "ready"), Examples.market).
Proof.
  split.
  - apply (proj2 (update_order_status_follows_table 1 2 101 "accepted"
                    Examples.market Examples.pending_order
                    Examples.store_user eq_refl eq_refl
                    ltac:(discriminate))).
    split; reflexivity.
  - exact (proj1 (update_order_status_follows_table 1 2 101 "ready"
                    Examples.market Examples.pending_order
                    Examples.store_user eq_refl eq_refl
                    ltac:(discriminate))).
Defined.

(** ** Claims: who may claim (C3) *)

(** C3, as amended: a deliverer without a profile or whose profile is
    offline cannot claim a delivery request: the answer is [NotEligible]
    and nothing is assigned; a claim of a delivery request succeeds only
    for a deliverer who is online.  ([is_approved] is not read when a
    request is claimed.) *)
Theorem request_claim_requires_online :
  forall (user_id request_id : Z) (db : DB.t),
    (Spec.is_deliverer_user db user_id = true ->
     Spec.is_online_deliverer db user_id = false ->
     Deliverers.accept_delivery_request user_id request_id db
     = (Error NotEligible, db))
    /\ (fst (Deliverers.accept_delivery_request user_id request_id db) = Ok ->
        Spec.is_deliverer_user db user_id = true
        /\ Spec.is_online_deliverer db user_id = true).
Proof.
  intros user_id request_id db.
  unfold Deliverers.accept_delivery_request, Spec.is_deliverer_user,
    Spec.is_online_deliverer.
  destruct (get_user db user_id) as [user|];
    [|split; intros; discriminate].
  destruct (User.user_type user =? "deliverer")%string; simpl;
    [|split; intros; discriminate].
  destruct (deliverer_of_user db user_id) as [deliverer|];
    [|split; intros; [reflexivity | discriminate]].
  destruct (Deliverer.is_online deliverer); simpl;
    [|split; intros; [reflexivity | discriminate]].
  split; [intros; discriminate | intros; split; reflexivity].
Qed.

(** C3 as stated fails: deliverer 7 was approved, went online and was then
    rejected; the profile is online and not approved, and its claim of the
    pending request 500 succeeds. *)
Lemma unapproved_deliverer_claims_request :
  System.responses
    [System.ApproveDeliverer 1 70; System.ToggleOnline 7;
     System.RejectDeliverer 1 70]
    Examples.market
  = [Ok; Ok; Ok]
  /\ Spec.is_approved_deliverer Examples.rejected_online 7 = false
  /\ Spec.is_online_deliverer Examples.rejected_online 7 = true
  /\ fst (Deliverers.accept_delivery_request 7 500 Examples.rejected_online)
     = Ok
  /\ get_delivery_request
       (snd (Deliverers.accept_delivery_request 7 500
               Examples.rejected_online)) 500
     = Some (DeliveryRequest.mk 500 3 (Some 7) "accepted").
Proof.
  repeat split.
Qed.

(** The amended claim at an input: deliverer 7 of [market] is offline, and
    the claim of request 500 is refused. *)
Lemma request_claim_requires_online_witness :
  Deliverers.accept_delivery_request 7 500 Examples.market
  = (Error NotEligible, Examples.market).
Proof.
  exact (proj1 (request_claim_requires_online 7 500 Examples.market)
           eq_refl eq_refl).
Defined.

(** [accept_delivery] reads no deliverer profile: deliverer 7 of [market],
    offline and not approved, claims the ready order 100. *)
Lemma offline_deliverer_claims_order :
  Spec.is_online_deliverer Examples.market 7 = false
  /\ Spec.is_approved_deliverer Examples.market 7 = false
  /\ fst (Orders.accept_delivery 1 7 100 Examples.market) = Ok
  /\ get_order (snd (Orders.accept_delivery 1 7 100 Examples.market)) 100
     = Some (Order.mk 100 3 20 (Some 7) "delivering" "Rua Augusta 10"
               "Sao Paulo" None 1).
Proof.
  repeat split.
Qed.

(** ** Claims: the delivered counter (C5) *)

(** [update_order_status] writes the [orders] table only. *)
Lemma update_order_status_keeps_deliverers :
  forall (now : R) (user_id order_id : Z) (new_status : string) (db : DB.t),
    DB.deliverers
      (snd (Orders.update_order_status now user_id order_id new_status db))
    = DB.deliverers db.
Proof.
  intros now user_id order_id new_status db.
  unfold Orders.update_order_status.
  repeat match goal with
         | |- context [match ?x with _ => _ end] => destruct x
         end; reflexivity.
Qed.

(** The other state machine has the line [deliverer.total_deliveries += 1]
    for a delivery request that reaches [delivered], and never gets to it:
    a status report is refused with 403 for a caller who is not a
    deliverer, and fails with 500 at [sanitize_int] for a deliverer.  No
    request row and no profile is written. *)
Lemma delivery_request_report_fails :
  forall (user_id request_id : Z) (new_status : string) (db : DB.t),
    Deliverers.update_delivery_request_status user_id request_id new_status db
    = (Error
         (if Spec.is_deliverer_user db user_id then InternalError
          else Forbidden),
       db).
Proof.
  intros user_id request_id new_status db.
  unfold Deliverers.update_delivery_request_status, Spec.is_deliverer_user.
  destruct (get_user db user_id) as [user|]; [|reflexivity].
  destruct (User.user_type user =? "deliverer")%string; reflexivity.
Qed.

(** C5 at the failing input: deliverer 8 carries order 100 and reports it
    delivered; the order becomes [delivered] and the counter of the
    deliverer is 0 before and after. *)
Theorem delivered_order_not_counted :
  let db := Examples.claimed_market in
  let db' := snd (Orders.update_order_status 2 8 100 "delivered" db) in
  fst (Orders.update_order_status 2 8 100 "delivered" db) = Ok
  /\ get_order db 100
     = Some (Order.mk 100 3 20 (Some 8) "delivering" "Rua Augusta 10"
               "Sao Paulo" None 1)
  /\ get_order db' 100
     = Some (Order.mk 100 3 20 (Some 8) "delivered" "Rua Augusta 10"
               "Sao Paulo" None 2)
  /\ deliverer_of_user db 8 = Some (Deliverer.mk 80 8 true true 0)
  /\ deliverer_of_user db' 8 = Some (Deliverer.mk 80 8 true true 0).
Proof.
  repeat split.
Qed.

(** ** Claims: the delivery fee (C6) *)

Lemma py_max_Rmax : forall a b : R, Admin.py_max a b = Rmax a b.
Proof.
  intros a b; unfold Admin.py_max, Rmax.
  destruct (Rlt_dec a b), (Rle_dec a b); try reflexivity; lra.
Qed.

Lemma select_fee_per_km_rate :
  forall (db : DB.t) (city_id : option Z),
    Admin.select_fee_per_km db city_id = Spec.rate db city_id.
Proof.
  intros db [cid|]; unfold Admin.select_fee_per_km, Spec.rate,
    Spec.active_override; simpl; [|reflexivity].
  destruct (cid =? 0); simpl; [reflexivity|].
  destruct (Admin.get_city db cid) as [city|]; [|reflexivity].
  destruct (AllowedCity.is_active city); reflexivity.
Qed.

(** [calculate_delivery_fee] for a request with a distance: refused
    beyond the maximum distance, priced otherwise. *)
Lemma calculate_delivery_fee_cases :
  forall (distance : R) (city_id : option Z) (db : DB.t),
    let maximum_distance :=
      Admin.get_platform_setting db "maximum_delivery_distance" 10 in
    let minimum_fee :=
      Admin.get_platform_setting db "minimum_delivery_fee" 5 in
    ((maximum_distance < distance)%R ->
     Admin.calculate_delivery_fee (Some distance) city_id db
     = inl DistanceExceeded)
    /\ (~ (maximum_distance < distance)%R ->
        exists quote : Admin.fee_quote,
          Admin.calculate_delivery_fee (Some distance) city_id db = inr quote
          /\ Admin.fee_per_km quote = Spec.rate db city_id
          /\ Admin.final_delivery_fee quote
             = Rmax (distance * Spec.rate db city_id) minimum_fee).
Proof.
  intros distance city_id db maximum_distance minimum_fee.
  unfold Admin.calculate_delivery_fee.
  fold maximum_distance; fold minimum_fee.
  rewrite select_fee_per_km_rate, py_max_Rmax.
  destruct (Rlt_dec maximum_distance distance) as [Hlt|Hge]; split;
    intros H; try contradiction; try reflexivity.
  eexists; split; [reflexivity|]; split; reflexivity.
Qed.



(** A fee is never below the minimum fee nor below the metered fee. *)
Lemma final_fee_bounds :
  forall (distance : R) (city_id : option Z) (db : DB.t)
         (quote : Admin.fee_quote),
    Admin.calculate_delivery_fee (Some distance) city_id db = inr quote ->
    (Admin.get_platform_setting db "minimum_delivery_fee" 5
     <= Admin.final_delivery_fee quote)%R
    /\ (distance * Spec.rate db city_id <= Admin.final_delivery_fee quote)%R.
Proof.
  intros distance city_id db quote H.
  destruct (calculate_delivery_fee_cases distance city_id db)
    as [Hfar Hnear].
  destruct (Rlt_dec
              (Admin.get_platform_setting db "maximum_delivery_distance" 10)
              distance) as [Hlt|Hge].
  - rewrite (Hfar Hlt) in H; discriminate.
  - destruct (Hnear Hge) as [q [Hq [_ Hfee]]].
    rewrite Hq in H; injection H as <-; rewrite Hfee.
    split; [apply Rmax_r | apply Rmax_l].
Qed.

(** ** Claims: the active location (C7) *)

Lemma step_keeps_locations :
  forall (o : System.op) (db : DB.t),
    System.is_update_location o = false ->
    DB.deliverer_locations (snd (System.step o db))
    = DB.deliverer_locations db.
Proof.
  intros o db H; destruct o; try discriminate; simpl;
    unfold Orders.update_order_status, Orders.accept_delivery,
      Deliverers.toggle_online, Deliverers.accept_delivery_request,
      Deliverers.update_delivery_request_status,
      Deliverers.increment_total_deliveries,
      Admin.approve_deliverer, Admin.reject_deliverer, Admin.delete_store,
      Admin.delete_deliverer, Admin.reassign_order;
    handler_cases; reflexivity.
Qed.

Lemma active_count_app :
  forall (user_id : Z) (l1 l2 : list DelivererLocation.t),
    Spec.active_count user_id (l1 ++ l2)
    = (Spec.active_count user_id l1 + Spec.active_count user_id l2)%nat.
Proof.
  intros; unfold Spec.active_count; rewrite filter_app, length_app.
  reflexivity.
Qed.

Lemma active_count_deactivate :
  forall (user_id u : Z) (l : list DelivererLocation.t),
    Spec.active_count u (Geolocation.deactivate_locations user_id l)
    = if u =? user_id then 0%nat else Spec.active_count u l.
Proof.
  intros user_id u l; unfold Spec.active_count.
  destruct (Z.eqb_spec u user_id) as [->|N].
  - induction l as [|x l IH]; simpl; [reflexivity|].
    destruct (DelivererLocation.deliverer_id x =? user_id) eqn:E,
      (DelivererLocation.is_active x) eqn:Ha; simpl;
      rewrite ?E, ?Ha; simpl; exact IH.
  - induction l as [|x l IH]; simpl; [reflexivity|].
    destruct (Z.eqb_spec (DelivererLocation.deliverer_id x) user_id) as [E|E],
      (DelivererLocation.is_active x) eqn:Ha; simpl; rewrite ?Ha.
    + rewrite andb_false_r.
      destruct (Z.eqb_spec (DelivererLocation.deliverer_id x) u);
        [congruence|]; simpl; exact IH.
    + rewrite andb_false_r; simpl; exact IH.
    + destruct (DelivererLocation.deliverer_id x =? u); simpl;
        rewrite IH; reflexivity.
    + rewrite andb_false_r; simpl; exact IH.
Qed.

Lemma location_data_deactivate :
  forall (user_id : Z) (l : list DelivererLocation.t),
    map Spec.location_data (Geolocation.deactivate_locations user_id l)
    = map Spec.location_data l.
Proof.
  intros user_id l; unfold Geolocation.deactivate_locations.
  rewrite map_map; apply map_ext; intros x.
  destruct (_ && _)%bool; reflexivity.
Qed.

(** What a successful [update_deliverer_location] writes. *)
Lemma update_location_ok :
  forall (now : R) (user_id : Z) (data : LocationBody.t) (db : DB.t),
    fst (Geolocation.update_deliverer_location now user_id data db) = Ok ->
    exists latitude longitude,
      LocationBody.latitude data = Some latitude
      /\ LocationBody.longitude data = Some longitude
      /\ Spec.is_deliverer_user db user_id = true
      /\ Spec.is_online_deliverer db user_id = true
      /\ snd (Geolocation.update_deliverer_location now user_id data db)
         = DB.set_order_tracking
             (DB.order_tracking db
              ++ map (Geolocation.tracking_row now user_id latitude longitude)
                   (Geolocation.active_orders db user_id))
             (DB.set_deliverer_locations
                (Geolocation.deactivate_locations user_id
                   (DB.deliverer_locations db)
                 ++ [DelivererLocation.mk user_id latitude longitude
                       (LocationBody.accuracy data) (LocationBody.speed data)
                       (LocationBody.heading data) true now])
                db).
Proof.
  intros now user_id data db.
  unfold Geolocation.update_deliverer_location, Spec.is_deliverer_user,
    Spec.is_online_deliverer.
  destruct (get_user db user_id) as [user|]; [|discriminate].
  destruct (User.user_type user =? "deliverer")%string; [|discriminate].
  simpl.
  destruct (deliverer_of_user db user_id) as [deliverer|]; [|discriminate].
  destruct (Deliverer.is_online deliverer); [|discriminate].
  simpl.
  destruct (LocationBody.latitude data) as [latitude|]; [|discriminate].
  destruct (LocationBody.longitude data) as [longitude|]; [|discriminate].
  intros _; exists latitude, longitude; repeat split.
Qed.

(** A request that fails leaves the database as it was. *)
Lemma update_location_error :
  forall (now : R) (user_id : Z) (data : LocationBody.t) (db : DB.t)
         (e : error),
    fst (Geolocation.update_deliverer_location now user_id data db) = Error e ->
    snd (Geolocation.update_deliverer_location now user_id data db) = db.
Proof.
  intros now user_id data db e.
  unfold Geolocation.update_deliverer_location.
  handler_cases; simpl; intros H; try reflexivity; discriminate.
Qed.

Lemma step_keeps_one_active :
  forall (o : System.op) (db : DB.t),
    Spec.at_most_one_active db ->
    Spec.at_most_one_active (snd (System.step o db)).
Proof.
  intros o db Hdb.
  destruct (System.is_update_location o) eqn:Hop.
  - destruct o; try discriminate; simpl.
    destruct (fst (Geolocation.update_deliverer_location now user_id data db))
      as [|e] eqn:Hr.
    + destruct (update_location_ok now user_id data db Hr)
        as [latitude [longitude [_ [_ [_ [_ ->]]]]]].
      intros u; simpl.
      rewrite active_count_app, active_count_deactivate.
      unfold Spec.active_count at 2; simpl.
      specialize (Hdb u).
      destruct (Z.eqb_spec u user_id) as [->|N].
      * rewrite Z.eqb_refl; simpl; lia.
      * destruct (Z.eqb_spec user_id u); [congruence|]; simpl; lia.
    + rewrite (update_location_error now user_id data db e Hr); exact Hdb.
  - intros u; rewrite step_keeps_locations by assumption; apply Hdb.
Qed.

(** C7: whatever requests are served, a database in which every deliverer
    has at most one active location row stays so, and so does one that
    starts without location rows; and a successful
    [update_deliverer_location] deactivates the caller's active rows and
    appends one active row for the caller: the caller then has exactly one
    active row, and every earlier row is still there with its data. *)
Theorem one_active_location :
  (forall (ops : list System.op) (db : DB.t),
      Spec.at_most_one_active db ->
      Spec.at_most_one_active (System.run ops db))
  /\ (forall (ops : list System.op) (db : DB.t),
        DB.deliverer_locations db = [] ->
        Spec.at_most_one_active (System.run ops db))
  /\ (forall (now : R) (user_id : Z) (data : LocationBody.t) (db : DB.t),
        fst (Geolocation.update_deliverer_location now user_id data db) = Ok ->
        let before := DB.deliverer_locations db in
        let after :=
          DB.deliverer_locations
            (snd (Geolocation.update_deliverer_location now user_id data db)) in
        exists location : DelivererLocation.t,
          DelivererLocation.deliverer_id location = user_id
          /\ DelivererLocation.is_active location = true
          /\ after
             = (Geolocation.deactivate_locations user_id before
                ++ [location])%list
          /\ map Spec.location_data after
             = (map Spec.location_data before
                ++ [Spec.location_data location])%list
          /\ Spec.active_count user_id after = 1%nat).
Proof.
  assert (Hrun : forall (ops : list System.op) (db : DB.t),
             Spec.at_most_one_active db ->
             Spec.at_most_one_active (System.run ops db)).
  { intros ops; induction ops as [|o ops IH]; intros db Hdb; simpl.
    - exact Hdb.
    - apply IH, step_keeps_one_active, Hdb. }
  split; [exact Hrun|]; split.
  - intros ops db Hempty; apply Hrun.
    intros u; rewrite Hempty; unfold Spec.active_count; simpl; lia.
  - intros now user_id data db Hr before after.
    destruct (update_location_ok now user_id data db Hr)
      as [latitude [longitude [_ [_ [_ [_ E]]]]]].
    subst before after; rewrite E; simpl.
    eexists; split; [|split; [|split; [reflexivity|split]]].
    + reflexivity.
    + reflexivity.
    + rewrite map_app, location_data_deactivate; reflexivity.
    + rewrite active_count_app, active_count_deactivate, Z.eqb_refl.
      unfold Spec.active_count; simpl; rewrite Z.eqb_refl; reflexivity.
Qed.

(** The claim at an input: deliverer 8 reports two positions; the table
    then holds both rows and the second one only is active. *)
Lemma one_active_location_witness :
  let ops :=
    [System.UpdateLocation 1 8 (Examples.report 0 0);
     System.UpdateLocation 2 8 (Examples.report 1 1)] in
  Spec.at_most_one_active (System.run ops Examples.market)
  /\ DB.deliverer_locations (System.run ops Examples.market)
     = [DelivererLocation.mk 8 0 0 None None None false 1;
        DelivererLocation.mk 8 1 1 None None None true 2].
Proof.
  split; [|reflexivity].
  apply (proj1 (proj2 one_active_location)).
  reflexivity.
Defined.

(** ** Claims: the tracking fan-out (C8) *)

(** The distance from a point to itself is zero. *)
Lemma calculate_distance_same_point :
  forall lat lon : R, Geolocation.calculate_distance lat lon lat lon = 0%R.
Proof.
  intros lat lon; unfold Geolocation.calculate_distance, Geolocation.radians.
  cbv zeta.
  replace (lat - lat)%R with 0%R by lra.
  replace (lon - lon)%R with 0%R by lra.
  replace (0 * PI / 180 / 2)%R with 0%R by lra.
  rewrite sin_0.
  match goal with
  | |- context [sqrt ?a] =>
    replace a with 0%R by ring
  end.
  rewrite sqrt_0.
  replace (1 - 0)%R with 1%R by lra.
  rewrite sqrt_1.
  unfold Geolocation.atan2.
  destruct (Rlt_dec 0 1) as [_|H]; [|lra].
  replace (0 / 1)%R with 0%R by lra.
  rewrite atan_0; lra.
Qed.

(** No distance left, no time left. *)
Lemma estimate_arrival_time_zero :
  forall now : R, Geolocation.estimate_arrival_time now 0 = now.
Proof.
  intros now; unfold Geolocation.estimate_arrival_time.
  destruct (Rle_dec 0 0) as [_|H]; [reflexivity | lra].
Qed.

(** When [update_deliverer_location] succeeds. *)
Lemma update_location_ok_iff :
  forall (now : R) (user_id : Z) (data : LocationBody.t) (db : DB.t),
    fst (Geolocation.update_deliverer_location now user_id data db) = Ok
    <-> Spec.is_deliverer_user db user_id = true
        /\ Spec.is_online_deliverer db user_id = true
        /\ LocationBody.latitude data <> None
        /\ LocationBody.longitude data <> None.
Proof.
  intros now user_id data db; split.
  - intros H; destruct (update_location_ok now user_id data db H)
      as [latitude [longitude [Hlat [Hlon [Hd [Ho _]]]]]].
    rewrite Hlat, Hlon; repeat split; try assumption; discriminate.
  - unfold Geolocation.update_deliverer_location, Spec.is_deliverer_user,
      Spec.is_online_deliverer.
    intros [Hd [Ho [Hlat Hlon]]].
    destruct (get_user db user_id) as [user|]; [|discriminate].
    rewrite Hd; simpl.
    destruct (deliverer_of_user db user_id) as [deliverer|]; [|discriminate].
    rewrite Ho; simpl.
    destruct (LocationBody.latitude data); [|contradiction].
    destruct (LocationBody.longitude data); [|contradiction].
    reflexivity.
Qed.

(** C8, as amended: [update_deliverer_location] accepts a report only
    from a deliverer whose profile is online and who gives latitude and
    longitude, and it accepts every such report of a caller who has no
    order in flight, leaving [order_tracking] as it is.  An accepted report
    appends to [order_tracking] one row for each order that is
    [delivering] and assigned to the caller, in table order, and nothing
    else: the row has the order's id, the caller's id, the reported
    position, status [in_transit], [distance_remaining] the Haversine
    distance from the reported position to the fixed point
    (-23.5505, -46.6333) that the handler uses as the destination of every
    order, and [estimated_arrival] computed from that distance.  (With an
    order in flight the source computes the distance before it answers,
    and for a position near the antipode of the fixed point the square
    root of the formula fails in double precision: the answer is then
    500.  So with orders in flight acceptance is a hypothesis of the
    claim, not a conclusion.) *)
Theorem tracking_fan_out :
  forall (now : R) (user_id : Z) (data : LocationBody.t) (db : DB.t),
    let in_flight :=
      filter
        (fun o =>
           (id_eqb (Order.deliverer_id o) user_id
            && (Order.status o =? "delivering")%string)%bool)
        (DB.orders db) in
    let result := Geolocation.update_deliverer_location now user_id data db in
    let after := DB.order_tracking (snd result) in
    (fst result = Ok ->
     Spec.is_deliverer_user db user_id = true
     /\ Spec.is_online_deliverer db user_id = true
     /\ LocationBody.latitude data <> None
     /\ LocationBody.longitude data <> None)
    /\ (in_flight = [] ->
        Spec.is_deliverer_user db user_id = true ->
        Spec.is_online_deliverer db user_id = true ->
        LocationBody.latitude data <> None ->
        LocationBody.longitude data <> None ->
        fst result = Ok /\ after = DB.order_tracking db)
    /\ (fst result = Ok ->
        exists latitude longitude : R,
          LocationBody.latitude data = Some latitude
          /\ LocationBody.longitude data = Some longitude
          /\ after
             = (DB.order_tracking db
                ++ map
                     (fun order =>
                        let distance :=
                          Geolocation.calculate_distance latitude longitude
                            (-23.5505) (-46.6333) in
                        OrderTracking.mk (Order.id order) user_id latitude
                          longitude "in_transit"
                          (Geolocation.estimate_arrival_time now distance)
                          distance now)
                     in_flight)%list).
Proof.
  intros now user_id data db in_flight result after.
  assert (Hfan :
            fst result = Ok ->
            exists latitude longitude : R,
              LocationBody.latitude data = Some latitude
              /\ LocationBody.longitude data = Some longitude
              /\ after
                 = (DB.order_tracking db
                    ++ map
                         (Geolocation.tracking_row now user_id latitude
                            longitude)
                         in_flight)%list).
  { intros Hr.
    destruct (update_location_ok now user_id data db Hr)
      as [latitude [longitude [Hlat [Hlon [_ [_ E]]]]]].
    exists latitude, longitude.
    split; [exact Hlat|]; split; [exact Hlon|].
    subst after result; rewrite E; reflexivity. }
  split; [|split].
  - intros Hr; apply update_location_ok_iff in Hr; exact Hr.
  - intros Hnone Hd Ho Hlat Hlon.
    assert (Hr : fst result = Ok).
    { apply update_location_ok_iff; repeat split; assumption. }
    split; [exact Hr|].
    destruct (Hfan Hr) as [latitude [longitude [_ [_ E]]]].
    rewrite E, Hnone; simpl; apply app_nil_r.
  - exact Hfan.
Qed.

(** C8 as stated fails: deliverer 8 carries order 100 to Sao Paulo and
    order 101 to Rio de Janeiro and reports the position
    (-23.5505, -46.6333); both rows say that no distance remains and that
    the arrival is now. *)
Lemma same_distance_for_every_order :
  let db := Examples.two_in_flight in
  let result :=
    Geolocation.update_deliverer_location 5 8
      (Examples.report (-23.5505) (-46.6333)) db in
  fst result = Ok
  /\ map Order.delivery_city (Geolocation.active_orders db 8)
     = ["Sao Paulo"; "Rio de Janeiro"]
  /\ DB.order_tracking (snd result)
     = [ OrderTracking.mk 100 8 (-23.5505) (-46.6333) "in_transit" 5 0 5;
         OrderTracking.mk 101 8 (-23.5505) (-46.6333) "in_transit" 5 0 5 ].
Proof.
  split; [reflexivity|]; split; [reflexivity|].
  simpl.
  unfold Geolocation.tracking_row, Geolocation.dest_lat, Geolocation.dest_lon.
  rewrite calculate_distance_same_point, estimate_arrival_time_zero.
  reflexivity.
Qed.

(** The amended claim at two inputs: deliverer 8 carries orders 100 and
    101, order 102 is carried by deliverer 7 and order 103 is delivered;
    the report of deliverer 8 adds a row for 100 and a row for 101.
    Deliverer 9 carries nothing: the report is accepted and no row is
    added. *)
Lemma tracking_fan_out_witness :
  map OrderTracking.order_id
    (DB.order_tracking
       (snd (Geolocation.update_deliverer_location 5 8 (Examples.report 0 0)
               Examples.two_in_flight)))
  = [100; 101]
  /\ fst (Geolocation.update_deliverer_location 5 9 (Examples.report 0 0)
            Examples.two_in_flight) = Ok
  /\ DB.order_tracking
       (snd (Geolocation.update_deliverer_location 5 9 (Examples.report 0 0)
               Examples.two_in_flight))
     = [].
Proof.
  split.
  - destruct (proj2 (proj2 (tracking_fan_out 5 8 (Examples.report 0 0)
                              Examples.two_in_flight)) eq_refl)
      as [latitude [longitude [_ [_ E]]]].
    rewrite E; reflexivity.
  - apply (proj1 (proj2 (tracking_fan_out 5 9 (Examples.report 0 0)
                           Examples.two_in_flight)));
      try reflexivity; discriminate.
Defined.

(** ** Claims: who may report a position (C9) *)

(** C9, as amended: [update_deliverer_location] succeeds only for a caller
    who is a deliverer with a profile that is online; a caller whose
    profile is missing or offline is refused ([NotEligible] for a
    deliverer, [Forbidden] for anyone else) and no row is written.
    ([is_approved] is not read when a position is reported.) *)
Theorem location_update_requires_online :
  forall (now : R) (user_id : Z) (data : LocationBody.t) (db : DB.t),
    (fst (Geolocation.update_deliverer_location now user_id data db) = Ok ->
     Spec.is_deliverer_user db user_id = true
     /\ Spec.is_online_deliverer db user_id = true)
    /\ (Spec.is_online_deliverer db user_id = false ->
        Geolocation.update_deliverer_location now user_id data db
        = (Error
             (if Spec.is_deliverer_user db user_id then NotEligible
              else Forbidden),
           db)).
Proof.
  intros now user_id data db; split.
  - intros H; apply update_location_ok_iff in H; tauto.
  - unfold Geolocation.update_deliverer_location, Spec.is_deliverer_user,
      Spec.is_online_deliverer.
    destruct (get_user db user_id) as [user|]; [|reflexivity].
    destruct (User.user_type user =? "deliverer")%string; simpl;
      [|reflexivity].
    destruct (deliverer_of_user db user_id) as [deliverer|]; [|reflexivity].
    intros ->; reflexivity.
Qed.

(** C9 as stated fails: deliverer 7 was approved, went online and was then
    rejected; the profile is online and not approved, the report succeeds
    and a location row is written. *)
Lemma unapproved_deliverer_reports_position :
  Spec.is_approved_deliverer Examples.rejected_online 7 = false
  /\ Spec.is_online_deliverer Examples.rejected_online 7 = true
  /\ fst (Geolocation.update_deliverer_location 5 7 (Examples.report 0 0)
            Examples.rejected_online) = Ok
  /\ DB.deliverer_locations
       (snd (Geolocation.update_deliverer_location 5 7 (Examples.report 0 0)
               Examples.rejected_online))
     = [DelivererLocation.mk 7 0 0 None None None true 5].
Proof.
  repeat split.
Qed.

(** The amended claim at an input: deliverer 7 of [market] is offline; the
    report is refused and the database is as before. *)
Lemma location_update_requires_online_witness :
  Geolocation.update_deliverer_location 5 7 (Examples.report 0 0)
    Examples.market
  = (Error NotEligible, Examples.market).
Proof.
  exact (proj2 (location_update_requires_online 5 7 (Examples.report 0 0)
                  Examples.market) eq_refl).
Defined.

(** ** Claims: ownership (C10) *)

Lemma id_eqb_true :
  forall (x : option Z) (v : Z), id_eqb x v = true <-> x = Some v.
Proof.
  intros [n|] v; simpl; split; intros H; try discriminate.
  - apply Z.eqb_eq in H; congruence.
  - injection H as ->; apply Z.eqb_refl.
Qed.

(** The flag [has_permission] is the ownership rule. *)
Lemma has_permission_owner :
  forall (db : DB.t) (user : User.t) (user_id : Z) (order : Order.t),
    get_user db user_id = Some user ->
    (Orders.has_permission db user user_id order = true
     <-> Spec.owner_or_admin db user_id order).
Proof.
  intros db user user_id order Hu.
  unfold Orders.has_permission, Spec.owner_or_admin; split.
  - intros H; exists user; split; [exact Hu|].
    destruct (String.eqb_spec (User.user_type user) "store") as [Es|_].
    + right; left; split; [exact Es|].
      destruct (store_of_user db user_id) as [store|]; [|discriminate].
      exists store; split; [reflexivity | apply Z.eqb_eq; exact H].
    + destruct (String.eqb_spec (User.user_type user) "deliverer") as [Ed|_];
        simpl in H.
      * destruct (id_eqb (Order.deliverer_id order) user_id) eqn:Hd.
        -- right; right; split; [exact Ed | apply id_eqb_true; exact Hd].
        -- rewrite Ed in H; discriminate.
      * destruct (String.eqb_spec (User.user_type user) "admin") as [Ea|_];
          [left; exact Ea | discriminate].
  - intros [user' [Hu' H]].
    rewrite Hu in Hu'; injection Hu' as <-.
    destruct H as [Ea | [[Es [store [Hs Ho]]] | [Ed Ho]]].
    + rewrite Ea; reflexivity.
    + rewrite Es, Hs; simpl; apply Z.eqb_eq; exact Ho.
    + rewrite Ed; simpl.
      rewrite (proj2 (id_eqb_true _ _) Ho); reflexivity.
Qed.

(** The flag [has_access] is the ownership rule, or the client who placed
    the order. *)
Lemma has_access_owner_or_client :
  forall (db : DB.t) (user : User.t) (user_id : Z) (order : Order.t),
    get_user db user_id = Some user ->
    (Geolocation.has_access db user user_id order = true
     <-> Spec.owner_or_admin db user_id order
         \/ Spec.placing_client db user_id order).
Proof.
  intros db user user_id order Hu.
  rewrite <- (has_permission_owner db user user_id order Hu).
  unfold Geolocation.has_access, Orders.has_permission, Spec.placing_client.
  destruct (String.eqb_spec (User.user_type user) "client") as [Ec|Nc].
  - rewrite Ec; simpl.
    destruct (Z.eqb_spec (Order.client_id order) user_id) as [Eo|No]; split.
    + intros _; right; exists user; auto.
    + reflexivity.
    + discriminate.
    + intros [H | [user' [Hu' [_ Ho]]]]; [discriminate | contradiction].
  - simpl; split.
    + intros H; left; exact H.
    + intros [H | [user' [Hu' [Ec _]]]]; [exact H|].
      rewrite Hu in Hu'; injection Hu' as <-; contradiction.
Qed.

(** C10, as amended: [update_order_status] succeeds only for a caller who
    is an admin, the user of the store that owns the order or the
    deliverer assigned to it; any other caller with a user row who names
    the order and a status that is not empty gets [Forbidden] and the
    database is as before.  [track_order] applies the same rule extended
    with the client who placed the order: these callers are answered, any
    other caller with a user row gets [Forbidden]. *)
Theorem ownership_gates_orders :
  forall (now : R) (user_id order_id : Z) (new_status : string) (db : DB.t)
         (order : Order.t),
    get_order db order_id = Some order ->
    (fst (Orders.update_order_status now user_id order_id new_status db) = Ok ->
     Spec.owner_or_admin db user_id order)
    /\ (forall user : User.t,
          get_user db user_id = Some user ->
          new_status <> "" ->
          ~ Spec.owner_or_admin db user_id order ->
          Orders.update_order_status now user_id order_id new_status db
          = (Error Forbidden, db))
    /\ (forall user : User.t,
          get_user db user_id = Some user ->
          (Spec.owner_or_admin db user_id order
           \/ Spec.placing_client db user_id order ->
           exists view : TrackingView.t,
             Geolocation.track_order user_id order_id db = inr view)
          /\ (~ (Spec.owner_or_admin db user_id order
                 \/ Spec.placing_client db user_id order) ->
              Geolocation.track_order user_id order_id db = inl Forbidden)).
Proof.
  intros now user_id order_id new_status db order Ho.
  split; [|split].
  - unfold Orders.update_order_status; rewrite Ho.
    destruct (new_status =? "")%string; [discriminate|].
    destruct (get_user db user_id) as [user|] eqn:Hu; [|discriminate].
    destruct (Orders.has_permission db user user_id order) eqn:Hp; simpl;
      [|discriminate].
    intros _; apply (has_permission_owner db user user_id order Hu); exact Hp.
  - intros user Hu Hn Hnot.
    rewrite (update_order_status_cases now user_id order_id new_status db
               order user Ho Hu Hn).
    destruct (Orders.has_permission db user user_id order) eqn:Hp;
      [|reflexivity].
    exfalso; apply Hnot.
    apply (has_permission_owner db user user_id order Hu); exact Hp.
  - intros user Hu.
    unfold Geolocation.track_order; rewrite Ho, Hu.
    destruct (Geolocation.has_access db user user_id order) eqn:Ha; simpl.
    + split; [intros _; eexists; reflexivity|].
      intros Hnot; exfalso; apply Hnot.
      apply (has_access_owner_or_client db user user_id order Hu); exact Ha.
    + split; [|reflexivity].
      intros H.
      apply (has_access_owner_or_client db user user_id order Hu) in H.
      rewrite Ha in H; discriminate.
Qed.

(** C10 as stated fails: client 3, who placed order 100, is neither an
    admin nor a store nor a deliverer, and is given the tracking data of
    the order. *)
Lemma client_tracks_own_order :
  get_user Examples.market 3 = Some Examples.client
  /\ ~ Spec.owner_or_admin Examples.market 3 Examples.ready_order
  /\ Geolocation.track_order 3 100 Examples.market
     = inr (TrackingView.mk 100 "ready" None None []).
Proof.
  split; [reflexivity|]; split; [|reflexivity].
  intros [user [Hu H]].
  injection Hu as <-.
  destruct H as [H | [[H _] | [H _]]]; discriminate.
Qed.

(** The amended claim at two inputs: the store of user 4 does not own
    order 101 and may neither update nor track it. *)
Lemma ownership_gates_orders_witness :
  Orders.update_order_status 1 4 101 "accepted" Examples.market
  = (Error Forbidden, Examples.market)
  /\ Geolocation.track_order 4 101 Examples.market = inl Forbidden.
Proof.
  assert (Hnot : ~ (Spec.owner_or_admin Examples.market 4
                      Examples.pending_order
                    \/ Spec.placing_client Examples.market 4
                         Examples.pending_order)).
  { intros [[user [Hu H]] | [user [Hu [H _]]]]; injection Hu as <-.
    - destruct H as [H | [[_ [store [Hs H]]] | [H _]]]; try discriminate.
      injection Hs as <-; discriminate.
    - discriminate. }
  destruct (ownership_gates_orders 1 4 101 "accepted" Examples.market
              Examples.pending_order eq_refl) as [_ [Hupdate Htrack]].
  split.
  - apply (Hupdate Examples.other_store_user eq_refl).
    + discriminate.
    + intros H; apply Hnot; left; exact H.
  - apply (proj2 (Htrack Examples.other_store_user eq_refl)); exact Hnot.
Defined.

(** ** Claims: the path of an order (C4) *)

(** Every entry of the role table is an edge of the graph. *)
Lemma table_edge :
  forall role from to : string,
    Spec.table role from to = true -> Spec.graph_edge from to = true.
Proof.
  intros role from to.
  unfold Spec.table, Spec.store_row, Spec.deliverer_row, Spec.active_state,
    Spec.graph_edge, Spec.chain, str_in.
  cbn [existsb fst snd].
  destruct ("store" =? role)%string;
    [|destruct ("deliverer" =? role)%string;
      [|destruct ("admin" =? role)%string; [|discriminate]]];
    string_cases; intros H; try discriminate; reflexivity.
Qed.

Lemma order_step_same :
  forall (op : System.op) (o : Order.t), Spec.order_step op o o.
Proof.
  intros op o; split; [reflexivity | left; reflexivity].
Qed.

(** Committing a changed order relates the table before and after, row by
    row, when it relates the order before and after. *)
Lemma save_order_rows :
  forall (P : Order.t -> Order.t -> Prop) (db : DB.t) (order_id : Z)
         (order order' : Order.t),
    get_order db order_id = Some order ->
    Order.id order' = Order.id order ->
    (forall y, P y y) ->
    P order order' ->
    Forall2 P (DB.orders db) (DB.orders (save_order order' db)).
Proof.
  intros P db order_id order order' Ho Hid Hrefl Hstep.
  unfold save_order; simpl.
  apply Forall2_replace_first; [exact Hrefl|].
  intros y Hy.
  rewrite Hid, (get_order_id db order_id order Ho) in Hy.
  unfold get_order in Ho; rewrite Ho in Hy; injection Hy as <-.
  exact Hstep.
Qed.

(** The handlers that do not write the [orders] table. *)
Lemma step_keeps_orders :
  forall (o : System.op) (db : DB.t),
    match o with
    | System.ToggleOnline _ | System.AcceptDeliveryRequest _ _
    | System.UpdateDeliveryRequestStatus _ _ _ | System.ApproveDeliverer _ _
    | System.RejectDeliverer _ _ | System.UpdateLocation _ _ _ => True
    | _ => False
    end ->
    DB.orders (snd (System.step o db)) = DB.orders db.
Proof.
  intros o db H; destruct o; try contradiction; simpl;
    unfold Deliverers.toggle_online, Deliverers.accept_delivery_request,
      Deliverers.update_delivery_request_status,
      Deliverers.increment_total_deliveries,
      Admin.approve_deliverer, Admin.reject_deliverer,
      Geolocation.update_deliverer_location;
    handler_cases; reflexivity.
Qed.

(** Clearing the deliverer of an order row is no step of its status. *)
Lemma order_step_clear_deliverer :
  forall (op : System.op) (now : R) (user_id : Z) (o o' : Order.t),
    Spec.order_step op o o' ->
    Spec.order_step op o
      (if id_eqb (Order.deliverer_id o') user_id
       then Order.set_updated_at now (Order.set_deliverer_id None o')
       else o').
Proof.
  intros op now user_id o o' H.
  destruct (id_eqb (Order.deliverer_id o') user_id); [|exact H].
  destruct H as [Hid [Hs | [He | [Hop [Hin [Hp _]]]]]];
    (split; [exact Hid|]).
  - left; exact Hs.
  - right; left; exact He.
  - right; right; repeat split; assumption.
Qed.

(** One request, one step of every order. *)
Lemma step_order_step :
  forall (op : System.op) (db : DB.t),
    Forall2 (Spec.order_step op) (DB.orders db)
      (DB.orders (snd (System.step op db))).
Proof.
  intros op db.
  pose proof (step_keeps_orders op db) as Hkeep.
  pose proof (Forall2_same _ (Spec.order_step op) (DB.orders db)
                (order_step_same op)) as Hsame.
  destruct op; try (rewrite Hkeep by exact I; exact Hsame); clear Hkeep;
    cbn [System.step].
  - (* update_order_status *)
    unfold Orders.update_order_status.
    destruct (get_order db order_id) as [order|] eqn:Ho; [|exact Hsame].
    destruct (new_status =? "")%string; [exact Hsame|].
    destruct (get_user db user_id) as [user|]; [|exact Hsame].
    destruct (negb _); [exact Hsame|].
    rewrite valid_transitions_table.
    destruct (Spec.table _ _ _) eqn:Ht; cbn [negb snd]; [|exact Hsame].
    eapply save_order_rows;
      [exact Ho | reflexivity | apply order_step_same |].
    split; [reflexivity|]; right; left; simpl.
    eapply table_edge; exact Ht.
  - (* accept_delivery *)
    unfold Orders.accept_delivery.
    destruct (get_user db user_id) as [user|]; [|exact Hsame].
    destruct (negb _); [exact Hsame|].
    destruct (get_order db order_id) as [order|] eqn:Ho; [|exact Hsame].
    destruct (String.eqb_spec (Order.status order) "ready") as [Es|_];
      cbn [negb]; [|exact Hsame].
    destruct (truthy_id _); [exact Hsame|].
    cbn [snd].
    eapply save_order_rows;
      [exact Ho | reflexivity | apply order_step_same |].
    split; [reflexivity|]; right; left; simpl.
    rewrite Es; reflexivity.
  - (* delete_store *)
    unfold Admin.delete_store.
    destruct (negb _); [exact Hsame|].
    destruct (get_store db store_id) as [store|]; [|exact Hsame].
    destruct (get_user db (Store.user_id store)) as [user|]; [|exact Hsame].
    cbv zeta.
    destruct (existsb _ _); [exact Hsame|].
    destruct (Admin.user_is_held _ _); [exact Hsame|].
    unfold Admin.delete_user_row, Admin.clear_deliverer_orders,
      DB.set_users, DB.set_stores, DB.set_delivery_requests, DB.set_orders,
      Admin.cancel_pending_orders; cbn [snd DB.orders].
    rewrite map_map.
    apply Forall2_map_r; intros y.
    apply order_step_clear_deliverer.
    destruct (Order.store_id y =? Store.id store); cbn [andb];
      [|apply order_step_same].
    destruct (String.eqb_spec (Order.status y) "pending") as [Es|_];
      [|apply order_step_same].
    split; [reflexivity|]; right; left; simpl.
    rewrite Es; reflexivity.
  - (* delete_deliverer *)
    unfold Admin.delete_deliverer.
    destruct (negb _); [exact Hsame|].
    destruct (get_deliverer db deliverer_id) as [deliverer|]; [|exact Hsame].
    destruct (get_user db (Deliverer.user_id deliverer)) as [user|];
      [|exact Hsame].
    cbv zeta.
    destruct (Admin.user_is_held _ _); [exact Hsame|].
    unfold Admin.delete_user_row, Admin.clear_deliverer_orders,
      DB.set_users, DB.set_deliverers, DB.set_delivery_requests,
      DB.set_orders, Admin.release_deliveries; cbn [snd DB.orders].
    rewrite map_map.
    apply Forall2_map_r; intros y.
    apply order_step_clear_deliverer.
    destruct (id_eqb _ _); cbn [andb]; [|apply order_step_same].
    destruct (str_in (Order.status y) _) eqn:Hs; [|apply order_step_same].
    split; [reflexivity|]; right; right.
    repeat split; exact Hs.
  - (* reassign_order *)
    unfold Admin.reassign_order.
    destruct (negb _); [exact Hsame|].
    destruct (_ || _)%bool; [exact Hsame|].
    destruct (get_order db order_id) as [order|] eqn:Ho; [|exact Hsame].
    destruct (negb _); [exact Hsame|].
    destruct (find _ _) as [new_deliverer|]; [|exact Hsame].
    destruct (deliverer_of_user _ _) as [profile|]; [|exact Hsame].
    destruct (negb _); [exact Hsame|].
    cbn [snd].
    eapply save_order_rows;
      [exact Ho | reflexivity | apply order_step_same |].
    split; [reflexivity | left; reflexivity].
Qed.

(** The graph has no edge from [accepted] to [ready], and none out of
    [delivered] or [cancelled]. *)
Lemma graph_has_no_shortcut :
  Spec.graph_edge "accepted" "ready" = false
  /\ forall to : string,
       Spec.graph_edge "delivered" to = false
       /\ Spec.graph_edge "cancelled" to = false.
Proof.
  split; [reflexivity|].
  intros to; unfold Spec.graph_edge, Spec.chain, Spec.active_state, str_in.
  cbn [existsb fst snd].
  split; string_cases; reflexivity.
Qed.

(** C4, as amended: whatever requests are served, every order row keeps
    its id and, at each request, keeps its status or moves along an edge of
    the graph of section 4.1 (so [preparing] is never skipped and no order
    leaves [delivered] or [cancelled]), with one exception: deleting a
    deliverer sends the deliverer's orders that are [accepted],
    [preparing], [ready] or [delivering] back to [pending] and clears
    their assignment.  A sequence of requests without such a deletion moves
    every order along the graph. *)
Theorem orders_follow_graph :
  (forall (ops : list System.op) (db : DB.t), Spec.trace_ok ops db)
  /\ (forall (ops : list System.op) (db : DB.t),
        existsb System.is_deliverer_deletion ops = false ->
        Spec.graph_trace ops db).
Proof.
  split.
  - intros ops; induction ops as [|op ops IH]; intros db; simpl.
    + exact I.
    + split; [apply step_order_step | apply IH].
  - intros ops; induction ops as [|op ops IH]; intros db; simpl.
    + intros _; exact I.
    + intros H; apply orb_false_elim in H; destruct H as [Hop Hops].
      split; [|apply IH; exact Hops].
      pose proof (step_order_step op db) as Hstep.
      eapply Forall2_impl; [|exact Hstep].
      intros o o' [Hid [Hs | [He | [Hdel _]]]].
      * split; [exact Hid | left; exact Hs].
      * split; [exact Hid | right; exact He].
      * rewrite Hop in Hdel; discriminate.
Qed.

(** C4 as stated fails: deliverer 8 claims order 100 and is then deleted by
    the admin; the order goes from [ready] to [delivering] and from there
    back to [pending], which is not an edge of the graph. *)
Lemma deleted_deliverer_sends_order_back :
  let ops := [System.AcceptDelivery 1 8 100; System.DeleteDeliverer 2 1 80] in
  let db1 := System.run [System.AcceptDelivery 1 8 100] Examples.market in
  let db2 := System.run ops Examples.market in
  System.responses ops Examples.market = [Ok; Ok]
  /\ option_map Order.status (get_order Examples.market 100) = Some "ready"
  /\ option_map Order.status (get_order db1 100) = Some "delivering"
  /\ option_map Order.status (get_order db2 100) = Some "pending"
  /\ Spec.graph_edge "delivering" "pending" = false
  /\ ~ Spec.graph_trace ops Examples.market.
Proof.
  repeat split.
  intros [_ [H _]].
  assert (E1 : DB.orders
                 (snd (System.step (System.AcceptDelivery 1 8 100)
                         Examples.market))
               = [Order.mk 100 3 20 (Some 8) "delivering" "Rua Augusta 10"
                    "Sao Paulo" None 1; Examples.pending_order])
    by reflexivity.
  assert (E2 : DB.orders
                 (snd (System.step (System.DeleteDeliverer 2 1 80)
                         (snd (System.step (System.AcceptDelivery 1 8 100)
                                 Examples.market))))
               = [Order.mk 100 3 20 None "pending" "Rua Augusta 10"
                    "Sao Paulo" None 2; Examples.pending_order])
    by reflexivity.
  rewrite E2, E1 in H.
  inversion H as [|o o' l l' [_ [Hs|He]] _]; simpl in Hs || simpl in He;
    discriminate.
Qed.

(** The amended claim at an input: order 101 is accepted, prepared and
    made ready by its store, claimed by deliverer 8 and delivered. *)
Lemma orders_follow_graph_witness :
  let ops :=
    [System.UpdateOrderStatus 1 2 101 "accepted";
     System.UpdateOrderStatus 2 2 101 "preparing";
     System.UpdateOrderStatus 3 2 101 "ready";
     System.AcceptDelivery 4 8 101;
     System.UpdateOrderStatus 5 8 101 "delivered"] in
  Spec.graph_trace ops Examples.market
  /\ System.responses ops Examples.market = [Ok; Ok; Ok; Ok; Ok]
  /\ get_order (System.run ops Examples.market) 101
     = Some (Order.mk 101 3 20 (Some 8) "delivered" "Avenida Atlantica 5"
               "Rio de Janeiro" None 5).
Proof.
  split; [|split; reflexivity].
  apply (proj2 orders_follow_graph); reflexivity.
Defined.

(** * Further properties of the code *)

(** ** Distances and arrival times ([calculate_distance],
    [estimate_arrival_time]) *)

(** The angle of a point with coordinates that are not negative lies in the
    first quadrant. *)
Lemma atan2_first_quadrant :
  forall y x : R,
    (0 <= y)%R -> (0 <= x)%R ->
    (0 <= Geolocation.atan2 y x <= PI / 2)%R.
Proof.
  intros y x Hy Hx; unfold Geolocation.atan2.
  pose proof PI_RGT_0 as Hpi.
  destruct (Rlt_dec 0 x) as [Hpos|Hnpos].
  - assert (Hq : (0 <= y / x)%R).
    { unfold Rdiv; apply Rmult_le_pos; [exact Hy|].
      left; apply Rinv_0_lt_compat; exact Hpos. }
    destruct (atan_bound (y / x)) as [_ Hup].
    split; [|lra].
    destruct Hq as [Hq|Hq].
    + left; rewrite <- atan_0; apply atan_increasing; exact Hq.
    + rewrite <- Hq, atan_0; lra.
  - destruct (Rlt_dec x 0) as [Hneg|_]; [lra|].
    destruct (Rlt_dec 0 y) as [_|_]; [lra|].
    destruct (Rlt_dec y 0) as [Hneg|_]; lra.
Qed.

(** The distance between two points does not depend on the direction. *)
Lemma calculate_distance_swap :
  forall lat1 lon1 lat2 lon2 : R,
    Geolocation.calculate_distance lat1 lon1 lat2 lon2
    = Geolocation.calculate_distance lat2 lon2 lat1 lon1.
Proof.
  intros lat1 lon1 lat2 lon2.
  unfold Geolocation.calculate_distance, Geolocation.radians; cbv zeta.
  assert (Hs : forall u v : R,
             (sin ((u - v) * PI / 180 / 2) * sin ((u - v) * PI / 180 / 2)
              = sin ((v - u) * PI / 180 / 2) * sin ((v - u) * PI / 180 / 2))%R).
  { intros u v.
    replace ((u - v) * PI / 180 / 2)%R with (- ((v - u) * PI / 180 / 2))%R
      by lra.
    rewrite sin_neg; ring. }
  assert (Ha :
            (sin ((lat2 - lat1) * PI / 180 / 2)
             * sin ((lat2 - lat1) * PI / 180 / 2)
             + cos (lat1 * PI / 180) * cos (lat2 * PI / 180)
               * sin ((lon2 - lon1) * PI / 180 / 2)
               * sin ((lon2 - lon1) * PI / 180 / 2)
             = sin ((lat1 - lat2) * PI / 180 / 2)
               * sin ((lat1 - lat2) * PI / 180 / 2)
               + cos (lat2 * PI / 180) * cos (lat1 * PI / 180)
                 * sin ((lon1 - lon2) * PI / 180 / 2)
                 * sin ((lon1 - lon2) * PI / 180 / 2))%R).
  { rewrite (Hs lat2 lat1).
    rewrite !Rmult_assoc, (Hs lon2 lon1); ring. }
  rewrite Ha; reflexivity.
Qed.

(** A distance is never negative and never more than half the
    circumference of the Earth. *)
Lemma calculate_distance_bounds :
  forall lat1 lon1 lat2 lon2 : R,
    (0 <= Geolocation.calculate_distance lat1 lon1 lat2 lon2 <= 6371 * PI)%R.
Proof.
  intros lat1 lon1 lat2 lon2.
  unfold Geolocation.calculate_distance; cbv zeta.
  match goal with
  | |- context [Geolocation.atan2 (sqrt ?a) (sqrt ?b)] =>
    pose proof (atan2_first_quadrant (sqrt a) (sqrt b) (sqrt_pos a)
                  (sqrt_pos b)) as H
  end.
  lra.
Qed.

(** The Haversine term is the same in both directions. *)
Lemma haversine_swap :
  forall lat1 lon1 lat2 lon2 : R,
    Props.haversine lat1 lon1 lat2 lon2 = Props.haversine lat2 lon2 lat1 lon1.
Proof.
  intros lat1 lon1 lat2 lon2; unfold Props.haversine, Geolocation.radians.
  assert (Hs : forall u v : R,
             (sin ((u - v) * PI / 180 / 2) * sin ((u - v) * PI / 180 / 2)
              = sin ((v - u) * PI / 180 / 2) * sin ((v - u) * PI / 180 / 2))%R).
  { intros u v.
    replace ((u - v) * PI / 180 / 2)%R with (- ((v - u) * PI / 180 / 2))%R
      by lra.
    rewrite sin_neg; ring. }
  rewrite (Hs lat2 lat1).
  rewrite !Rmult_assoc, (Hs lon2 lon1); ring.
Qed.

(** X1: Where [calculate_distance] returns, it behaves as a distance.  For
    two points of the globe that are clear of each other's antipode (so
    that the square root of [1 - a] is defined in double precision as
    well) the distance is [6371 * 2 * atan2 (sqrt a) (sqrt (1 - a))] for
    the Haversine term [a] of the two points, it is the same in both
    directions, in which the points are clear of each other's antipode as
    well, it is not negative and not more than half the circumference of
    the Earth, 6371 * PI km; and from a point to itself, which is clear
    of its antipode, it is zero. *)
Theorem calculate_distance_laws :
  forall lat1 lon1 lat2 lon2 : R,
    Props.geographic lat1 lon1 ->
    Props.geographic lat2 lon2 ->
    Props.clear_of_antipode lat1 lon1 lat2 lon2 ->
    Props.clear_of_antipode lat2 lon2 lat1 lon1
    /\ Geolocation.calculate_distance lat1 lon1 lat2 lon2
       = (6371
          * (2
             * Geolocation.atan2
                 (sqrt (Props.haversine lat1 lon1 lat2 lon2))
                 (sqrt (1 - Props.haversine lat1 lon1 lat2 lon2))))%R
    /\ Geolocation.calculate_distance lat1 lon1 lat2 lon2
       = Geolocation.calculate_distance lat2 lon2 lat1 lon1
    /\ (0 <= Geolocation.calculate_distance lat1 lon1 lat2 lon2
         <= 6371 * PI)%R
    /\ Props.clear_of_antipode lat1 lon1 lat1 lon1
    /\ Geolocation.calculate_distance lat1 lon1 lat1 lon1 = 0%R.
Proof.
  intros lat1 lon1 lat2 lon2 _ _ Hclear.
  split; [unfold Props.clear_of_antipode; rewrite haversine_swap;
          exact Hclear|].
  split; [reflexivity|].
  split; [apply calculate_distance_swap|].
  split; [apply calculate_distance_bounds|].
  split; [|apply calculate_distance_same_point].
  unfold Props.clear_of_antipode, Props.haversine, Geolocation.radians.
  replace ((lat1 - lat1) * PI / 180 / 2)%R with 0%R by lra.
  replace ((lon1 - lon1) * PI / 180 / 2)%R with 0%R by lra.
  rewrite sin_0; lra.
Qed.

(** From the equator at Greenwich to the north pole: the Haversine term
    is one half, a quarter of the way round the globe. *)
Lemma calculate_distance_laws_witness :
  Props.haversine 0 0 90 0 = (1 / 2)%R
  /\ (0 <= Geolocation.calculate_distance 0 0 90 0 <= 6371 * PI)%R
  /\ Geolocation.calculate_distance 0 0 90 0
     = Geolocation.calculate_distance 90 0 0 0.
Proof.
  assert (Ha : Props.haversine 0 0 90 0 = (1 / 2)%R).
  { unfold Props.haversine, Geolocation.radians.
    replace ((90 - 0) * PI / 180 / 2)%R with (PI / 4)%R by lra.
    replace ((0 - 0) * PI / 180 / 2)%R with 0%R by lra.
    rewrite sin_0, sin_PI4.
    assert (Hs : (sqrt 2 * sqrt 2 = 2)%R) by (apply sqrt_sqrt; lra).
    assert (Hp : (0 < sqrt 2)%R) by (apply sqrt_lt_R0; lra).
    field_simplify; [|lra].
    replace (sqrt 2 ^ 2)%R with (sqrt 2 * sqrt 2)%R by ring.
    rewrite Hs; lra. }
  split; [exact Ha|].
  assert (Hclear : Props.clear_of_antipode 0 0 90 0).
  { unfold Props.clear_of_antipode; rewrite Ha; lra. }
  assert (H0 : Props.geographic 0 0) by (unfold Props.geographic; lra).
  assert (H90 : Props.geographic 90 0) by (unfold Props.geographic; lra).
  destruct (calculate_distance_laws 0 0 90 0 H0 H90 Hclear)
    as [_ [_ [Hswap [Hbounds _]]]].
  split; [exact Hbounds | exact Hswap].
Defined.

(** The minutes of travel do not depend on the clock. *)
Lemma travel_minutes :
  forall now distance : R,
    (Geolocation.estimate_arrival_time now distance - now
     = Geolocation.estimate_arrival_time 0 distance)%R.
Proof.
  intros now distance; unfold Geolocation.estimate_arrival_time; cbv zeta.
  destruct (Rle_dec distance 0); lra.
Qed.

(** X2: An arrival is never estimated before the clock value, and a longer
    distance never gives an earlier arrival. *)
Theorem estimate_arrival_time_monotone :
  forall now d1 d2 : R,
    (d1 <= d2)%R ->
    (now <= Geolocation.estimate_arrival_time now d1)%R
    /\ (Geolocation.estimate_arrival_time now d1
        <= Geolocation.estimate_arrival_time now d2)%R.
Proof.
  intros now d1 d2 H; unfold Geolocation.estimate_arrival_time; cbv zeta.
  destruct (Rle_dec d1 0), (Rle_dec d2 0); split; lra.
Qed.

(** Ten kilometres are estimated at twenty-four minutes, and no distance
    at no time; both are fine with the order of the distances. *)
Lemma estimate_arrival_time_monotone_witness :
  (100 <= Geolocation.estimate_arrival_time 100 0)%R
  /\ (Geolocation.estimate_arrival_time 100 0
      <= Geolocation.estimate_arrival_time 100 10)%R.
Proof.
  apply (estimate_arrival_time_monotone 100 0 10); lra.
Defined.

(** ** Rounding and sorting ([round], [list.sort]) *)

(** [round] moves a number by half a unit at most. *)
Lemma py_round_near :
  forall x : R,
    (- (1 / 2) <= IZR (GeolocationMore.py_round x) - x <= 1 / 2)%R.
Proof.
  intros x; unfold GeolocationMore.py_round; cbv zeta.
  destruct (base_Int_part x) as [Hlo Hhi].
  destruct (Rlt_dec (x - IZR (Int_part x)) (1 / 2)) as [H1|H1]; [lra|].
  destruct (Rlt_dec (1 / 2) (x - IZR (Int_part x))) as [H2|H2].
  - rewrite plus_IZR; lra.
  - destruct (Z.even (Int_part x)); [|rewrite plus_IZR]; lra.
Qed.

(** [round] does not go below an integer that the number has reached. *)
Lemma py_round_above :
  forall (x : R) (n : Z),
    (IZR n <= x)%R -> (n <= GeolocationMore.py_round x)%Z.
Proof.
  intros x n Hn.
  assert (Hfloor : (n <= Int_part x)%Z).
  { destruct (base_Int_part x) as [_ Hhi].
    assert (H : (IZR (n - 1) < IZR (Int_part x))%R)
      by (rewrite minus_IZR; lra).
    apply lt_IZR in H; lia. }
  unfold GeolocationMore.py_round; cbv zeta.
  repeat match goal with
         | |- context [if ?c then _ else _] => destruct c
         end; lia.
Qed.

Lemma py_round2_near :
  forall x : R,
    (- (1 / 200) <= GeolocationMore.py_round2 x - x <= 1 / 200)%R.
Proof.
  intros x; unfold GeolocationMore.py_round2.
  pose proof (py_round_near (x * 100)) as H; lra.
Qed.

Lemma In_insert_by :
  forall (A : Type) (key : A -> R) (x y : A) (l : list A),
    In y (GeolocationMore.insert_by key x l) <-> y = x \/ In y l.
Proof.
  intros A key x y l; induction l as [|z l IH]; simpl.
  - split; intros [H|H]; auto.
  - destruct (Rle_dec (key x) (key z)); simpl.
    + split; intros H; intuition auto.
    + rewrite IH; split; intros H; intuition auto.
Qed.

Lemma In_sort_by :
  forall (A : Type) (key : A -> R) (y : A) (l : list A),
    In y (GeolocationMore.sort_by key l) <-> In y l.
Proof.
  intros A key y l; unfold GeolocationMore.sort_by.
  induction l as [|x l IH]; simpl; [reflexivity|].
  rewrite In_insert_by, IH; split; intros [H|H]; auto.
Qed.

Lemma length_insert_by :
  forall (A : Type) (key : A -> R) (x : A) (l : list A),
    length (GeolocationMore.insert_by key x l) = S (length l).
Proof.
  intros A key x l; induction l as [|z l IH]; simpl; [reflexivity|].
  destruct (Rle_dec (key x) (key z)); simpl; congruence.
Qed.

Lemma length_sort_by :
  forall (A : Type) (key : A -> R) (l : list A),
    length (GeolocationMore.sort_by key l) = length l.
Proof.
  intros A key l; unfold GeolocationMore.sort_by.
  induction l as [|x l IH]; simpl; [reflexivity|].
  rewrite length_insert_by; congruence.
Qed.

Lemma Sorted_insert_by :
  forall (A : Type) (key : A -> R) (x : A) (l : list A),
    Sorted (fun a b => (key a <= key b)%R) l ->
    Sorted (fun a b => (key a <= key b)%R)
      (GeolocationMore.insert_by key x l).
Proof.
  intros A key x l; induction l as [|z l IH]; simpl; intros Hs.
  - constructor; constructor.
  - destruct (Rle_dec (key x) (key z)) as [Hle|Hgt].
    + constructor; [exact Hs | constructor; exact Hle].
    + inversion Hs as [|? ? Hl Hhd]; subst.
      constructor; [apply IH; exact Hl|].
      destruct l as [|w l]; simpl.
      * constructor; lra.
      * destruct (Rle_dec (key x) (key w)); constructor.
        -- lra.
        -- inversion Hhd; assumption.
Qed.

Lemma Sorted_sort_by :
  forall (A : Type) (key : A -> R) (l : list A),
    Sorted (fun a b => (key a <= key b)%R) (GeolocationMore.sort_by key l).
Proof.
  intros A key l; unfold GeolocationMore.sort_by.
  induction l as [|x l IH]; simpl; [constructor|].
  apply Sorted_insert_by; exact IH.
Qed.

(** ** Nearby deliverers ([get_nearby_deliverers]) *)

Lemma In_recent_locations :
  forall (now : R) (db : DB.t) (l : DelivererLocation.t),
    In l (GeolocationMore.recent_locations now db)
    <-> Props.shown_location now db l.
Proof.
  intros now db l; unfold GeolocationMore.recent_locations,
    Props.shown_location; cbv zeta.
  rewrite filter_In, !andb_true_iff, existsb_exists.
  split.
  - intros [Hin [[Ha Hr] [d [Hd Hp]]]].
    rewrite !andb_true_iff in Hp; destruct Hp as [[Hu Ho] Hap].
    repeat split; try assumption.
    + destruct (Rle_dec _ _); [assumption | discriminate].
    + exists d; repeat split; try assumption.
      apply Z.eqb_eq; exact Hu.
  - intros [Hin [Ha [Hr [d [Hd [Hu [Ho Hap]]]]]]].
    split; [exact Hin|]; split; [split; [exact Ha|]|].
    + destruct (Rle_dec _ _); [reflexivity | contradiction].
    + exists d; split; [exact Hd|].
      rewrite !andb_true_iff; repeat split; try assumption.
      apply Z.eqb_eq; exact Hu.
Qed.

(** X3: The deliverers [get_nearby_deliverers] answers with are exactly the
    location rows that are active, at most ten minutes old and of a
    deliverer who is online and approved, and that lie within the radius;
    they come by ascending [distance_km], and each location row comes once
    at most. *)
Theorem nearby_deliverers_exact :
  forall (now : R) (user_id : Z) (latitude longitude radius_km : R)
         (db : DB.t) (result : list NearbyDeliverer.t),
    GeolocationMore.get_nearby_deliverers now user_id (Some latitude)
      (Some longitude) (Some radius_km) db = inr result ->
    (forall item : NearbyDeliverer.t,
        In item result
        <-> exists l : DelivererLocation.t,
              Props.shown_location now db l
              /\ (Geolocation.calculate_distance latitude longitude
                    (DelivererLocation.latitude l)
                    (DelivererLocation.longitude l) <= radius_km)%R
              /\ item = Props.nearby_item now latitude longitude l)
    /\ Sorted
         (fun a b =>
            (NearbyDeliverer.distance_km a <= NearbyDeliverer.distance_km b)%R)
         result
    /\ (length result <= length (DB.deliverer_locations db))%nat.
Proof.
  intros now user_id latitude longitude radius_km db result.
  unfold GeolocationMore.get_nearby_deliverers.
  destruct (get_user db user_id) as [user|]; [|discriminate].
  destruct (negb _); [discriminate|].
  intros H; injection H as <-.
  split; [|split].
  - intros item; rewrite In_sort_by.
    unfold GeolocationMore.within_radius; rewrite in_flat_map.
    split.
    + intros [l [Hl Hitem]]; cbv zeta in Hitem.
      destruct (Rle_dec _ radius_km) as [Hd|_]; [|contradiction].
      destruct Hitem as [<-|[]].
      exists l; split; [apply In_recent_locations; exact Hl|].
      split; [exact Hd | reflexivity].
    + intros [l [Hl [Hd ->]]].
      exists l; split; [apply In_recent_locations; exact Hl|].
      cbv zeta; destruct (Rle_dec _ radius_km); [|contradiction].
      left; reflexivity.
  - apply Sorted_sort_by.
  - rewrite length_sort_by.
    unfold GeolocationMore.within_radius, GeolocationMore.recent_locations.
    cbv zeta.
    match goal with
    | |- (length (flat_map ?f (filter ?p ?l)) <= _)%nat =>
      apply Nat.le_trans with (length (filter p l));
        [|apply filter_length_le];
        generalize (filter p l); intros l'
    end.
    induction l' as [|x l' IH]; simpl; [lia|].
    destruct (Rle_dec _ radius_km); simpl; lia.
Qed.

(** Only stores and admins may ask for the deliverers nearby. *)
Lemma nearby_deliverers_callers :
  forall (now : R) (user_id : Z) (latitude longitude radius : option R)
         (db : DB.t),
    (exists result,
        GeolocationMore.get_nearby_deliverers now user_id latitude longitude
          radius db = inr result)
    <-> exists user : User.t,
          get_user db user_id = Some user
          /\ (User.user_type user = "store" \/ User.user_type user = "admin").
Proof.
  intros now user_id latitude longitude radius db.
  unfold GeolocationMore.get_nearby_deliverers, str_in; simpl.
  destruct (get_user db user_id) as [user|].
  - destruct (String.eqb_spec (User.user_type user) "store") as [Es|Ns];
      simpl.
    + split; [intros _; exists user; auto | intros _; eexists; reflexivity].
    + destruct (String.eqb_spec (User.user_type user) "admin") as [Ea|Na];
        simpl.
      * split; [intros _; exists user; auto | intros _; eexists; reflexivity].
      * split; [intros [r H]; discriminate|].
        intros [u [Hu [H|H]]]; injection Hu as <-; contradiction.
  - split; [intros [r H]; discriminate | intros [u [H _]]; discriminate].
Qed.

(** At the clock value 40 the admin asks who is within 5 km of the point
    (0, 0): the active report of deliverer 8 is shown, at distance 0; the
    report of deliverer 9 is too old, the first report of deliverer 8 is
    no longer active. *)
Lemma nearby_deliverers_exact_witness :
  let shown := DelivererLocation.mk 8 0 0 None None None true 35 in
  let result := [Props.nearby_item 40 0 0 shown] in
  GeolocationMore.get_nearby_deliverers 40 1 (Some 0%R) (Some 0%R)
    (Some 5%R) Examples2.tracked_market = inr result
  /\ (In (Props.nearby_item 40 0 0 shown) result
      <-> exists l : DelivererLocation.t,
            Props.shown_location 40 Examples2.tracked_market l
            /\ (Geolocation.calculate_distance 0 0
                  (DelivererLocation.latitude l)
                  (DelivererLocation.longitude l) <= 5)%R
            /\ Props.nearby_item 40 0 0 shown = Props.nearby_item 40 0 0 l).
Proof.
  intros shown result.
  assert (Hr : GeolocationMore.recent_locations 40 Examples2.tracked_market
               = [shown]).
  { unfold GeolocationMore.recent_locations, Examples2.tracked_market; simpl.
    repeat match goal with
           | |- context [Rle_dec ?a ?b] =>
             destruct (Rle_dec a b); try lra; simpl
           end.
    reflexivity. }
  assert (Hq : GeolocationMore.get_nearby_deliverers 40 1 (Some 0%R)
                 (Some 0%R) (Some 5%R) Examples2.tracked_market
               = inr result).
  { unfold GeolocationMore.get_nearby_deliverers; simpl.
    rewrite Hr; unfold GeolocationMore.within_radius; simpl.
    rewrite calculate_distance_same_point.
    destruct (Rle_dec 0 5); [|lra].
    unfold result, Props.nearby_item; simpl.
    rewrite calculate_distance_same_point; reflexivity. }
  split; [exact Hq|].
  apply (proj1 (nearby_deliverers_exact 40 1 0 0 5 Examples2.tracked_market
                  result Hq)).
Defined.
(** ** Delivery estimates ([estimate_delivery_time]) *)

(** Half a minute in the past still rounds to no minute. *)
Lemma py_round_half :
  forall x : R, (- (1 / 2) <= x)%R -> (0 <= GeolocationMore.py_round x)%Z.
Proof.
  intros x Hx.
  destruct (Rle_dec 0 x) as [Hpos|Hneg]; [apply py_round_above; exact Hpos|].
  unfold GeolocationMore.py_round; cbv zeta.
  destruct (base_Int_part x) as [Hlo Hhi].
  assert (Hfloor : Int_part x = (-1)%Z).
  { assert (H1 : (IZR (Int_part x) < IZR 0)%R) by (simpl; lra).
    assert (H2 : (IZR (-2) < IZR (Int_part x))%R) by (simpl; lra).
    apply lt_IZR in H1, H2; lia. }
  rewrite Hfloor.
  destruct (Rlt_dec (x - IZR (-1)) (1 / 2)) as [H|_]; [simpl in H; lra|].
  destruct (Rlt_dec (1 / 2) (x - IZR (-1))); simpl; lia.
Qed.

(** X4: An estimate is refused with 400 only for a missing coordinate.  An
    estimate that is given is the estimate for the four coordinates of
    the body.  Its price is at least the base price 5.00, and the way
    back is estimated at the same distance and price, whatever the clock
    says.  For two points of the globe, with [distance] what
    [calculate_distance] gives for them, it shows the distance and the
    price [5 + 2.5 * distance] up to half a hundredth, and as minutes the
    travel time at 25 km/h less the time between the two clock readings
    of the handler, up to half a minute, which is not negative if no more
    than half a minute has passed. *)
Theorem estimate_delivery_time_sound :
  forall (now later : R) (data : EstimateBody.t),
    (GeolocationMore.estimate_delivery_time now later data = inl BadRequest
     <-> EstimateBody.pickup_lat data = None
         \/ EstimateBody.pickup_lon data = None
         \/ EstimateBody.delivery_lat data = None
         \/ EstimateBody.delivery_lon data = None)
    /\ (forall e : Estimate.t,
          GeolocationMore.estimate_delivery_time now later data = inr e ->
          exists pickup_lat pickup_lon delivery_lat delivery_lon : R,
            data
            = EstimateBody.mk (Some pickup_lat) (Some pickup_lon)
                (Some delivery_lat) (Some delivery_lon)
            /\ (5 <= Estimate.estimated_price e)%R
            /\ (forall now' later' : R,
                  exists e' : Estimate.t,
                    GeolocationMore.estimate_delivery_time now' later'
                      (Props.way_back data) = inr e'
                    /\ Estimate.distance_km e' = Estimate.distance_km e
                    /\ Estimate.estimated_price e'
                       = Estimate.estimated_price e)
            /\ (Props.geographic pickup_lat pickup_lon ->
                Props.geographic delivery_lat delivery_lon ->
                let distance :=
                  Geolocation.calculate_distance pickup_lat pickup_lon
                    delivery_lat delivery_lon in
                (- (1 / 200) <= Estimate.distance_km e - distance
                 <= 1 / 200)%R
                /\ (- (1 / 200)
                    <= Estimate.estimated_price e - (5 + distance * 2.5)
                    <= 1 / 200)%R
                /\ (- (1 / 2)
                    <= IZR (Estimate.estimated_time_minutes e)
                       - (distance / 25 * 60 - (later - now))
                    <= 1 / 2)%R
                /\ ((later - now <= 1 / 2)%R ->
                    (0 <= Estimate.estimated_time_minutes e)%Z))).
Proof.
  intros now later [[a|] [b|] [c|] [d|]];
    unfold GeolocationMore.estimate_delivery_time;
    simpl; (split; [split; [intros H; try discriminate; auto
                           | intros H; try reflexivity;
                             destruct H as [H|[H|[H|H]]]; discriminate]|]);
    try (intros e H; discriminate).
  intros e H; injection H as <-; simpl.
  exists a, b, c, d; split; [reflexivity|].
  pose proof (calculate_distance_bounds a b c d) as [Hd _].
  assert (Htravel :
            (Geolocation.estimate_arrival_time now
               (Geolocation.calculate_distance a b c d) - later
             = Geolocation.calculate_distance a b c d / 25 * 60
               - (later - now))%R).
  { unfold Geolocation.estimate_arrival_time; cbv zeta.
    destruct (Rle_dec (Geolocation.calculate_distance a b c d) 0); lra. }
  split; [|split].
  - unfold GeolocationMore.py_round2.
    assert (H : (500 <= GeolocationMore.py_round
                          ((5 + Geolocation.calculate_distance a b c d * 2.5)
                           * 100))%Z)
      by (apply py_round_above; lra).
    apply IZR_le in H; lra.
  - intros now' later'; eexists; split; [reflexivity|]; simpl.
    rewrite (calculate_distance_swap c d a b); split; reflexivity.
  - intros _ _.
    split; [apply py_round2_near|].
    split; [apply py_round2_near|].
    split.
    + rewrite Htravel; apply py_round_near.
    + intros Hsoon; rewrite Htravel.
      apply py_round_half; lra.
Qed.

(** From the point (0, 0) to itself, answered a quarter of a minute after
    the first look at the clock: an estimate is given, at the base price
    or more and at no negative time. *)
Lemma estimate_delivery_time_sound_witness :
  exists e : Estimate.t,
    GeolocationMore.estimate_delivery_time 7 (7 + 1 / 4)
      (EstimateBody.mk (Some 0%R) (Some 0%R) (Some 0%R) (Some 0%R))
    = inr e
    /\ (5 <= Estimate.estimated_price e)%R
    /\ (0 <= Estimate.estimated_time_minutes e)%Z.
Proof.
  eexists; split; [reflexivity|].
  destruct (proj2 (estimate_delivery_time_sound 7 (7 + 1 / 4)
                     (EstimateBody.mk (Some 0%R) (Some 0%R) (Some 0%R)
                        (Some 0%R))) _ eq_refl)
    as [a [b [c [d [Hdata [Hprice [_ Hnum]]]]]]].
  injection Hdata as <- <- <- <-.
  assert (H0 : Props.geographic 0 0) by (unfold Props.geographic; lra).
  destruct (Hnum H0 H0) as [_ [_ [_ Htime]]].
  split; [exact Hprice | apply Htime; lra].
Defined.

(** ** The rate limiter ([rate_limit]) *)

Lemma rate_limit_get_set :
  forall (c : RateLimit.counts) (key : string) (q : list R),
    RateLimit.get (RateLimit.set c key q) key = q.
Proof.
  intros c key q; unfold RateLimit.get, dict_get.
  induction c as [|[k v] c IH]; simpl.
  - rewrite String.eqb_refl; reflexivity.
  - destruct (k =? key)%string eqn:E; simpl.
    + rewrite String.eqb_refl; reflexivity.
    + rewrite E; exact IH.
Qed.

Lemma rate_limit_get_set_other :
  forall (c : RateLimit.counts) (key other : string) (q : list R),
    other <> key ->
    RateLimit.get (RateLimit.set c key q) other = RateLimit.get c other.
Proof.
  intros c key other q Hne; unfold RateLimit.get, dict_get.
  assert (Hk : (key =? other)%string = false)
    by (apply String.eqb_neq; congruence).
  induction c as [|[k v] c IH]; simpl.
  - rewrite Hk; reflexivity.
  - destruct (String.eqb_spec k key) as [->|Nk]; simpl.
    + rewrite Hk; reflexivity.
    + destruct (k =? other)%string; [reflexivity | exact IH].
Qed.

(** On a deque in the order of the clock the loop drops exactly the times
    before the window. *)
Lemma drop_old_since :
  forall (start : R) (q : list R),
    Sorted Rle q -> RateLimit.drop_old start q = Props.since start q.
Proof.
  intros start q Hs; apply Sorted_StronglySorted in Hs;
    [|intros x y z; apply Rle_trans].
  induction Hs as [|t q Hq IH Hall]; simpl; [reflexivity|].
  destruct (Rlt_dec t start) as [Hold|Hnew].
  - destruct (Rle_dec start t); [lra | exact IH].
  - destruct (Rle_dec start t) as [_|]; [|lra].
    f_equal; unfold Props.since.
    symmetry; apply forallb_filter_id.
    apply forallb_forall; intros u Hu.
    rewrite Forall_forall in Hall; specialize (Hall u Hu).
    destruct (Rle_dec start u); [reflexivity | lra].
Qed.

Lemma drop_old_length :
  forall (start : R) (q : list R),
    (length (RateLimit.drop_old start q) <= length q)%nat.
Proof.
  intros start q; induction q as [|t q IH]; simpl; [lia|].
  destruct (Rlt_dec t start); simpl; lia.
Qed.

Lemma since_since :
  forall (a b : R) (q : list R),
    (a <= b)%R -> Props.since b (Props.since a q) = Props.since b q.
Proof.
  intros a b q Hab; unfold Props.since.
  induction q as [|t q IH]; simpl; [reflexivity|].
  destruct (Rle_dec a t), (Rle_dec b t); simpl;
    try destruct (Rle_dec b t); try lra; rewrite ?IH; reflexivity.
Qed.

Lemma since_app :
  forall (a : R) (q1 q2 : list R),
    Props.since a (q1 ++ q2) = (Props.since a q1 ++ Props.since a q2)%list.
Proof.
  intros; unfold Props.since; apply filter_app.
Qed.

Lemma Sorted_since :
  forall (a : R) (q : list R), Sorted Rle q -> Sorted Rle (Props.since a q).
Proof.
  intros a q Hs; apply Sorted_StronglySorted in Hs;
    [|intros x y z; apply Rle_trans].
  apply StronglySorted_Sorted.
  induction Hs as [|t q Hq IH Hall]; simpl; [constructor|].
  destruct (Rle_dec a t); [|exact IH].
  constructor; [exact IH|].
  rewrite Forall_forall in *; intros u Hu.
  apply filter_In in Hu; apply Hall, Hu.
Qed.

Lemma Sorted_snoc :
  forall (q : list R) (t : R),
    Sorted Rle q -> Forall (fun u => (u <= t)%R) q -> Sorted Rle (q ++ [t]).
Proof.
  intros q t Hs Hall; induction Hs as [|u q Hq IH Hhd]; simpl.
  - constructor; constructor.
  - inversion Hall as [|? ? Hu Hrest]; subst.
    constructor; [apply IH; exact Hrest|].
    destruct q; simpl; constructor; [exact Hu|].
    inversion Hhd; assumption.
Qed.

Lemma last_cons :
  forall (A : Type) (x : A) (l : list A) (d d' : A),
    last (x :: l) d = last l x /\ last (x :: l) d = last (x :: l) d'.
Proof.
  intros A x l; revert x; induction l as [|y l IH]; intros x d d'; simpl.
  - split; reflexivity.
  - destruct (IH y d d') as [H1 H2]; destruct (IH y x d) as [H3 H4].
    simpl in *; split; congruence.
Qed.

(** What one pass does to the deque of its key. *)
Lemma rate_limit_step :
  forall (max_requests : Z) (window_minutes : R) (key : string) (now : R)
         (c : RateLimit.counts),
    let q := RateLimit.drop_old (now - window_minutes) (RateLimit.get c key) in
    fst (RateLimit.rate_limit max_requests window_minutes key now c)
    = (Z.of_nat (length q) <? max_requests)
    /\ RateLimit.get
         (snd (RateLimit.rate_limit max_requests window_minutes key now c))
         key
       = (if (Z.of_nat (length q) <? max_requests) then q ++ [now] else q)%list.
Proof.
  intros max_requests window_minutes key now c q.
  unfold RateLimit.rate_limit; cbv zeta; fold q.
  rewrite Z.geb_leb.
  destruct (Z.leb_spec max_requests (Z.of_nat (length q))) as [H|H];
    destruct (Z.ltb_spec (Z.of_nat (length q)) max_requests) as [H'|H'];
    try lia; simpl; rewrite rate_limit_get_set; split; reflexivity.
Qed.

(** The deque of a key after a run of requests, from the deque before. *)
Lemma rate_limit_run :
  forall (max_requests : Z) (window_minutes : R) (key : string),
    (0 <= window_minutes)%R ->
    forall (times : list R) (c : RateLimit.counts) (acc : list R) (start : R),
      Sorted Rle times ->
      Sorted Rle acc ->
      Forall
        (fun t =>
           (start <= t - window_minutes)%R
           /\ Forall (fun u => (u <= t)%R) acc)
        times ->
      RateLimit.get c key = Props.since start acc ->
      RateLimit.get
        (RateLimit.after max_requests window_minutes key times c) key
      = Props.since
          (last (map (fun t => (t - window_minutes)%R) times) start)
          (acc
           ++ Props.let_through times
                (RateLimit.serve max_requests window_minutes key times c)).
Proof.
  intros max_requests window_minutes key HW times.
  induction times as [|t rest IH]; intros c acc start Hst Hsa Hall Hget.
  - simpl; unfold Props.let_through; simpl; rewrite app_nil_r; exact Hget.
  - inversion Hall as [|? ? [Hstart Hacc] Hrest]; subst.
    apply Sorted_StronglySorted in Hst; [|intros x y z; apply Rle_trans].
    inversion Hst as [|? ? Hsrest Hle]; subst.
    destruct (rate_limit_step max_requests window_minutes key t c)
      as [Hflag Hq].
    cbv zeta in Hflag, Hq.
    rewrite Hget in Hflag, Hq.
    rewrite (drop_old_since _ _ (Sorted_since start acc Hsa)) in Hflag, Hq.
    rewrite (since_since _ _ _ Hstart) in Hflag, Hq.
    set (flag := fst (RateLimit.rate_limit max_requests window_minutes key t c))
      in *.
    set (c1 := snd (RateLimit.rate_limit max_requests window_minutes key t c))
      in *.
    set (acc1 := if flag then (acc ++ [t])%list else acc).
    assert (Hq1 : RateLimit.get c1 key
                  = Props.since (t - window_minutes) acc1).
    { rewrite Hq, <- Hflag; unfold acc1; destruct flag; [|reflexivity].
      rewrite since_app; f_equal; unfold Props.since; simpl.
      destruct (Rle_dec (t - window_minutes) t); [reflexivity | lra]. }
    assert (Hsa1 : Sorted Rle acc1).
    { unfold acc1; destruct flag; [apply Sorted_snoc|]; assumption. }
    assert (Hall1 : Forall
                      (fun t' =>
                         (t - window_minutes <= t' - window_minutes)%R
                         /\ Forall (fun u => (u <= t')%R) acc1)
                      rest).
    { rewrite Forall_forall in *; intros t' Ht'.
      specialize (Hle t' Ht'); destruct (Hrest t' Ht') as [_ Hacc'].
      split; [lra|].
      unfold acc1; destruct flag; [|exact Hacc'].
      apply Forall_app; split; [exact Hacc' | constructor; auto]. }
    specialize (IH c1 acc1 (t - window_minutes)%R
                  (StronglySorted_Sorted Hsrest) Hsa1 Hall1 Hq1).
    change (RateLimit.after max_requests window_minutes key (t :: rest) c)
      with (RateLimit.after max_requests window_minutes key rest c1).
    rewrite IH.
    change (RateLimit.serve max_requests window_minutes key (t :: rest) c)
      with (flag :: RateLimit.serve max_requests window_minutes key rest c1).
    f_equal.
    + simpl map; rewrite (proj1 (last_cons _ _ _ start start)).
      reflexivity.
    + unfold acc1, Props.let_through; simpl.
      destruct flag; simpl; [rewrite <- app_assoc|]; reflexivity.
Qed.

(** The deque of a key never holds more times than the limit, once it
    does not. *)
Lemma rate_limit_length :
  forall (max_requests : Z) (window_minutes : R) (key : string)
         (times : list R) (c : RateLimit.counts),
    (Z.of_nat (length (RateLimit.get c key)) <= Z.max 0 max_requests)%Z ->
    (Z.of_nat
       (length
          (RateLimit.get
             (RateLimit.after max_requests window_minutes key times c) key))
     <= Z.max 0 max_requests)%Z.
Proof.
  intros max_requests window_minutes key times.
  induction times as [|t rest IH]; intros c Hc; simpl; [exact Hc|].
  apply IH.
  destruct (rate_limit_step max_requests window_minutes key t c) as [_ Hq].
  cbv zeta in Hq; rewrite Hq.
  pose proof (drop_old_length (t - window_minutes) (RateLimit.get c key)).
  destruct (Z.ltb_spec
              (Z.of_nat
                 (length
                    (RateLimit.drop_old (t - window_minutes)
                       (RateLimit.get c key))))
              max_requests); [rewrite length_app; simpl|]; lia.
Qed.

Lemma serve_app :
  forall (max_requests : Z) (window_minutes : R) (key : string)
         (times : list R) (now : R) (c : RateLimit.counts),
    RateLimit.serve max_requests window_minutes key (times ++ [now]) c
    = (RateLimit.serve max_requests window_minutes key times c
       ++ [fst (RateLimit.rate_limit max_requests window_minutes key now
                  (RateLimit.after max_requests window_minutes key times c))])%list
    /\ RateLimit.after max_requests window_minutes key (times ++ [now]) c
       = snd (RateLimit.rate_limit max_requests window_minutes key now
                (RateLimit.after max_requests window_minutes key times c)).
Proof.
  intros max_requests window_minutes key times now.
  induction times as [|t rest IH]; intros c; simpl; [split; reflexivity|].
  destruct (IH (snd (RateLimit.rate_limit max_requests window_minutes key t c)))
    as [-> ->].
  split; reflexivity.
Qed.

Lemma StronglySorted_snoc_inv :
  forall (l : list R) (x : R),
    StronglySorted Rle (l ++ [x]) ->
    StronglySorted Rle l /\ Forall (fun t => (t <= x)%R) l.
Proof.
  intros l x; induction l as [|t l IH]; simpl; intros H.
  - split; constructor.
  - inversion H as [|? ? Hl Hall]; subst.
    destruct (IH Hl) as [Hs Hle].
    rewrite Forall_app in Hall; destruct Hall as [Hall Hx].
    split; constructor; try assumption.
    inversion Hx; assumption.
Qed.

Lemma let_through_sublist :
  forall (times : list R) (flags : list bool) (u : R),
    In u (Props.let_through times flags) -> In u times.
Proof.
  intros times; unfold Props.let_through.
  induction times as [|t times IH]; intros [|f flags] u; simpl;
    try contradiction.
  destruct f; simpl; [intros [H|H]; [left; exact H|]|intros H];
    right; eapply IH; exact H.
Qed.

Lemma let_through_sorted :
  forall (times : list R) (flags : list bool),
    StronglySorted Rle times ->
    StronglySorted Rle (Props.let_through times flags).
Proof.
  intros times flags Hs; revert flags.
  induction Hs as [|t times Hs IH Hall]; intros [|f flags];
    try (unfold Props.let_through; simpl; constructor).
  assert (E : Props.let_through (t :: times) (f :: flags)
              = ((if f then [t] else []) ++ Props.let_through times flags)%list).
  { unfold Props.let_through; simpl; destruct f; reflexivity. }
  rewrite E; clear E.
  destruct f; simpl; [|apply IH].
  constructor; [apply IH|].
  rewrite Forall_forall in *; intros u Hu.
  apply Hall; eapply let_through_sublist; exact Hu.
Qed.

Lemma last_prop :
  forall (A : Type) (P : A -> Prop) (l : list A) (d : A),
    P d -> Forall P l -> P (last l d).
Proof.
  intros A P l; induction l as [|x l IH]; intros d Hd Hall; simpl;
    [exact Hd|].
  inversion Hall; subst.
  destruct l; [assumption | apply IH; assumption].
Qed.

Lemma rate_limit_other_keys :
  forall (max_requests : Z) (window_minutes : R) (key other : string)
         (times : list R) (c : RateLimit.counts),
    other <> key ->
    RateLimit.get (RateLimit.after max_requests window_minutes key times c)
      other
    = RateLimit.get c other.
Proof.
  intros max_requests window_minutes key other times.
  induction times as [|t rest IH]; intros c Hne; simpl; [reflexivity|].
  rewrite IH by exact Hne.
  unfold RateLimit.rate_limit; cbv zeta.
  destruct (_ >=? _); simpl; apply rate_limit_get_set_other; exact Hne.
Qed.

(** X5: The limiter keeps a sliding window.  A caller whose key is new sends
    requests to routes with the same limit, the clock never going back.
    Then a request is let through exactly when fewer than [max_requests]
    requests of the caller were let through in the last [window_minutes];
    the deque of the key holds exactly the requests let through in that
    time, at most [max_requests] of them; and the deques of all other keys
    are as they were. *)
Theorem rate_limit_sliding_window :
  forall (max_requests : Z) (window_minutes : R) (key : string)
         (times : list R) (now : R) (c : RateLimit.counts),
    RateLimit.get c key = [] ->
    (0 <= window_minutes)%R ->
    Sorted Rle (times ++ [now]) ->
    let before :=
      Props.let_through times
        (RateLimit.serve max_requests window_minutes key times c) in
    let pass :=
      RateLimit.rate_limit max_requests window_minutes key now
        (RateLimit.after max_requests window_minutes key times c) in
    (fst pass = true
     <-> (Z.of_nat (length (Props.since (now - window_minutes) before))
          < max_requests)%Z)
    /\ RateLimit.get (snd pass) key
       = Props.since (now - window_minutes)
           (before ++ (if fst pass then [now] else []))
    /\ (Z.of_nat (length (RateLimit.get (snd pass) key))
        <= Z.max 0 max_requests)%Z
    /\ (forall other : string,
          other <> key ->
          RateLimit.get (snd pass) other = RateLimit.get c other).
Proof.
  intros max_requests window_minutes key times now c Hnew HW Hsorted
    before pass.
  apply Sorted_StronglySorted in Hsorted; [|intros x y z; apply Rle_trans].
  destruct (StronglySorted_snoc_inv times now Hsorted) as [Hst Hle].
  set (start := (hd now times - window_minutes)%R).
  assert (Hstart : Forall
                     (fun t =>
                        (start <= t - window_minutes)%R
                        /\ Forall (fun u => (u <= t)%R) []) times).
  { unfold start; destruct Hst as [|t0 rest Hrest Hall]; simpl;
      constructor.
    - split; [lra | constructor].
    - rewrite Forall_forall in *; intros t Ht.
      specialize (Hall t Ht); split; [lra | constructor]. }
  pose proof (rate_limit_run max_requests window_minutes key HW times c []
                start (StronglySorted_Sorted Hst) (Sorted_nil Rle) Hstart)
    as Hrun.
  rewrite Hnew in Hrun; specialize (Hrun eq_refl); simpl in Hrun.
  fold before in Hrun.
  set (previous := last (map (fun t => (t - window_minutes)%R) times) start)
    in Hrun.
  assert (Hprev : (previous <= now - window_minutes)%R).
  { unfold previous; apply last_prop.
    - unfold start; destruct times as [|t0 rest]; simpl; [lra|].
      inversion Hle; lra.
    - rewrite Forall_map; rewrite Forall_forall in *; intros t Ht.
      specialize (Hle t Ht); lra. }
  assert (Hbefore : Sorted Rle before).
  { apply StronglySorted_Sorted, let_through_sorted; exact Hst. }
  destruct (rate_limit_step max_requests window_minutes key now
              (RateLimit.after max_requests window_minutes key times c))
    as [Hflag Hq].
  cbv zeta in Hflag, Hq; fold pass in Hflag, Hq.
  rewrite Hrun in Hflag, Hq.
  rewrite (drop_old_since _ _ (Sorted_since previous before Hbefore))
    in Hflag, Hq.
  rewrite (since_since _ _ _ Hprev) in Hflag, Hq.
  split; [|split; [|split]].
  - rewrite Hflag; apply Z.ltb_lt.
  - rewrite Hq, <- Hflag, since_app.
    destruct (fst pass); [|rewrite app_nil_r; reflexivity].
    f_equal; unfold Props.since; simpl.
    destruct (Rle_dec (now - window_minutes) now); [reflexivity | lra].
  - unfold pass.
    rewrite <- (proj2 (serve_app max_requests window_minutes key times now c)).
    apply rate_limit_length; rewrite Hnew; simpl; lia.
  - intros other Hne; unfold pass.
    rewrite <- (proj2 (serve_app max_requests window_minutes key times now c)).
    apply rate_limit_other_keys; exact Hne.
Qed.

(** Two requests in a minute are allowed: the third request of a caller
    within the minute is refused, and the deque keeps the two that were
    let through. *)
Lemma rate_limit_sliding_window_witness :
  let pass :=
    RateLimit.rate_limit 2 1 "user_3" 0.75
      (RateLimit.after 2 1 "user_3" [0%R; 0.5%R] []) in
  (fst pass = true
   <-> (Z.of_nat
          (length
             (Props.since (0.75 - 1)
                (Props.let_through [0%R; 0.5%R]
                   (RateLimit.serve 2 1 "user_3" [0%R; 0.5%R] []))))
        < 2)%Z)
  /\ (Z.of_nat (length (RateLimit.get (snd pass) "user_3")) <= Z.max 0 2)%Z.
Proof.
  assert (Hs : Sorted Rle ([0%R; 0.5%R] ++ [0.75%R])).
  { simpl; repeat constructor; lra. }
  assert (H0 : (0 <= 1)%R) by lra.
  destruct (rate_limit_sliding_window 2 1 "user_3" [0%R; 0.5%R] 0.75 []
              eq_refl H0 Hs) as [Hpass [_ [Hlen _]]].
  split; [exact Hpass | exact Hlen].
Defined.
(** ** Delivery requests *)

(** With primary keys, the row a query finds is the row its key finds. *)
Lemma find_by_key :
  forall (A : Type) (key : A -> Z) (p : A -> bool) (l : list A) (x : A),
    NoDup (map key l) ->
    find p l = Some x ->
    find (fun y => key y =? key x) l = Some x.
Proof.
  intros A key p l x; induction l as [|y l IH]; simpl; intros Hnd Hf;
    [discriminate|].
  inversion Hnd as [|? ? Hnotin Hnd']; subst.
  destruct (p y).
  - injection Hf as ->; rewrite Z.eqb_refl; reflexivity.
  - destruct (Z.eqb_spec (key y) (key x)) as [E|_]; [|apply IH; assumption].
    exfalso; apply Hnotin; rewrite E.
    apply in_map, (find_some _ _ Hf).
Qed.

Lemma map_replace_first :
  forall (A : Type) (key : A -> Z) (x : A) (l : list A),
    map key (replace_first (fun y => key y =? key x) x l) = map key l.
Proof.
  intros A key x l; induction l as [|y l IH]; simpl; [reflexivity|].
  destruct (Z.eqb_spec (key y) (key x)) as [E|_]; simpl; congruence.
Qed.

Lemma find_replace_first_same :
  forall (A : Type) (p q : A -> bool) (x d : A) (l : list A),
    find q l = Some d ->
    find p l = Some d ->
    q x = true ->
    find q (replace_first p x l) = Some x.
Proof.
  intros A p q x d l; induction l as [|y l IH]; simpl; [discriminate|].
  intros Hq Hp Hx.
  destruct (p y) eqn:Hpy; simpl.
  - rewrite Hx; reflexivity.
  - destruct (q y) eqn:Hqy; [|apply IH; assumption].
    injection Hq as ->.
    apply find_some in Hp; destruct Hp as [_ Hp]; congruence.
Qed.

Lemma In_replace_first :
  forall (A : Type) (p : A -> bool) (x y : A) (l : list A),
    find p l = Some y -> In x (replace_first p x l).
Proof.
  intros A p x y l; induction l as [|z l IH]; simpl; [discriminate|].
  destruct (p z); intros H; [left; reflexivity | right; auto].
Qed.

Lemma unique_key :
  forall (A : Type) (key : A -> Z) (l : list A) (x y : A),
    NoDup (map key l) -> In x l -> In y l -> key x = key y -> x = y.
Proof.
  intros A key l x y; induction l as [|z l IH]; simpl; [contradiction|].
  intros Hnd Hx Hy E; inversion Hnd as [|? ? Hnotin Hnd']; subst.
  destruct Hx as [->|Hx], Hy as [->|Hy]; auto.
  - exfalso; apply Hnotin; rewrite E; apply in_map; exact Hy.
  - exfalso; apply Hnotin; rewrite <- E; apply in_map; exact Hx.
Qed.

Lemma sum_replace_first :
  forall (A : Type) (f : A -> Z) (p : A -> bool) (x y : A) (l : list A),
    find p l = Some y ->
    fold_right Z.add 0 (map f (replace_first p x l))
    = fold_right Z.add 0 (map f l) - f y + f x.
Proof.
  intros A f p x y l; induction l as [|z l IH]; simpl; [discriminate|].
  destruct (p z); intros H; simpl.
  - injection H as ->; lia.
  - rewrite IH by exact H; lia.
Qed.

Lemma Forall_replace_first :
  forall (A : Type) (P : A -> Prop) (p : A -> bool) (x : A) (l : list A),
    Forall P l -> P x -> Forall P (replace_first p x l).
Proof.
  intros A P p x l H Hx; induction H as [|y l Hy Hl IH]; simpl;
    [constructor|].
  destruct (p y); constructor; assumption.
Qed.

Lemma Forall_remove_first :
  forall (A : Type) (P : A -> Prop) (p : A -> bool) (l : list A),
    Forall P l -> Forall P (Admin.remove_first p l).
Proof.
  intros A P p l H; induction H as [|y l Hy Hl IH]; simpl; [constructor|].
  destruct (p y); [assumption | constructor; assumption].
Qed.

(** The row a query by key finds is the first row a write by the same
    key replaces. *)
Lemma Forall2_replace_found :
  forall (A : Type) (P : A -> A -> Prop) (p : A -> bool) (x y : A)
         (l : list A),
    (forall z, P z z) ->
    find p l = Some y ->
    P y x ->
    Forall2 P l (replace_first p x l).
Proof.
  intros A P p x y l Hrefl; induction l as [|z l IH]; simpl; [discriminate|].
  destruct (p z); intros Hf Hp.
  - injection Hf as ->; constructor; [exact Hp|].
    apply Forall2_same; exact Hrefl.
  - constructor; [apply Hrefl | apply IH; assumption].
Qed.

Lemma request_step_same :
  forall r : DeliveryRequest.t, Props.request_step r r.
Proof.
  intros r; left; reflexivity.
Qed.

(** The requests of a deleted user lose their deliverer. *)
Lemma clear_assigned_deliveries_step :
  forall (user_id : Z) (l : list DeliveryRequest.t),
    Forall2 Props.request_step l (Admin.clear_assigned_deliveries user_id l).
Proof.
  intros user_id l; unfold Admin.clear_assigned_deliveries.
  apply Forall2_map_r; intros r.
  destruct (DeliveryRequest.deliverer_id r) as [u|] eqn:Hd; simpl;
    [|left; reflexivity].
  destruct (u =? user_id); [|left; reflexivity].
  right; right; split; [exists u; exact Hd | reflexivity].
Qed.

(** The handlers that do not write the [delivery_requests] table. *)
Lemma step_keeps_requests :
  forall (o : System.op) (db : DB.t),
    match o with
    | System.AcceptDeliveryRequest _ _ | System.DeleteStore _ _ _
    | System.DeleteDeliverer _ _ _ => False
    | _ => True
    end ->
    DB.delivery_requests (snd (System.step o db)) = DB.delivery_requests db.
Proof.
  intros o db H; destruct o; try contradiction; cbn [System.step];
    try (rewrite delivery_request_report_fails; reflexivity);
    unfold Orders.update_order_status, Orders.accept_delivery,
      Deliverers.toggle_online, Admin.approve_deliverer,
      Admin.reject_deliverer, Admin.reassign_order,
      Geolocation.update_deliverer_location;
    handler_cases; reflexivity.
Qed.

(** One request to the server, one step of every delivery request. *)
Lemma step_request_step :
  forall (op : System.op) (db : DB.t),
    Forall2 Props.request_step (DB.delivery_requests db)
      (DB.delivery_requests (snd (System.step op db))).
Proof.
  intros op db.
  pose proof (step_keeps_requests op db) as Hkeep.
  pose proof (Forall2_same _ Props.request_step (DB.delivery_requests db)
                request_step_same) as Hsame.
  destruct op; try (rewrite Hkeep by exact I; exact Hsame); clear Hkeep;
    cbn [System.step].
  - (* accept_delivery_request *)
    unfold Deliverers.accept_delivery_request.
    destruct (get_user db user_id) as [user|]; [|exact Hsame].
    destruct (negb _); [exact Hsame|].
    destruct (deliverer_of_user db user_id) as [deliverer|]; [|exact Hsame].
    destruct (negb _); [exact Hsame|].
    destruct (get_delivery_request db request_id) as [r|] eqn:Hr;
      [|exact Hsame].
    destruct (String.eqb_spec (DeliveryRequest.status r) "pending")
      as [Es|_]; cbn [negb]; [|exact Hsame].
    destruct (truthy_id (DeliveryRequest.deliverer_id r)) eqn:Ht;
      [exact Hsame|].
    unfold save_delivery_request; cbn [snd DB.delivery_requests
      DB.set_delivery_requests].
    cbn [DeliveryRequest.id DeliveryRequest.set_status
         DeliveryRequest.set_deliverer_id].
    assert (Hid : DeliveryRequest.id r = request_id).
    { unfold get_delivery_request in Hr; apply find_some in Hr.
      apply Z.eqb_eq, Hr. }
    rewrite Hid.
    eapply Forall2_replace_found; [exact request_step_same | exact Hr |].
    right; left; split; [exact Es|]; split; [exact Ht|].
    exists user_id; reflexivity.
  - (* delete_store *)
    unfold Admin.delete_store.
    destruct (negb _); [exact Hsame|].
    destruct (get_store db store_id) as [store|]; [|exact Hsame].
    destruct (get_user db (Store.user_id store)) as [user|]; [|exact Hsame].
    cbv zeta.
    destruct (existsb _ _); [exact Hsame|].
    destruct (Admin.user_is_held _ _); [exact Hsame|].
    apply clear_assigned_deliveries_step.
  - (* delete_deliverer *)
    unfold Admin.delete_deliverer.
    destruct (negb _); [exact Hsame|].
    destruct (get_deliverer db deliverer_id) as [deliverer|]; [|exact Hsame].
    destruct (get_user db (Deliverer.user_id deliverer)) as [user|];
      [|exact Hsame].
    cbv zeta.
    destruct (Admin.user_is_held _ _); [exact Hsame|].
    apply clear_assigned_deliveries_step.
Qed.

Lemma Forall2_trans_clos :
  forall (A : Type) (R : A -> A -> Prop) (l1 l2 l3 : list A),
    Forall2 R l1 l2 ->
    Forall2 (clos_refl_trans A R) l2 l3 ->
    Forall2 (clos_refl_trans A R) l1 l3.
Proof.
  intros A R l1 l2 l3 H; revert l3.
  induction H as [|x y l1 l2 Hxy _ IH]; intros l3 H23; inversion H23; subst;
    constructor.
  - eapply rt_trans; [apply rt_step; exact Hxy | eassumption].
  - apply IH; assumption.
Qed.

(** Where a path of a delivery request can lead. *)
Lemma request_path_keeps :
  forall r r' : DeliveryRequest.t,
    Props.request_path r r' ->
    DeliveryRequest.id r' = DeliveryRequest.id r
    /\ DeliveryRequest.client_id r' = DeliveryRequest.client_id r
    /\ (DeliveryRequest.status r' = DeliveryRequest.status r
        \/ (DeliveryRequest.status r = "pending"
            /\ DeliveryRequest.status r' = "accepted"))
    /\ (DeliveryRequest.status r' = DeliveryRequest.status r ->
        DeliveryRequest.deliverer_id r' = DeliveryRequest.deliverer_id r
        \/ DeliveryRequest.deliverer_id r' = None).
Proof.
  unfold Props.request_path; intros r r' H.
  apply clos_rt_rt1n in H.
  induction H as [r|r r1 r' Hstep _ IH].
  - repeat split; auto.
  - destruct IH as [IHid [IHc [IHs IHd]]].
    destruct Hstep as [->|[[Hs [_ [u ->]]]|[_ ->]]].
    + repeat split; auto.
    + cbn [DeliveryRequest.id DeliveryRequest.client_id
           DeliveryRequest.status DeliveryRequest.deliverer_id
           DeliveryRequest.set_status DeliveryRequest.set_deliverer_id] in *.
      split; [exact IHid|]; split; [exact IHc|].
      assert (Hacc : DeliveryRequest.status r' = "accepted").
      { destruct IHs as [E|[E _]]; [exact E | discriminate]. }
      split; [right; split; assumption|].
      intros E; rewrite Hacc, Hs in E; discriminate.
    + cbn [DeliveryRequest.id DeliveryRequest.client_id
           DeliveryRequest.status DeliveryRequest.deliverer_id
           DeliveryRequest.set_status DeliveryRequest.set_deliverer_id] in *.
      split; [exact IHid|]; split; [exact IHc|]; split; [exact IHs|].
      intros E; right; destruct (IHd E) as [H|H]; exact H.
Qed.

(** X6: A delivery request never gets past [accepted].  Whatever requests
    are served, each row of [delivery_requests] keeps its place, its id
    and its client, and goes through steps of three kinds only: it is
    left as it is, it is claimed (pending and unbound, it becomes
    accepted and bound to the claimant), or it loses its deliverer (whose
    user has been deleted).  So its status stays, or goes from pending to
    accepted; a row that is not pending keeps its status for ever, and no
    row becomes picked up, delivered or cancelled; a row whose status has
    stayed has the deliverer it had, or none. *)
Theorem delivery_requests_stop_at_accepted :
  forall (ops : list System.op) (db : DB.t),
    Forall2
      (fun r r' =>
         Props.request_path r r'
         /\ DeliveryRequest.id r' = DeliveryRequest.id r
         /\ DeliveryRequest.client_id r' = DeliveryRequest.client_id r
         /\ (DeliveryRequest.status r' = DeliveryRequest.status r
             \/ (DeliveryRequest.status r = "pending"
                 /\ DeliveryRequest.status r' = "accepted"))
         /\ (DeliveryRequest.status r <> "pending" ->
             DeliveryRequest.status r' = DeliveryRequest.status r)
         /\ (str_in (DeliveryRequest.status r')
               ["picked_up"; "delivered"; "cancelled"] = true ->
             DeliveryRequest.status r = DeliveryRequest.status r')
         /\ (DeliveryRequest.status r' = DeliveryRequest.status r ->
             DeliveryRequest.deliverer_id r' = DeliveryRequest.deliverer_id r
             \/ DeliveryRequest.deliverer_id r' = None))
      (DB.delivery_requests db)
      (DB.delivery_requests (System.run ops db)).
Proof.
  intros ops db.
  assert (Hpath : Forall2 Props.request_path (DB.delivery_requests db)
                    (DB.delivery_requests (System.run ops db))).
  { revert db; induction ops as [|op ops IH]; intros db; simpl.
    - apply Forall2_same; intros r; apply rt_refl.
    - eapply Forall2_trans_clos; [apply step_request_step | apply IH]. }
  eapply Forall2_impl; [|exact Hpath].
  intros r r' H; destruct (request_path_keeps r r' H) as [Hid [Hc [Hs Hd]]].
  split; [exact H|]; split; [exact Hid|]; split; [exact Hc|].
  split; [exact Hs|]; split; [|split; [|exact Hd]].
  - intros Hne; destruct Hs as [E|[E _]]; [exact E | contradiction].
  - intros Hin; destruct Hs as [E|[_ E]]; [symmetry; exact E|].
    rewrite E in Hin; discriminate.
Qed.

(** Deliverer 8 claims the request 500 and reports it picked up and
    delivered: the request is accepted, and stays so; when the admin then
    deletes deliverer 8, the request is accepted and bound to nobody. *)
Lemma delivery_requests_stop_at_accepted_witness :
  System.responses Examples2.request_500 Examples.market
  = [Ok; Error InternalError; Error InternalError]
  /\ DB.delivery_requests (System.run Examples2.request_500 Examples.market)
     = [DeliveryRequest.mk 500 3 (Some 8) "accepted"]
  /\ DB.delivery_requests
       (System.run Examples2.request_500_deleted Examples.market)
     = [DeliveryRequest.mk 500 3 None "accepted"]
  /\ Forall2 Props.request_path (DB.delivery_requests Examples.market)
       (DB.delivery_requests
          (System.run Examples2.request_500_deleted Examples.market)).
Proof.
  split; [reflexivity|]; split; [reflexivity|]; split; [reflexivity|].
  eapply Forall2_impl;
    [|apply (delivery_requests_stop_at_accepted
               Examples2.request_500_deleted Examples.market)].
  intros r r' H; apply H.
Defined.

(** ** Delivery requests: the counter *)

(** The handlers that do not write the [deliverers] table. *)
Lemma step_keeps_deliverers :
  forall (o : System.op) (db : DB.t),
    match o with
    | System.UpdateOrderStatus _ _ _ _ | System.AcceptDelivery _ _ _
    | System.AcceptDeliveryRequest _ _
    | System.UpdateDeliveryRequestStatus _ _ _ | System.DeleteStore _ _ _
    | System.ReassignOrder _ _ _ _ _ _ | System.UpdateLocation _ _ _ => True
    | _ => False
    end ->
    DB.deliverers (snd (System.step o db)) = DB.deliverers db.
Proof.
  intros o db H; destruct o; try contradiction; cbn [System.step];
    try (rewrite delivery_request_report_fails; reflexivity);
    unfold Orders.update_order_status, Orders.accept_delivery,
      Deliverers.accept_delivery_request, Admin.delete_store,
      Admin.reassign_order, Geolocation.update_deliverer_location;
    handler_cases; reflexivity.
Qed.

(** One request leaves the counter of every profile it leaves. *)
Lemma step_keeps_counters :
  forall (op : System.op) (db : DB.t),
    Forall
      (fun d' =>
         exists d : Deliverer.t,
           In d (DB.deliverers db) /\ Props.same_counter d d')
      (DB.deliverers (snd (System.step op db))).
Proof.
  intros op db.
  assert (Hsame : Forall
                    (fun d' =>
                       exists d : Deliverer.t,
                         In d (DB.deliverers db) /\ Props.same_counter d d')
                    (DB.deliverers db)).
  { apply Forall_forall; intros d Hd; exists d.
    split; [exact Hd | repeat split]. }
  pose proof (step_keeps_deliverers op db) as Hkeep.
  destruct op; try (rewrite Hkeep by exact I; exact Hsame); clear Hkeep;
    cbn [System.step].
  - (* toggle_online *)
    unfold Deliverers.toggle_online.
    destruct (get_user db user_id) as [user|]; [|exact Hsame].
    destruct (negb _); [exact Hsame|].
    destruct (deliverer_of_user db user_id) as [d|] eqn:Hd; [|exact Hsame].
    destruct (negb _); [exact Hsame|].
    unfold save_deliverer; cbn [snd DB.deliverers DB.set_deliverers].
    apply Forall_replace_first; [exact Hsame|].
    exists d; split; [|repeat split].
    unfold deliverer_of_user in Hd; apply (find_some _ _ Hd).
  - (* approve_deliverer *)
    unfold Admin.approve_deliverer.
    destruct (negb _); [exact Hsame|].
    destruct (get_deliverer db deliverer_id) as [d|] eqn:Hd; [|exact Hsame].
    destruct (get_user db (Deliverer.user_id d)) as [user|]; [|exact Hsame].
    unfold save_user, save_deliverer;
      cbn [snd DB.deliverers DB.set_deliverers DB.set_users].
    apply Forall_replace_first; [exact Hsame|].
    exists d; split; [|repeat split].
    unfold get_deliverer in Hd; apply (find_some _ _ Hd).
  - (* reject_deliverer *)
    unfold Admin.reject_deliverer.
    destruct (negb _); [exact Hsame|].
    destruct (get_deliverer db deliverer_id) as [d|] eqn:Hd; [|exact Hsame].
    destruct (get_user db (Deliverer.user_id d)) as [user|]; [|exact Hsame].
    unfold save_user, save_deliverer;
      cbn [snd DB.deliverers DB.set_deliverers DB.set_users].
    apply Forall_replace_first; [exact Hsame|].
    exists d; split; [|repeat split].
    unfold get_deliverer in Hd; apply (find_some _ _ Hd).
  - (* delete_deliverer *)
    unfold Admin.delete_deliverer.
    destruct (negb _); [exact Hsame|].
    destruct (get_deliverer db deliverer_id) as [d|]; [|exact Hsame].
    destruct (get_user db (Deliverer.user_id d)) as [user|]; [|exact Hsame].
    cbv zeta.
    destruct (Admin.user_is_held _ _); [exact Hsame|].
    unfold Admin.delete_user_row, DB.set_users, DB.set_deliverers,
      DB.set_delivery_requests, DB.set_orders; cbn [snd DB.deliverers].
    apply Forall_remove_first; exact Hsame.
Qed.

(** X7: The delivery counter never counts.  A status report for a delivery
    request is never accepted: a caller who is not a deliverer is refused
    with 403, a deliverer gets 500, and nothing is written; so the line
    that adds one to [total_deliveries] is never reached.  Whatever
    requests are served, every profile that is left is a profile of
    before with the counter it had. *)
Theorem delivery_counter_never_counts :
  (forall (user_id request_id : Z) (new_status : string) (db : DB.t),
      Deliverers.update_delivery_request_status user_id request_id
        new_status db
      = (Error
           (if Spec.is_deliverer_user db user_id then InternalError
            else Forbidden),
         db))
  /\ (forall (ops : list System.op) (db : DB.t),
        Forall
          (fun d' =>
             exists d : Deliverer.t,
               In d (DB.deliverers db)
               /\ Deliverer.id d' = Deliverer.id d
               /\ Deliverer.user_id d' = Deliverer.user_id d
               /\ Deliverer.total_deliveries d'
                  = Deliverer.total_deliveries d)
          (DB.deliverers (System.run ops db))).
Proof.
  split; [exact delivery_request_report_fails|].
  intros ops; induction ops as [|op ops IH]; intros db; simpl.
  - apply Forall_forall; intros d Hd; exists d.
    split; [exact Hd | repeat split].
  - specialize (IH (snd (System.step op db))).
    pose proof (step_keeps_counters op db) as Hstep.
    rewrite Forall_forall in IH, Hstep; apply Forall_forall.
    intros d'' Hd''.
    destruct (IH d'' Hd'') as [d' [Hd' [E1 [E2 E3]]]].
    destruct (Hstep d' Hd') as [d [Hd [F1 [F2 F3]]]].
    exists d; split; [exact Hd|]; repeat split; congruence.
Qed.

(** Deliverer 8 has claimed the request 500 and reports it delivered: the
    report fails, and after the three requests the counter of the
    deliverer is 0 as before. *)
Lemma delivery_counter_never_counts_witness :
  let db := System.run [System.AcceptDeliveryRequest 8 500] Examples.market in
  DB.delivery_requests db = [DeliveryRequest.mk 500 3 (Some 8) "accepted"]
  /\ Deliverers.update_delivery_request_status 8 500 "delivered" db
     = (Error InternalError, db)
  /\ Forall (fun d => Deliverer.total_deliveries d = 0)
       (DB.deliverers (System.run Examples2.request_500 Examples.market)).
Proof.
  split; [reflexivity|]; split.
  - exact (proj1 delivery_counter_never_counts 8 500 "delivered" _).
  - pose proof (proj2 delivery_counter_never_counts Examples2.request_500
                  Examples.market) as H.
    eapply Forall_impl; [|exact H].
    intros d' [d [Hd [_ [_ E]]]]; rewrite E.
    simpl in Hd; destruct Hd as [<-|[<-|[<-|[]]]]; reflexivity.
Defined.

(** ** Delivery requests: from the client to the deliverer *)

Lemma find_key_in :
  forall (A : Type) (key : A -> Z) (l : list A) (x : A),
    NoDup (map key l) ->
    In x l ->
    find (fun y => key y =? key x) l = Some x.
Proof.
  intros A key l x; induction l as [|y l IH]; simpl; [contradiction|].
  intros Hnd Hin; inversion Hnd as [|? ? Hnotin Hnd']; subst.
  destruct Hin as [->|Hin]; [rewrite Z.eqb_refl; reflexivity|].
  destruct (Z.eqb_spec (key y) (key x)) as [E|_]; [|apply IH; assumption].
  exfalso; apply Hnotin; rewrite E; apply in_map; exact Hin.
Qed.

Lemma filter_filter :
  forall (A : Type) (p q : A -> bool) (l : list A),
    filter q (filter p l) = filter (fun x => (p x && q x)%bool) l.
Proof.
  intros A p q l; induction l as [|y l IH]; simpl; [reflexivity|].
  destruct (p y); simpl; [destruct (q y)|]; rewrite IH; reflexivity.
Qed.

(** A row that leaves a selection when it is written back. *)
Lemma filter_replace_first_out :
  forall (A : Type) (key : A -> Z) (p : A -> bool) (x x' : A) (l : list A),
    NoDup (map key l) ->
    In x l ->
    key x' = key x ->
    p x' = false ->
    filter p (replace_first (fun y => key y =? key x') x' l)
    = filter (fun y => (p y && negb (key y =? key x))%bool) l.
Proof.
  intros A key p x x' l Hnd Hin Hkey Hp; rewrite Hkey.
  induction l as [|y l IH]; simpl; [reflexivity|].
  inversion Hnd as [|? ? Hnotin Hnd']; subst.
  destruct (Z.eqb_spec (key y) (key x)) as [E|N]; simpl.
  - rewrite Hp, andb_false_r.
    apply filter_ext_in; intros z Hz.
    destruct (Z.eqb_spec (key z) (key x)) as [Ez|_];
      [|rewrite andb_true_r; reflexivity].
    exfalso; apply Hnotin; rewrite E, <- Ez; apply in_map; exact Hz.
  - rewrite andb_true_r.
    destruct Hin as [->|Hin]; [contradiction N; reflexivity|].
    rewrite (IH Hnd' Hin); reflexivity.
Qed.

(** A row that enters a selection when it is written back. *)
Lemma filter_replace_first_in :
  forall (A : Type) (key : A -> Z) (p : A -> bool) (x x' : A) (l : list A),
    NoDup (map key l) ->
    In x l ->
    key x' = key x ->
    p x' = true ->
    In x' (filter p (replace_first (fun y => key y =? key x') x' l)).
Proof.
  intros A key p x x' l Hnd Hin Hkey Hp.
  apply filter_In; split; [|exact Hp].
  apply In_replace_first with (y := x).
  rewrite Hkey; apply find_key_in; assumption.
Qed.

(** What a deliverer who is given the list of available requests is. *)
Lemma available_requests_inv :
  forall (user_id : Z) (db : DB.t) (listing : list DeliveryRequest.t),
    DeliveryRequests.get_available_delivery_requests user_id db
    = inr listing ->
    exists (user : User.t) (deliverer : Deliverer.t),
      get_user db user_id = Some user
      /\ (User.user_type user =? "deliverer")%string = true
      /\ deliverer_of_user db user_id = Some deliverer
      /\ Deliverer.is_online deliverer = true
      /\ listing
         = DeliveryRequests.newest_first
             (fun r =>
                ((DeliveryRequest.status r =? "pending")%string
                 && match DeliveryRequest.deliverer_id r with
                    | None => true
                    | Some _ => false
                    end)%bool)
             db.
Proof.
  intros user_id db listing.
  unfold DeliveryRequests.get_available_delivery_requests.
  destruct (get_user db user_id) as [user|]; [|discriminate].
  destruct (User.user_type user =? "deliverer")%string eqn:Ht;
    cbn [negb]; [|discriminate].
  destruct (deliverer_of_user db user_id) as [deliverer|]; [|discriminate].
  destruct (Deliverer.is_online deliverer) eqn:Hon; cbn [negb];
    [|discriminate].
  intros H; injection H as <-.
  exists user, deliverer; repeat split; assumption.
Qed.

(** X8: Every delivery request on the list of available requests can be
    claimed by the deliverer who was given the list.  After the claim the
    request is accepted and bound to the deliverer, it is among the
    requests of the deliverer, and the list of available requests is the
    list as it was without this request. *)
Theorem listed_request_can_be_claimed :
  forall (user_id : Z) (db : DB.t) (listing : list DeliveryRequest.t)
         (r : DeliveryRequest.t),
    Props.unique_request_ids db ->
    DeliveryRequests.get_available_delivery_requests user_id db
    = inr listing ->
    In r listing ->
    let claimed :=
      DeliveryRequest.mk (DeliveryRequest.id r) (DeliveryRequest.client_id r)
        (Some user_id) "accepted" in
    let db' :=
      snd (Deliverers.accept_delivery_request user_id (DeliveryRequest.id r)
             db) in
    fst (Deliverers.accept_delivery_request user_id (DeliveryRequest.id r) db)
    = Ok
    /\ get_delivery_request db' (DeliveryRequest.id r) = Some claimed
    /\ DeliveryRequests.get_available_delivery_requests user_id db'
       = inr
           (filter
              (fun x => negb (DeliveryRequest.id x =? DeliveryRequest.id r))
              listing)
    /\ exists mine : list DeliveryRequest.t,
         DeliveryRequests.get_my_delivery_requests user_id db' = inr mine
         /\ In claimed mine.
Proof.
  intros user_id db listing r Hnd Hlist Hin claimed db'.
  destruct (available_requests_inv _ _ _ Hlist)
    as [user [deliverer [Hu [Ht [Hp [Hon ->]]]]]].
  unfold DeliveryRequests.newest_first in Hin.
  apply in_rev, filter_In in Hin; destruct Hin as [Hin Hr].
  apply andb_prop in Hr; destruct Hr as [Hs Hnone].
  destruct (DeliveryRequest.deliverer_id r) as [u|] eqn:Hd; [discriminate|].
  pose proof (find_key_in _ DeliveryRequest.id _ r Hnd Hin) as Hget.
  assert (Hacc : Deliverers.accept_delivery_request user_id
                   (DeliveryRequest.id r) db
                 = (Ok, save_delivery_request claimed db)).
  { unfold Deliverers.accept_delivery_request, get_delivery_request.
    rewrite Hu, Ht, Hp, Hon, Hget, Hs, Hd; reflexivity. }
  unfold db'; rewrite Hacc; cbn [fst snd].
  split; [reflexivity|]; split; [|split].
  - unfold get_delivery_request, save_delivery_request; simpl.
    apply find_replace_first with (y := r); [exact Hget|].
    apply Z.eqb_refl.
  - unfold DeliveryRequests.get_available_delivery_requests.
    change (get_user (save_delivery_request claimed db) user_id)
      with (get_user db user_id).
    change (deliverer_of_user (save_delivery_request claimed db) user_id)
      with (deliverer_of_user db user_id).
    rewrite Hu, Ht, Hp, Hon; cbn [negb]; f_equal.
    unfold DeliveryRequests.newest_first, save_delivery_request;
      cbn [DB.delivery_requests DB.set_delivery_requests].
    rewrite (filter_replace_first_out _ DeliveryRequest.id _ r claimed)
      by (try assumption; reflexivity).
    rewrite <- filter_filter, filter_rev; reflexivity.
  - unfold DeliveryRequests.get_my_delivery_requests.
    change (get_user (save_delivery_request claimed db) user_id)
      with (get_user db user_id).
    rewrite Hu.
    destruct (String.eqb_spec (User.user_type user) "client") as [E|_].
    { rewrite E in Ht; discriminate. }
    rewrite Ht; eexists; split; [reflexivity|].
    unfold DeliveryRequests.newest_first, save_delivery_request;
      cbn [DB.delivery_requests DB.set_delivery_requests].
    apply -> in_rev.
    apply (filter_replace_first_in _ DeliveryRequest.id _ r claimed);
      try assumption; try reflexivity.
    simpl; apply Z.eqb_refl.
Qed.

(** Deliverer 8 is given the list of [market] and claims its request. *)
Lemma listed_request_can_be_claimed_witness :
  fst (Deliverers.accept_delivery_request 8 500 Examples.market) = Ok
  /\ get_delivery_request
       (snd (Deliverers.accept_delivery_request 8 500 Examples.market)) 500
     = Some (DeliveryRequest.mk 500 3 (Some 8) "accepted")
  /\ DeliveryRequests.get_available_delivery_requests 8
       (snd (Deliverers.accept_delivery_request 8 500 Examples.market))
     = inr [].
Proof.
  assert (Hnd : Props.unique_request_ids Examples.market) by unique_ids.
  destruct (listed_request_can_be_claimed 8 Examples.market
              [Examples.pending_request] Examples.pending_request Hnd
              eq_refl (or_introl eq_refl)) as [Hok [Hget [Hlist _]]].
  split; [exact Hok|]; split; [exact Hget | exact Hlist].
Defined.

Lemma create_delivery_request_ok :
  forall (new_id user_id : Z) (pickup delivery item : string)
         (payment : option string) (db : DB.t),
    fst (DeliveryRequests.create_delivery_request new_id user_id pickup
           delivery item payment db) = Ok ->
    (exists user : User.t,
        get_user db user_id = Some user
        /\ (User.user_type user =? "client")%string = true)
    /\ snd (DeliveryRequests.create_delivery_request new_id user_id pickup
              delivery item payment db)
       = DB.set_delivery_requests
           (DB.delivery_requests db
            ++ [DeliveryRequest.mk new_id user_id None "pending"])
           db.
Proof.
  intros new_id user_id pickup delivery item payment db.
  unfold DeliveryRequests.create_delivery_request.
  destruct (get_user db user_id) as [user|]; [|discriminate].
  destruct (User.user_type user =? "client")%string eqn:Ht; cbn [negb];
    [|discriminate].
  destruct (_ || _)%bool; [discriminate|].
  destruct (negb _); [discriminate|].
  intros _; split; [exists user; split; [reflexivity | exact Ht]|].
  reflexivity.
Qed.

Lemma find_app_none :
  forall (A : Type) (p : A -> bool) (l l' : list A),
    find p l = None -> find p (l ++ l') = find p l'.
Proof.
  intros A p l l'; induction l as [|z l IH]; simpl; [reflexivity|].
  destruct (p z); [discriminate | exact IH].
Qed.

Lemma replace_first_fresh :
  forall (A : Type) (p : A -> bool) (x y : A) (l : list A),
    find p l = None ->
    p x = true ->
    replace_first p y (l ++ [x]) = (l ++ [y])%list.
Proof.
  intros A p x y l; induction l as [|z l IH]; simpl; intros Hf Hx.
  - rewrite Hx; reflexivity.
  - destruct (p z); [discriminate|].
    rewrite IH by assumption; reflexivity.
Qed.

(** X9: A delivery request that a client has created is the first of the
    client's requests and the first on the list of every deliverer who is
    given the list of available requests; each of these deliverers can
    claim it, and the list is then as it was before the request was
    created. *)
Theorem new_request_reaches_deliverers :
  forall (new_id user_id : Z) (pickup delivery item : string)
         (payment : option string) (db : DB.t),
    get_delivery_request db new_id = None ->
    fst (DeliveryRequests.create_delivery_request new_id user_id pickup
           delivery item payment db) = Ok ->
    let request := DeliveryRequest.mk new_id user_id None "pending" in
    let db1 :=
      snd (DeliveryRequests.create_delivery_request new_id user_id pickup
             delivery item payment db) in
    (exists mine : list DeliveryRequest.t,
        DeliveryRequests.get_my_delivery_requests user_id db = inr mine
        /\ DeliveryRequests.get_my_delivery_requests user_id db1
           = inr (request :: mine))
    /\ forall (deliverer_id : Z) (listing : list DeliveryRequest.t),
         DeliveryRequests.get_available_delivery_requests deliverer_id db
         = inr listing ->
         DeliveryRequests.get_available_delivery_requests deliverer_id db1
         = inr (request :: listing)
         /\ fst (Deliverers.accept_delivery_request deliverer_id new_id db1)
            = Ok
         /\ DeliveryRequests.get_available_delivery_requests deliverer_id
              (snd (Deliverers.accept_delivery_request deliverer_id new_id
                      db1))
            = inr listing.
Proof.
  intros new_id user_id pickup delivery item payment db Hfresh Hok request
    db1.
  destruct (create_delivery_request_ok _ _ _ _ _ _ _ Hok)
    as [[user [Hu Ht]] Hdb].
  fold db1 in Hdb; fold request in Hdb.
  split.
  - unfold DeliveryRequests.get_my_delivery_requests.
    rewrite Hdb.
    change (get_user (DB.set_delivery_requests _ db) user_id)
      with (get_user db user_id).
    rewrite Hu, Ht.
    eexists; split; [reflexivity|]; f_equal.
    unfold DeliveryRequests.newest_first;
      cbn [DB.delivery_requests DB.set_delivery_requests].
    rewrite filter_app, rev_app_distr; simpl.
    rewrite Z.eqb_refl; reflexivity.
  - intros deliverer_id listing Hlist.
    destruct (available_requests_inv _ _ _ Hlist)
      as [duser [profile [Hdu [Hdt [Hp [Hon ->]]]]]].
    assert (Hlist1 : DeliveryRequests.get_available_delivery_requests
                       deliverer_id db1
                     = inr
                         (request
                          :: DeliveryRequests.newest_first
                               (fun r =>
                                  ((DeliveryRequest.status r =? "pending")%string
                                   && match DeliveryRequest.deliverer_id r with
                                      | None => true
                                      | Some _ => false
                                      end)%bool)
                               db)).
    { unfold DeliveryRequests.get_available_delivery_requests.
      rewrite Hdb.
      change (get_user (DB.set_delivery_requests _ db) deliverer_id)
        with (get_user db deliverer_id).
      change (deliverer_of_user (DB.set_delivery_requests _ db) deliverer_id)
        with (deliverer_of_user db deliverer_id).
      rewrite Hdu, Hdt, Hp, Hon; cbn [negb]; f_equal.
      unfold DeliveryRequests.newest_first;
        cbn [DB.delivery_requests DB.set_delivery_requests].
      rewrite filter_app, rev_app_distr; reflexivity. }
    assert (Hacc : Deliverers.accept_delivery_request deliverer_id new_id db1
                   = (Ok,
                      DB.set_delivery_requests
                        (DB.delivery_requests db
                         ++ [DeliveryRequest.mk new_id user_id
                               (Some deliverer_id) "accepted"])
                        db)).
    { unfold Deliverers.accept_delivery_request.
      rewrite Hdb.
      change (get_user (DB.set_delivery_requests _ db) deliverer_id)
        with (get_user db deliverer_id).
      change (deliverer_of_user (DB.set_delivery_requests _ db) deliverer_id)
        with (deliverer_of_user db deliverer_id).
      rewrite Hdu, Hdt, Hp, Hon; cbn [negb].
      unfold get_delivery_request in *;
        cbn [DB.delivery_requests DB.set_delivery_requests].
      rewrite (find_app_none _ _ _ _ Hfresh); simpl.
      rewrite Z.eqb_refl; simpl.
      unfold save_delivery_request;
        cbn [DB.delivery_requests DB.set_delivery_requests
             DeliveryRequest.id DeliveryRequest.set_status
             DeliveryRequest.set_deliverer_id].
      rewrite (replace_first_fresh _ _ request) by
        (try assumption; simpl; apply Z.eqb_refl).
      reflexivity. }
    split; [exact Hlist1|]; rewrite Hacc; split; [reflexivity|].
    cbn [snd].
    unfold DeliveryRequests.get_available_delivery_requests.
    change (get_user (DB.set_delivery_requests _ db) deliverer_id)
      with (get_user db deliverer_id).
    change (deliverer_of_user (DB.set_delivery_requests _ db) deliverer_id)
      with (deliverer_of_user db deliverer_id).
    rewrite Hdu, Hdt, Hp, Hon; cbn [negb]; f_equal.
    unfold DeliveryRequests.newest_first;
      cbn [DB.delivery_requests DB.set_delivery_requests].
    rewrite filter_app; simpl; rewrite app_nil_r; reflexivity.
Qed.

(** Client 5 asks for a delivery; deliverer 8 finds it before the older
    request 500 and claims it. *)
Lemma new_request_reaches_deliverers_witness :
  let db1 :=
    snd (DeliveryRequests.create_delivery_request 501 5 "Rua A 1" "Rua B 2"
           "keys" None Examples.market) in
  DeliveryRequests.get_available_delivery_requests 8 db1
  = inr [DeliveryRequest.mk 501 5 None "pending"; Examples.pending_request]
  /\ fst (Deliverers.accept_delivery_request 8 501 db1) = Ok
  /\ DeliveryRequests.get_available_delivery_requests 8
       (snd (Deliverers.accept_delivery_request 8 501 db1))
     = inr [Examples.pending_request].
Proof.
  exact (proj2
           (new_request_reaches_deliverers 501 5 "Rua A 1" "Rua B 2" "keys"
              None Examples.market eq_refl eq_refl)
           8 [Examples.pending_request] eq_refl).
Defined.

(** ** Orders: the read side *)

Lemma has_access_same :
  forall (db : DB.t) (user : User.t) (user_id : Z) (order : Order.t),
    OrderQueries.has_access db user user_id order
    = Geolocation.has_access db user user_id order.
Proof.
  reflexivity.
Qed.

(** The orders [get_my_orders] selects for a caller are the orders the
    access rule of [get_order] lets the caller read. *)
Lemma my_orders_access :
  forall (user_id : Z) (db : DB.t) (listing : list Order.t),
    OrderQueries.get_my_orders user_id db = inr listing ->
    exists user : User.t,
      get_user db user_id = Some user
      /\ forall o : Order.t,
           In o listing
           <-> In o (DB.orders db)
               /\ OrderQueries.has_access db user user_id o = true.
Proof.
  intros user_id db listing.
  unfold OrderQueries.get_my_orders, OrderQueries.has_access,
    OrderQueries.newest_first.
  destruct (get_user db user_id) as [user|]; [|discriminate].
  intros H; exists user; split; [reflexivity|]; revert H.
  destruct (String.eqb_spec (User.user_type user) "client") as [Ec|Nc].
  { intros H; injection H as <-.
    intros o; rewrite <- in_rev, filter_In; cbn [andb].
    split; intros [Hin H]; split; try assumption.
    - rewrite H; reflexivity.
    - destruct (Order.client_id o =? user_id); [reflexivity|].
      rewrite Ec in H; simpl in H; discriminate. }
  cbn [andb].
  destruct (String.eqb_spec (User.user_type user) "store") as [Es|Ns].
  { destruct (store_of_user db user_id) as [store|]; [|discriminate].
    intros H; injection H as <-.
    intros o; rewrite <- in_rev, filter_In; reflexivity. }
  destruct (String.eqb_spec (User.user_type user) "deliverer") as [Ed|Nd];
    [|discriminate].
  intros H; injection H as <-.
  intros o; rewrite <- in_rev, filter_In; cbn [andb].
  split; intros [Hin H]; split; try assumption.
  - rewrite H; reflexivity.
  - destruct (id_eqb (Order.deliverer_id o) user_id); [reflexivity|].
    destruct (String.eqb_spec (User.user_type user) "admin") as [Ea|_];
      [|discriminate].
    rewrite Ea in Ed; discriminate.
Qed.

(** X10: The orders a client, a store or a deliverer is shown under
    [my-orders] are exactly the orders the caller can open, and exactly
    the orders the caller can track. *)
Theorem my_orders_are_the_orders_one_can_open :
  forall (user_id : Z) (db : DB.t) (listing : list Order.t),
    Props.unique_order_ids db ->
    OrderQueries.get_my_orders user_id db = inr listing ->
    (forall o : Order.t,
        In o listing
        <-> OrderQueries.get_order user_id (Order.id o) db = inr o)
    /\ (forall order_id : Z,
          (exists o : Order.t, In o listing /\ Order.id o = order_id)
          <-> exists view : TrackingView.t,
                Geolocation.track_order user_id order_id db = inr view).
Proof.
  intros user_id db listing Hnd Hlist.
  destruct (my_orders_access _ _ _ Hlist) as [user [Hu Hmine]].
  split.
  - intros o; rewrite Hmine; unfold OrderQueries.get_order.
    split.
    + intros [Hin Hacc].
      unfold get_order.
      rewrite (find_key_in _ Order.id _ o Hnd Hin), Hu, Hacc.
      reflexivity.
    + destruct (get_order db (Order.id o)) as [o'|] eqn:Ho; [|discriminate].
      rewrite Hu.
      destruct (OrderQueries.has_access db user user_id o') eqn:Hacc;
        cbn [negb]; [|discriminate].
      intros H; injection H as ->.
      split; [|exact Hacc].
      unfold get_order in Ho; apply (find_some _ _ Ho).
  - intros order_id; unfold Geolocation.track_order; split.
    + intros [o [Hin <-]].
      apply Hmine in Hin; destruct Hin as [Hin Hacc].
      unfold get_order.
      rewrite (find_key_in _ Order.id _ o Hnd Hin), Hu.
      rewrite <- has_access_same, Hacc.
      eexists; reflexivity.
    + destruct (get_order db order_id) as [o|] eqn:Ho;
        [|intros [view H]; discriminate].
      rewrite Hu, <- has_access_same.
      destruct (OrderQueries.has_access db user user_id o) eqn:Hacc;
        cbn [negb]; [|intros [view H]; discriminate].
      intros _; exists o; split.
      * apply Hmine; split; [|exact Hacc].
        unfold get_order in Ho; apply (find_some _ _ Ho).
      * eapply get_order_id; exact Ho.
Qed.

(** Client 3 of [market] is shown two orders, and opens one of them. *)
Lemma my_orders_are_the_orders_one_can_open_witness :
  OrderQueries.get_order 3 100 Examples.market = inr Examples.ready_order.
Proof.
  assert (Hnd : Props.unique_order_ids Examples.market) by unique_ids.
  apply (proj1
           (my_orders_are_the_orders_one_can_open 3 Examples.market
              [Examples.pending_order; Examples.ready_order] Hnd eq_refl)
           Examples.ready_order).
  right; left; reflexivity.
Defined.
(** ** Deliverers: approval and the online flag *)

Lemma step_keeps_online_approved :
  forall (q : Props.request) (db : DB.t),
    Props.withdraws_approval q = false ->
    Props.online_are_approved db ->
    Props.online_are_approved (snd (Props.serve q db)).
Proof.
  intros [op|caller_id deliverer_id] db Hq Hinv; [|discriminate].
  unfold Props.online_are_approved in *; cbn [Props.serve].
  pose proof (step_keeps_deliverers op db) as Hkeep.
  destruct op; try discriminate;
    try (rewrite Hkeep by exact I; exact Hinv); clear Hkeep;
    cbn [System.step].
  - (* toggle_online *)
    unfold Deliverers.toggle_online.
    destruct (get_user db user_id) as [user|]; [|exact Hinv].
    destruct (negb _); [exact Hinv|].
    destruct (deliverer_of_user db user_id) as [d|]; [|exact Hinv].
    destruct (Deliverer.is_approved d) eqn:Ha; cbn [negb]; [|exact Hinv].
    unfold save_deliverer; cbn [snd DB.deliverers DB.set_deliverers].
    apply Forall_replace_first; [exact Hinv|].
    intros _; exact Ha.
  - (* approve_deliverer *)
    unfold Admin.approve_deliverer.
    destruct (negb _); [exact Hinv|].
    destruct (get_deliverer db deliverer_id) as [d|]; [|exact Hinv].
    destruct (get_user db (Deliverer.user_id d)) as [user|]; [|exact Hinv].
    unfold save_user, save_deliverer;
      cbn [snd DB.deliverers DB.set_deliverers DB.set_users].
    apply Forall_replace_first; [exact Hinv|].
    intros _; reflexivity.
  - (* delete_deliverer *)
    unfold Admin.delete_deliverer.
    destruct (negb _); [exact Hinv|].
    destruct (get_deliverer db deliverer_id) as [d|]; [|exact Hinv].
    destruct (get_user db (Deliverer.user_id d)) as [user|]; [|exact Hinv].
    cbv zeta.
    destruct (Admin.user_is_held _ _); [exact Hinv|].
    unfold Admin.delete_user_row, DB.set_users, DB.set_deliverers,
      DB.set_delivery_requests, DB.set_orders; cbn [snd DB.deliverers].
    apply Forall_remove_first; exact Hinv.
Qed.

(** X11: As long as the admin takes no approval back, by [reject_deliverer]
    or by [reactivate_deliverer], every profile that is online is
    approved, whatever requests are served; a delivery request is then
    claimed, and a position reported, by approved deliverers only. *)
Theorem online_deliverers_are_approved :
  forall (qs : list Props.request) (db : DB.t),
    existsb Props.withdraws_approval qs = false ->
    Props.online_are_approved db ->
    let db' := Props.serve_all qs db in
    Props.online_are_approved db'
    /\ (forall user_id request_id : Z,
          fst (Deliverers.accept_delivery_request user_id request_id db')
          = Ok ->
          Spec.is_approved_deliverer db' user_id = true)
    /\ (forall (now : R) (user_id : Z) (data : LocationBody.t),
          fst (Geolocation.update_deliverer_location now user_id data db')
          = Ok ->
          Spec.is_approved_deliverer db' user_id = true).
Proof.
  intros qs db Hqs Hinv db'.
  assert (Hinv' : Props.online_are_approved db').
  { unfold db'; clear db'; revert db Hinv.
    induction qs as [|q qs IH]; intros db Hinv; simpl; [exact Hinv|].
    simpl in Hqs; apply orb_false_elim in Hqs; destruct Hqs as [Hq Hqs].
    apply IH; [exact Hqs|].
    apply step_keeps_online_approved; assumption. }
  split; [exact Hinv'|].
  unfold Props.online_are_approved in Hinv'; rewrite Forall_forall in Hinv'.
  assert (Hprofile : forall user_id d,
             deliverer_of_user db' user_id = Some d ->
             Deliverer.is_online d = true ->
             Spec.is_approved_deliverer db' user_id = true).
  { intros user_id d Hd Hon; unfold Spec.is_approved_deliverer; rewrite Hd.
    unfold deliverer_of_user in Hd; apply find_some in Hd.
    exact (Hinv' d (proj1 Hd) Hon). }
  split.
  - intros user_id request_id.
    unfold Deliverers.accept_delivery_request.
    destruct (get_user db' user_id) as [user|]; [|discriminate].
    destruct (negb _); [discriminate|].
    destruct (deliverer_of_user db' user_id) as [d|] eqn:Hd; [|discriminate].
    destruct (Deliverer.is_online d) eqn:Hon; cbn [negb]; [|discriminate].
    intros _; exact (Hprofile user_id d Hd Hon).
  - intros now user_id data.
    unfold Geolocation.update_deliverer_location.
    destruct (get_user db' user_id) as [user|]; [|discriminate].
    destruct (negb _); [discriminate|].
    destruct (deliverer_of_user db' user_id) as [d|] eqn:Hd; [|discriminate].
    destruct (Deliverer.is_online d) eqn:Hon; cbn [negb]; [|discriminate].
    intros _; exact (Hprofile user_id d Hd Hon).
Qed.

(** Deliverer 7 of [market] is approved and goes online; deliverer 8, who
    is online, is deleted. *)
Lemma online_deliverers_are_approved_witness :
  Props.online_are_approved
    (Props.serve_all
       [Props.Served (System.ApproveDeliverer 1 70);
        Props.Served (System.ToggleOnline 7);
        Props.Served (System.DeleteDeliverer 3 1 80)]
       Examples.market).
Proof.
  apply (proj1
           (online_deliverers_are_approved
              [Props.Served (System.ApproveDeliverer 1 70);
               Props.Served (System.ToggleOnline 7);
               Props.Served (System.DeleteDeliverer 3 1 80)]
              Examples.market eq_refl
              ltac:(unfold Props.online_are_approved; simpl;
                    repeat apply Forall_cons; try apply Forall_nil; simpl;
                    intros H; try discriminate H; reflexivity))).
Defined.

(** Without the condition the invariant is lost: deliverer 8 of [market]
    is online and approved; once sent back to review the profile is
    online and not approved. *)
Lemma reactivated_deliverer_stays_online :
  Props.online_are_approved Examples.market
  /\ fst (Props.serve (Props.ReactivateDeliverer 1 80) Examples.market) = Ok
  /\ deliverer_of_user
       (snd (Props.serve (Props.ReactivateDeliverer 1 80) Examples.market)) 8
     = Some (Deliverer.mk 80 8 true false 0).
Proof.
  split; [|split; reflexivity].
  unfold Props.online_are_approved; simpl.
  repeat apply Forall_cons; try apply Forall_nil; simpl;
    intros H; try discriminate H; reflexivity.
Qed.

Lemma replace_first_twice :
  forall (A : Type) (p : A -> bool) (x d : A) (l : list A),
    find p l = Some d ->
    p x = true ->
    replace_first p d (replace_first p x l) = l.
Proof.
  intros A p x d l; induction l as [|y l IH]; simpl; [discriminate|].
  destruct (p y) eqn:Hy; intros Hf Hx; simpl.
  - rewrite Hx; congruence.
  - rewrite Hy, IH by assumption; reflexivity.
Qed.

Lemma get_user_id :
  forall (db : DB.t) (user_id : Z) (user : User.t),
    get_user db user_id = Some user -> User.id user = user_id.
Proof.
  unfold get_user; intros db user_id user H.
  apply find_some in H; apply Z.eqb_eq, H.
Qed.

Lemma get_deliverer_id :
  forall (db : DB.t) (deliverer_id : Z) (d : Deliverer.t),
    get_deliverer db deliverer_id = Some d -> Deliverer.id d = deliverer_id.
Proof.
  unfold get_deliverer; intros db deliverer_id d H.
  apply find_some in H; apply Z.eqb_eq, H.
Qed.

Lemma get_user_save_user :
  forall (db : DB.t) (user_id : Z) (user user' : User.t),
    get_user db user_id = Some user ->
    User.id user' = user_id ->
    get_user (save_user user' db) user_id = Some user'.
Proof.
  unfold get_user, save_user; intros db user_id user user' H Hid; simpl.
  rewrite Hid.
  apply find_replace_first with (y := user); [exact H|].
  rewrite Hid; apply Z.eqb_refl.
Qed.

Lemma get_deliverer_save_deliverer :
  forall (db : DB.t) (deliverer_id : Z) (d d' : Deliverer.t),
    get_deliverer db deliverer_id = Some d ->
    Deliverer.id d' = deliverer_id ->
    get_deliverer (save_deliverer d' db) deliverer_id = Some d'.
Proof.
  unfold get_deliverer, save_deliverer; intros db deliverer_id d d' H Hid;
    simpl.
  rewrite Hid.
  apply find_replace_first with (y := d); [exact H|].
  rewrite Hid; apply Z.eqb_refl.
Qed.

Lemma deliverer_of_user_save_deliverer :
  forall (db : DB.t) (deliverer_id user_id : Z) (d d' : Deliverer.t),
    get_deliverer db deliverer_id = Some d ->
    deliverer_of_user db user_id = Some d ->
    Deliverer.id d' = deliverer_id ->
    Deliverer.user_id d' = user_id ->
    deliverer_of_user (save_deliverer d' db) user_id = Some d'.
Proof.
  unfold get_deliverer, deliverer_of_user, save_deliverer.
  intros db deliverer_id user_id d d' Hg Hu Hid Huid; simpl.
  rewrite Hid.
  apply find_replace_first_same with (d := d); try assumption.
  rewrite Huid; apply Z.eqb_refl.
Qed.

(** A profile that has lost its approval cannot change its online flag. *)
Lemma unapproved_cannot_toggle :
  forall (db : DB.t) (user : User.t) (d : Deliverer.t),
    get_user db (Deliverer.user_id d) = Some user ->
    (User.user_type user =? "deliverer")%string = true ->
    deliverer_of_user db (Deliverer.user_id d) = Some d ->
    Deliverer.is_approved d = false ->
    Deliverers.toggle_online (Deliverer.user_id d) db
    = (Error NotEligible, db).
Proof.
  intros db user d Hu Ht Hd Ha; unfold Deliverers.toggle_online.
  rewrite Hu, Ht, Hd, Ha; reflexivity.
Qed.

(** X12: Approval gates the online flag in both directions.  After the admin
    has rejected a deliverer, or sent the deliverer back to review, the
    deliverer's [toggle-online] is refused and the flag stays as it was:
    a deliverer who was online stays online.  After the admin has approved
    a deliverer, [toggle-online] is accepted and turns the flag over, and
    a second [toggle-online] gives back the database as it was. *)
Theorem approval_gates_going_online :
  forall (caller_id deliverer_id : Z) (db : DB.t) (d : Deliverer.t),
    get_deliverer db deliverer_id = Some d ->
    deliverer_of_user db (Deliverer.user_id d) = Some d ->
    Spec.is_deliverer_user db (Deliverer.user_id d) = true ->
    let user_id := Deliverer.user_id d in
    (forall db' : DB.t,
        Admin.reject_deliverer caller_id deliverer_id db = (Ok, db')
        \/ AdminMore.reactivate_deliverer caller_id deliverer_id db
           = (Ok, db') ->
        Deliverers.toggle_online user_id db' = (Error NotEligible, db')
        /\ Spec.is_online_deliverer db' user_id = Deliverer.is_online d)
    /\ (forall db' : DB.t,
          Admin.approve_deliverer caller_id deliverer_id db = (Ok, db') ->
          let db1 := snd (Deliverers.toggle_online user_id db') in
          fst (Deliverers.toggle_online user_id db') = Ok
          /\ Spec.is_online_deliverer db1 user_id
             = negb (Deliverer.is_online d)
          /\ Deliverers.toggle_online user_id db1 = (Ok, db')).
Proof.
  intros caller_id deliverer_id db d Hg Hp Hdel user_id.
  unfold Spec.is_deliverer_user in Hdel.
  destruct (get_user db (Deliverer.user_id d)) as [user|] eqn:Hu;
    [|discriminate].
  pose proof (get_user_id _ _ _ Hu) as Huid.
  pose proof (get_deliverer_id _ _ _ Hg) as Hdid.
  assert (Hlost : forall (active : bool) (db' : DB.t),
             db'
             = save_user
                 (User.mk (User.id user) (User.user_type user) active false)
                 (save_deliverer (Deliverer.set_is_approved false d) db) ->
             Deliverers.toggle_online user_id db' = (Error NotEligible, db')
             /\ Spec.is_online_deliverer db' user_id = Deliverer.is_online d).
  { intros active db' ->.
    set (d' := Deliverer.set_is_approved false d).
    set (user' := User.mk (User.id user) (User.user_type user) active false).
    assert (Hd' : deliverer_of_user (save_user user' (save_deliverer d' db))
                    user_id = Some d').
    { change (deliverer_of_user (save_deliverer d' db) user_id = Some d').
      eapply deliverer_of_user_save_deliverer; eauto. }
    split.
    - apply (unapproved_cannot_toggle _ user' d'); try reflexivity;
        try assumption.
      apply get_user_save_user with (user := user); [|exact Huid].
      exact Hu.
    - unfold Spec.is_online_deliverer; rewrite Hd'; reflexivity. }
  split.
  - intros db' [H|H].
    + unfold Admin.reject_deliverer in H.
      destruct (negb (Admin.admin_required db caller_id)); [discriminate|].
      rewrite Hg, Hu in H; injection H as <-.
      apply (Hlost false); reflexivity.
    + unfold AdminMore.reactivate_deliverer in H.
      destruct (negb (Admin.admin_required db caller_id)); [discriminate|].
      rewrite Hg, Hu in H; injection H as <-.
      apply (Hlost true); reflexivity.
  - intros db' H db1.
    unfold Admin.approve_deliverer in H.
    destruct (negb (Admin.admin_required db caller_id)); [discriminate|].
    rewrite Hg, Hu in H; injection H as H.
    set (d' := Deliverer.set_is_approved true d) in *.
    set (user' := User.mk (User.id user) (User.user_type user)
                    (User.is_active user) true) in *.
    assert (Hu' : get_user db' user_id = Some user').
    { rewrite <- H.
      apply get_user_save_user with (user := user); [|exact Huid].
      exact Hu. }
    assert (Hd' : deliverer_of_user db' user_id = Some d').
    { rewrite <- H.
      change (deliverer_of_user (save_deliverer d' db) user_id = Some d').
      eapply deliverer_of_user_save_deliverer; eauto. }
    assert (Hg' : get_deliverer db' deliverer_id = Some d').
    { rewrite <- H.
      change (get_deliverer (save_deliverer d' db) deliverer_id = Some d').
      eapply get_deliverer_save_deliverer; eauto. }
    set (d1 := Deliverer.set_is_online (negb (Deliverer.is_online d')) d').
    assert (Hfirst : Deliverers.toggle_online user_id db'
                     = (Ok, save_deliverer d1 db')).
    { unfold Deliverers.toggle_online.
      rewrite Hu', Hd'; cbn [User.user_type user'].
      rewrite Hdel; reflexivity. }
    unfold db1; rewrite Hfirst; cbn [fst snd].
    assert (Hd1 : deliverer_of_user (save_deliverer d1 db') user_id
                  = Some d1).
    { eapply deliverer_of_user_save_deliverer; eauto. }
    split; [reflexivity|]; split.
    + unfold Spec.is_online_deliverer; rewrite Hd1; reflexivity.
    + unfold Deliverers.toggle_online.
      change (get_user (save_deliverer d1 db') user_id)
        with (get_user db' user_id).
      rewrite Hu', Hd1; cbn [User.user_type user'].
      rewrite Hdel; cbn [negb Deliverer.is_approved d1 d'
                         Deliverer.set_is_online Deliverer.set_is_approved].
      f_equal.
      unfold save_deliverer at 1.
      assert (Eback : Deliverer.set_is_online
                        (negb (Deliverer.is_online d1)) d1 = d').
      { unfold d1, d', Deliverer.set_is_online, Deliverer.set_is_approved.
        cbn [Deliverer.id Deliverer.user_id Deliverer.is_online
             Deliverer.is_approved Deliverer.total_deliveries].
        rewrite negb_involutive; reflexivity. }
      rewrite Eback.
      unfold save_deliverer; cbn [DB.deliverers DB.set_deliverers].
      change (Deliverer.id d') with (Deliverer.id d1).
      rewrite (replace_first_twice _ _ d1 d').
      * rewrite <- H; reflexivity.
      * unfold get_deliverer in Hg'.
        change (Deliverer.id d1) with (Deliverer.id d).
        rewrite Hdid; exact Hg'.
      * simpl; apply Z.eqb_refl.
Qed.

(** Deliverer 7 of [market], approved by the admin, goes online and
    offline again. *)
Lemma approval_gates_going_online_witness :
  let db' := snd (Admin.approve_deliverer 1 70 Examples.market) in
  fst (Deliverers.toggle_online 7 db') = Ok
  /\ Spec.is_online_deliverer (snd (Deliverers.toggle_online 7 db')) 7 = true
  /\ Deliverers.toggle_online 7 (snd (Deliverers.toggle_online 7 db'))
     = (Ok, db').
Proof.
  exact (proj2
           (approval_gates_going_online 1 70 Examples.market
              Examples.new_profile eq_refl eq_refl eq_refl)
           (snd (Admin.approve_deliverer 1 70 Examples.market)) eq_refl).
Defined.
(** ** Deleting a deliverer or a store *)

Lemma remove_first_key :
  forall (A : Type) (key : A -> Z) (k : Z) (l : list A) (x : A),
    NoDup (map key l) ->
    In x (Admin.remove_first (fun y => key y =? k) l) ->
    In x l /\ key x <> k.
Proof.
  intros A key k l x; induction l as [|y l IH]; simpl; [contradiction|].
  intros Hnd Hin; inversion Hnd as [|? ? Hnotin Hnd']; subst.
  destruct (Z.eqb_spec (key y) k) as [E|N].
  - split; [right; exact Hin|].
    intros Ex; apply Hnotin; rewrite E, <- Ex; apply in_map; exact Hin.
  - destruct Hin as [->|Hin]; [split; [left; reflexivity | exact N]|].
    destruct (IH Hnd' Hin) as [H1 H2]; split; [right; exact H1 | exact H2].
Qed.

Lemma find_remove_first_none :
  forall (A : Type) (key : A -> Z) (k : Z) (l : list A),
    NoDup (map key l) ->
    find (fun y => key y =? k) (Admin.remove_first (fun y => key y =? k) l)
    = None.
Proof.
  intros A key k l Hnd.
  destruct (find _ _) as [x|] eqn:Hf; [|reflexivity].
  apply find_some in Hf; destruct Hf as [Hin Hk].
  destruct (remove_first_key _ key k l x Hnd Hin) as [_ N].
  apply Z.eqb_eq in Hk; contradiction.
Qed.

(** What a deletion of a deliverer that is accepted has found and
    written. *)
Lemma delete_deliverer_ok :
  forall (now : R) (caller_id deliverer_id : Z) (db : DB.t) (d : Deliverer.t),
    get_deliverer db deliverer_id = Some d ->
    fst (Admin.delete_deliverer now caller_id deliverer_id db) = Ok ->
    exists user : User.t,
      get_user db (Deliverer.user_id d) = Some user
      /\ snd (Admin.delete_deliverer now caller_id deliverer_id db)
         = Admin.delete_user_row now (User.id user)
             (DB.set_deliverers
                (Admin.remove_first
                   (fun x => Deliverer.id x =? Deliverer.id d)
                   (DB.deliverers db))
                (DB.set_orders
                   (Admin.release_deliveries now (Deliverer.user_id d)
                      (DB.orders db))
                   db)).
Proof.
  intros now caller_id deliverer_id db d Hg.
  unfold Admin.delete_deliverer.
  destruct (negb (Admin.admin_required db caller_id)); [discriminate|].
  rewrite Hg.
  destruct (get_user db (Deliverer.user_id d)) as [user|]; [|discriminate].
  cbv zeta.
  destruct (Admin.user_is_held _ _); [discriminate|].
  intros _; exists user; split; reflexivity.
Qed.

(** X14: Once the admin has deleted a deliverer, the deliverer is out: the
    user row is gone, no order on its way is bound to the deliverer any
    more and none is in flight, the orders bound to others are as they
    were, and whatever the deleted deliverer asks for is refused. *)
Theorem deleted_deliverer_is_out :
  forall (now : R) (caller_id deliverer_id : Z) (db : DB.t) (d : Deliverer.t),
    Props.unique_user_ids db ->
    get_deliverer db deliverer_id = Some d ->
    fst (Admin.delete_deliverer now caller_id deliverer_id db) = Ok ->
    let user_id := Deliverer.user_id d in
    let db' := snd (Admin.delete_deliverer now caller_id deliverer_id db) in
    get_user db' user_id = None
    /\ Forall
         (fun o =>
            id_eqb (Order.deliverer_id o) user_id = true ->
            Props.on_its_way o = false)
         (DB.orders db')
    /\ Geolocation.active_orders db' user_id = []
    /\ Forall2
         (fun o o' => id_eqb (Order.deliverer_id o) user_id = false -> o' = o)
         (DB.orders db) (DB.orders db')
    /\ (forall (time : R) (order_id request_id : Z) (status : string)
               (data : LocationBody.t),
          Orders.accept_delivery time user_id order_id db'
          = (Error Forbidden, db')
          /\ Deliverers.accept_delivery_request user_id request_id db'
             = (Error Forbidden, db')
          /\ Deliverers.update_delivery_request_status user_id request_id
               status db'
             = (Error Forbidden, db')
          /\ Deliverers.toggle_online user_id db' = (Error Forbidden, db')
          /\ Geolocation.update_deliverer_location time user_id data db'
             = (Error Forbidden, db')
          /\ fst (Orders.update_order_status time user_id order_id status db')
             <> Ok).
Proof.
  intros now caller_id deliverer_id db d Hnd Hg Hok user_id db'.
  destruct (delete_deliverer_ok _ _ _ _ _ Hg Hok) as [user [Hu Hdb]].
  fold db' in Hdb; fold user_id in Hdb, Hu.
  pose proof (get_user_id _ _ _ Hu) as Huid.
  rewrite Huid in Hdb.
  assert (Hnone : get_user db' user_id = None).
  { rewrite Hdb; unfold get_user, Admin.delete_user_row, DB.set_users;
      cbn [DB.users].
    apply (find_remove_first_none _ User.id); exact Hnd. }
  assert (Horders : DB.orders db'
                    = Admin.clear_deliverer_orders now user_id
                        (Admin.release_deliveries now user_id
                           (DB.orders db))).
  { rewrite Hdb; reflexivity. }
  assert (Hfree : Forall
                    (fun o => id_eqb (Order.deliverer_id o) user_id = false)
                    (DB.orders db')).
  { rewrite Horders; unfold Admin.clear_deliverer_orders.
    apply Forall_forall; intros o' Hin.
    apply in_map_iff in Hin; destruct Hin as [o [<- _]].
    destruct (id_eqb (Order.deliverer_id o) user_id) eqn:Hb;
      [reflexivity | exact Hb]. }
  assert (Hbound : Forall
                     (fun o =>
                        id_eqb (Order.deliverer_id o) user_id = true ->
                        Props.on_its_way o = false)
                     (DB.orders db')).
  { eapply Forall_impl; [|exact Hfree].
    intros o Hb Hb'; rewrite Hb in Hb'; discriminate. }
  split; [exact Hnone|]; split; [exact Hbound|]; split; [|split].
  - unfold Geolocation.active_orders.
    rewrite Forall_forall in Hfree.
    destruct (filter _ (DB.orders db')) as [|o rest] eqn:Hf; [reflexivity|].
    assert (Hin : In o (filter
                          (fun o =>
                             (id_eqb (Order.deliverer_id o) user_id
                              && (Order.status o =? "delivering")%string)%bool)
                          (DB.orders db')))
      by (rewrite Hf; left; reflexivity).
    apply filter_In in Hin; destruct Hin as [Hin Hc].
    apply andb_prop in Hc; destruct Hc as [Hb _].
    rewrite (Hfree o Hin) in Hb; discriminate.
  - rewrite Horders;
      unfold Admin.clear_deliverer_orders, Admin.release_deliveries.
    rewrite map_map.
    apply Forall2_map_r; intros o Hb; rewrite Hb; cbn [andb].
    rewrite Hb; reflexivity.
  - intros time order_id request_id status data.
    unfold Orders.accept_delivery, Deliverers.accept_delivery_request,
      Deliverers.update_delivery_request_status, Deliverers.toggle_online,
      Geolocation.update_deliverer_location, Orders.update_order_status.
    rewrite Hnone; repeat split.
    destruct (get_order db' order_id); [|discriminate].
    destruct (status =? "")%string; discriminate.
Qed.

(** Deliverer 8 of [two_in_flight] carries two orders and is deleted. *)
Lemma deleted_deliverer_is_out_witness :
  let db' := snd (Admin.delete_deliverer 5 1 80 Examples.two_in_flight) in
  get_user db' 8 = None
  /\ Geolocation.active_orders db' 8 = []
  /\ Deliverers.toggle_online 8 db' = (Error Forbidden, db').
Proof.
  assert (Hnd : Props.unique_user_ids Examples.two_in_flight) by unique_ids.
  destruct (deleted_deliverer_is_out 5 1 80 Examples.two_in_flight
              Examples.working_profile Hnd eq_refl eq_refl)
    as [Hnone [_ [Hactive [_ Hout]]]].
  split; [exact Hnone|]; split; [exact Hactive|].
  exact (proj1 (proj2 (proj2 (proj2
           (Hout 0%R 0 0 EmptyString (Examples.report 0 0)))))).
Defined.

(** Cancelling the pending orders of a store leaves its orders with the
    store. *)
Lemma cancel_pending_orders_store :
  forall (now : R) (store_id : Z) (orders : list Order.t),
    existsb (fun o => Order.store_id o =? store_id)
      (Admin.cancel_pending_orders now store_id orders)
    = existsb (fun o => Order.store_id o =? store_id) orders.
Proof.
  intros now store_id orders; unfold Admin.cancel_pending_orders.
  induction orders as [|o l IH]; simpl; [reflexivity|].
  rewrite IH; f_equal.
  destruct (_ && _)%bool; reflexivity.
Qed.

(** [delete_store] gives back the statuses it was given. *)
Lemma delete_store_keeps_statuses :
  forall (now : R) (caller_id store_id : Z) (db : DB.t),
    map Order.status (DB.orders (snd (Admin.delete_store now caller_id
                                        store_id db)))
    = map Order.status (DB.orders db).
Proof.
  intros now caller_id store_id db; unfold Admin.delete_store.
  destruct (negb _); [reflexivity|].
  destruct (get_store db store_id) as [store|]; [|reflexivity].
  destruct (get_user db (Store.user_id store)) as [user|]; [|reflexivity].
  cbv zeta; cbn [DB.orders DB.set_stores DB.set_orders].
  rewrite cancel_pending_orders_store.
  destruct (existsb _ (DB.orders db)) eqn:Hnone; [reflexivity|].
  destruct (Admin.user_is_held _ _); [reflexivity|].
  unfold Admin.delete_user_row, Admin.clear_deliverer_orders,
    Admin.cancel_pending_orders, DB.set_users, DB.set_stores,
    DB.set_delivery_requests, DB.set_orders; cbn [snd DB.orders].
  rewrite !map_map.
  apply map_ext_in; intros o Hin.
  assert (Hstore : (Order.store_id o =? Store.id store) = false).
  { destruct (Order.store_id o =? Store.id store) eqn:E; [|reflexivity].
    rewrite <- Hnone; symmetry; apply existsb_exists.
    exists o; split; assumption. }
  rewrite Hstore; cbn [andb].
  destruct (id_eqb (Order.deliverer_id o) (User.id user)); reflexivity.
Qed.

(** X15: A store that has an order cannot be deleted.  For an admin and a
    store with an order, of whatever status, [delete_store] fails with
    500 and leaves the database as it was: the pending orders it has
    cancelled on its way are pending again.  So the handler never cancels
    an order: whatever it answers, every order has the status it had.
    When it succeeds the store had no order, and (with unique ids) the
    store and its user are gone. *)
Theorem deleted_store_had_no_order :
  forall (now : R) (caller_id store_id : Z) (db : DB.t),
    let result := Admin.delete_store now caller_id store_id db in
    map Order.status (DB.orders (snd result))
    = map Order.status (DB.orders db)
    /\ (Admin.admin_required db caller_id = true ->
        get_store db store_id <> None ->
        existsb (fun o => Order.store_id o =? store_id) (DB.orders db)
        = true ->
        result = (Error InternalError, db))
    /\ (fst result = Ok ->
        existsb (fun o => Order.store_id o =? store_id) (DB.orders db)
        = false
        /\ exists store : Store.t,
             get_store db store_id = Some store
             /\ (Props.unique_store_ids db ->
                 get_store (snd result) store_id = None)
             /\ (Props.unique_user_ids db ->
                 get_user (snd result) (Store.user_id store) = None)).
Proof.
  intros now caller_id store_id db result.
  split; [apply delete_store_keeps_statuses|].
  unfold result, Admin.delete_store.
  split.
  - intros Ha Hg Hex; rewrite Ha; cbn [negb].
    destruct (get_store db store_id) as [store|] eqn:Hs; [|contradiction].
    assert (Hsid : Store.id store = store_id).
    { unfold get_store in Hs; apply find_some in Hs; apply Z.eqb_eq, Hs. }
    destruct (get_user db (Store.user_id store)) as [user|]; [|reflexivity].
    cbv zeta; cbn [DB.orders DB.set_stores DB.set_orders].
    rewrite Hsid, cancel_pending_orders_store, Hex; reflexivity.
  - destruct (negb _); [discriminate|].
    destruct (get_store db store_id) as [store|] eqn:Hs; [|discriminate].
    assert (Hsid : Store.id store = store_id).
    { unfold get_store in Hs; apply find_some in Hs; apply Z.eqb_eq, Hs. }
    destruct (get_user db (Store.user_id store)) as [user|] eqn:Hu;
      [|discriminate].
    cbv zeta; cbn [DB.orders DB.set_stores DB.set_orders].
    rewrite Hsid, cancel_pending_orders_store.
    destruct (existsb _ (DB.orders db)); [discriminate|].
    destruct (Admin.user_is_held _ _); [discriminate|].
    intros _; split; [reflexivity|].
    exists store; split; [reflexivity|].
    cbn [snd]; split.
    + intros Hnd; unfold get_store, Admin.delete_user_row, DB.set_users,
        DB.set_delivery_requests, DB.set_orders, DB.set_stores;
        cbn [DB.stores].
      apply (find_remove_first_none _ Store.id); exact Hnd.
    + intros Hnd; unfold get_user, Admin.delete_user_row, DB.set_users;
        cbn [DB.users].
      rewrite (get_user_id _ _ _ Hu).
      apply (find_remove_first_none _ User.id); exact Hnd.
Qed.

(** Store 20 of [market] has two orders, one of them pending, and cannot
    be deleted; store 21 has none and is deleted with its user. *)
Lemma deleted_store_had_no_order_witness :
  Admin.delete_store 5 1 20 Examples.market
  = (Error InternalError, Examples.market)
  /\ fst (Admin.delete_store 5 1 21 Examples.market) = Ok
  /\ get_store (snd (Admin.delete_store 5 1 21 Examples.market)) 21 = None
  /\ get_user (snd (Admin.delete_store 5 1 21 Examples.market)) 4 = None.
Proof.
  split.
  - apply (proj1 (proj2 (deleted_store_had_no_order 5 1 20 Examples.market)));
      [reflexivity | discriminate | reflexivity].
  - split; [reflexivity|].
    destruct (proj2 (proj2 (deleted_store_had_no_order 5 1 21
                              Examples.market)) eq_refl)
      as [_ [store [Hs [Hstore Huser]]]].
    injection Hs as <-.
    split; [apply Hstore | apply Huser]; unique_ids.
Defined.

(** ** Reassigning an order *)

Lemma get_order_save_order_other :
  forall (db : DB.t) (order_id k : Z) (order order' : Order.t),
    get_order db order_id = Some order ->
    Order.id order' = order_id ->
    k <> order_id ->
    get_order (save_order order' db) k = get_order db k.
Proof.
  unfold get_order, save_order; intros db order_id k order order' Ho Hid N;
    simpl.
  apply find_replace_first_other.
  - rewrite Hid; apply Z.eqb_neq; auto.
  - intros y Hy; rewrite Hid in Hy; apply Z.eqb_eq in Hy; rewrite Hy.
    apply Z.eqb_neq; auto.
Qed.

(** What a reassignment that is accepted has found and written. *)
Lemma reassign_order_ok :
  forall (now : R) (caller_id order_id new_deliverer_id : Z) (reason : string)
         (log_entry : option Z -> string) (db : DB.t),
    fst (Admin.reassign_order now caller_id order_id new_deliverer_id reason
           log_entry db) = Ok ->
    exists (order : Order.t) (user : User.t) (profile : Deliverer.t),
      get_order db order_id = Some order
      /\ new_deliverer_id <> 0
      /\ str_in (Order.status order) ["accepted"; "preparing"; "ready"] = true
      /\ find
           (fun u =>
              ((User.id u =? new_deliverer_id)
               && (User.user_type u =? "deliverer")%string
               && User.is_active u)%bool)
           (DB.users db) = Some user
      /\ deliverer_of_user db (User.id user) = Some profile
      /\ Deliverer.is_approved profile = true
      /\ snd (Admin.reassign_order now caller_id order_id new_deliverer_id
                reason log_entry db)
         = save_order
             (Order.set_notes
                (Admin.append_note (log_entry (Order.deliverer_id order))
                   (Order.notes order))
                (Order.set_updated_at now
                   (Order.set_deliverer_id (Some new_deliverer_id) order)))
             db.
Proof.
  intros now caller_id order_id new_deliverer_id reason log_entry db.
  unfold Admin.reassign_order.
  destruct (negb (Admin.admin_required db caller_id)); [discriminate|].
  destruct (order_id =? 0); [discriminate|].
  destruct (Z.eqb_spec new_deliverer_id 0) as [|Hnew]; [discriminate|].
  cbn [orb].
  destruct (reason =? "")%string; [discriminate|].
  destruct (get_order db order_id) as [order|]; [|discriminate].
  destruct (str_in (Order.status order) _) eqn:Hs; cbn [negb];
    [|discriminate].
  destruct (find _ (DB.users db)) as [user|] eqn:Hf; [|discriminate].
  destruct (deliverer_of_user db (User.id user)) as [profile|] eqn:Hp;
    [|discriminate].
  destruct (Deliverer.is_approved profile) eqn:Ha; cbn [negb];
    [|discriminate].
  intros _; exists order, user, profile; repeat split; assumption.
Qed.

(** X16: A reassignment hands the order over.  It leaves the status and every
    other order as they were, binds the order to the new deliverer, who is
    a deliverer with an approved profile, and only adds to the notes.
    Afterwards nobody can claim the order; the new deliverer can start the
    delivery of an order that is ready; and the deliverer the order was
    bound to before may no longer change its status. *)
Theorem reassignment_hands_over_the_order :
  forall (now : R) (caller_id order_id new_deliverer_id : Z) (reason : string)
         (log_entry : option Z -> string) (db : DB.t),
    Props.unique_user_ids db ->
    fst (Admin.reassign_order now caller_id order_id new_deliverer_id reason
           log_entry db) = Ok ->
    let db' :=
      snd (Admin.reassign_order now caller_id order_id new_deliverer_id
             reason log_entry db) in
    exists o o' : Order.t,
      get_order db order_id = Some o
      /\ get_order db' order_id = Some o'
      /\ Order.status o' = Order.status o
      /\ Order.deliverer_id o' = Some new_deliverer_id
      /\ (forall old : string,
            Order.notes o = Some old ->
            old <> "" ->
            exists entry : string, Order.notes o' = Some (old ++ entry))
      /\ Spec.is_deliverer_user db' new_deliverer_id = true
      /\ Spec.is_approved_deliverer db' new_deliverer_id = true
      /\ (forall k : Z, k <> order_id -> get_order db' k = get_order db k)
      /\ (forall (time : R) (claimant : Z),
            exists e : error,
              Orders.accept_delivery time claimant order_id db'
              = (Error e, db'))
      /\ (Order.status o = "ready" ->
          forall time : R,
            fst (Orders.update_order_status time new_deliverer_id order_id
                   "delivering" db') = Ok)
      /\ (forall (time : R) (previous : Z) (status : string),
            Order.deliverer_id o = Some previous ->
            previous <> new_deliverer_id ->
            Spec.is_deliverer_user db previous = true ->
            status <> "" ->
            Orders.update_order_status time previous order_id status db'
            = (Error Forbidden, db')).
Proof.
  intros now caller_id order_id new_deliverer_id reason log_entry db Hnd Hok
    db'.
  destruct (reassign_order_ok _ _ _ _ _ _ _ Hok)
    as [o [user [profile [Ho [Hnew [Hs [Hf [Hp [Ha Hdb]]]]]]]]].
  fold db' in Hdb.
  set (o' := Order.set_notes
               (Admin.append_note (log_entry (Order.deliverer_id o))
                  (Order.notes o))
               (Order.set_updated_at now
                  (Order.set_deliverer_id (Some new_deliverer_id) o))) in *.
  assert (Ho' : get_order db' order_id = Some o').
  { rewrite Hdb; eapply get_order_save_order; [exact Ho|].
    simpl; eapply get_order_id; exact Ho. }
  assert (Huser : get_user db new_deliverer_id = Some user
                  /\ (User.user_type user =? "deliverer")%string = true).
  { pose proof (find_by_key _ User.id _ _ user Hnd Hf) as Hkey.
    apply find_some in Hf; destruct Hf as [_ Hc].
    apply andb_prop in Hc; destruct Hc as [Hc _].
    apply andb_prop in Hc; destruct Hc as [Hid Ht].
    apply Z.eqb_eq in Hid; rewrite Hid in Hkey; split; assumption. }
  destruct Huser as [Hu Ht].
  assert (Hid : User.id user = new_deliverer_id)
    by (eapply get_user_id; exact Hu).
  assert (Husers : forall k, get_user db' k = get_user db k)
    by (intros k; rewrite Hdb; reflexivity).
  assert (Hprofiles : forall k, deliverer_of_user db' k = deliverer_of_user db k)
    by (intros k; rewrite Hdb; reflexivity).
  assert (Hstores : forall k, store_of_user db' k = store_of_user db k)
    by (intros k; rewrite Hdb; reflexivity).
  exists o, o'.
  split; [exact Ho|]; split; [exact Ho'|]; split; [reflexivity|].
  split; [reflexivity|]; split; [|split; [|split; [|split; [|split;
    [|split]]]]].
  - intros old Hold Hne; unfold o'; cbn [Order.notes Order.set_notes].
    unfold Admin.append_note; rewrite Hold; cbn [truthy_str].
    destruct (String.eqb_spec old "") as [E|_]; [contradiction|].
    cbn [negb]; eexists; reflexivity.
  - unfold Spec.is_deliverer_user; rewrite Husers, Hu; exact Ht.
  - unfold Spec.is_approved_deliverer.
    rewrite Hprofiles, <- Hid, Hp; exact Ha.
  - intros k Hk; rewrite Hdb.
    eapply get_order_save_order_other; [exact Ho | | exact Hk].
    simpl; eapply get_order_id; exact Ho.
  - intros time claimant; unfold Orders.accept_delivery.
    destruct (get_user db' claimant) as [c|];
      [|eexists; reflexivity].
    destruct (negb _); [eexists; reflexivity|].
    rewrite Ho'.
    destruct (negb _); [eexists; reflexivity|].
    assert (E : truthy_id (Order.deliverer_id o') = true).
    { simpl; apply negb_true_iff, Z.eqb_neq; exact Hnew. }
    rewrite E; eexists; reflexivity.
  - intros Hready time.
    rewrite (update_order_status_cases time new_deliverer_id order_id
               "delivering" db' o' user Ho');
      [|rewrite Husers; exact Hu | discriminate].
    assert (Hperm : Orders.has_permission db' user new_deliverer_id o'
                    = true).
    { unfold Orders.has_permission.
      apply String.eqb_eq in Ht; rewrite Ht; simpl.
      rewrite Z.eqb_refl; reflexivity. }
    rewrite Hperm; cbn [negb].
    change (Order.status o') with (Order.status o).
    apply String.eqb_eq in Ht; rewrite Ht, Hready; reflexivity.
  - intros time previous status Hprev Hne Hd Hstatus.
    unfold Spec.is_deliverer_user in Hd.
    destruct (get_user db previous) as [p|] eqn:Hpu; [|discriminate].
    rewrite (update_order_status_cases time previous order_id status db' o'
               p Ho');
      [|rewrite Husers; exact Hpu | exact Hstatus].
    assert (Hperm : Orders.has_permission db' p previous o' = false).
    { unfold Orders.has_permission.
      apply String.eqb_eq in Hd; rewrite Hd; simpl.
      destruct (Z.eqb_spec new_deliverer_id previous) as [E|_];
        [symmetry in E; contradiction | reflexivity]. }
    rewrite Hperm; reflexivity.
Qed.

(** The admin gives the ready order 100 of [market] to deliverer 8, who
    starts the delivery. *)
Lemma reassignment_hands_over_the_order_witness :
  exists o o' : Order.t,
    get_order Examples.market 100 = Some o
    /\ get_order
         (snd (Admin.reassign_order 1 1 100 8 "late" (fun _ => "reassigned")
                 Examples.market)) 100 = Some o'
    /\ Order.status o' = Order.status o
    /\ Order.deliverer_id o' = Some 8.
Proof.
  assert (Hnd : Props.unique_user_ids Examples.market) by unique_ids.
  destruct (reassignment_hands_over_the_order 1 1 100 8 "late"
              (fun _ => "reassigned") Examples.market Hnd eq_refl)
    as [o [o' [Ho [Ho' [Hs [Hd _]]]]]].
  exists o, o'; repeat split; assumption.
Defined.

(** ** Platform settings *)

Lemma dict_get_replace_first :
  forall (V : Type) (d : list (string * V)) (key : string) (v default : V)
         (kv : string * V),
    find (fun kv => (fst kv =? key)%string) d = Some kv ->
    dict_get (replace_first (fun kv => (fst kv =? key)%string) (key, v) d) key
      default = v.
Proof.
  intros V d key v default kv H; unfold dict_get.
  rewrite (find_replace_first _ _ (key, v) d kv H); [reflexivity|].
  simpl; apply String.eqb_refl.
Qed.

Lemma get_update_setting :
  forall (key : string) (v default : R) (db : DB.t),
    Admin.get_platform_setting (AdminMore.update_platform_setting key v db)
      key default = v.
Proof.
  intros key v default db.
  unfold Admin.get_platform_setting, AdminMore.update_platform_setting.
  destruct (find _ (DB.platform_settings db)) as [kv|] eqn:Hf; simpl.
  - eapply dict_get_replace_first; exact Hf.
  - unfold dict_get; rewrite (find_app_none _ _ _ _ Hf); simpl.
    rewrite String.eqb_refl; reflexivity.
Qed.

Lemma get_update_setting_other :
  forall (key other : string) (v default : R) (db : DB.t),
    other <> key ->
    Admin.get_platform_setting (AdminMore.update_platform_setting key v db)
      other default
    = Admin.get_platform_setting db other default.
Proof.
  intros key other v default db Hne.
  unfold Admin.get_platform_setting, AdminMore.update_platform_setting,
    dict_get.
  destruct (find (fun kv => (fst kv =? key)%string) (DB.platform_settings db))
    as [kv|] eqn:Hf; simpl.
  - rewrite find_replace_first_other; [reflexivity | |].
    + simpl; apply String.eqb_neq; auto.
    + intros y Hy; apply String.eqb_eq in Hy; rewrite Hy.
      apply String.eqb_neq; auto.
  - induction (DB.platform_settings db) as [|[k w] l IH]; simpl.
    + rewrite (proj2 (String.eqb_neq key other)) by auto; reflexivity.
    + simpl in Hf.
      destruct (k =? key)%string; [discriminate|].
      destruct (k =? other)%string; [reflexivity | apply IH; exact Hf].
Qed.

Lemma update_setting_keeps_cities :
  forall (key : string) (v : R) (db : DB.t),
    DB.allowed_cities (AdminMore.update_platform_setting key v db)
    = DB.allowed_cities db.
Proof.
  intros key v db; unfold AdminMore.update_platform_setting.
  destruct (find _ _); reflexivity.
Qed.

(** X17: A platform setting that is written is read back, whatever the
    default; the other settings are read as before; the table has at most
    one more row, and none when the key was there; and of two writes of a
    key the second wins. *)
Theorem platform_setting_round_trip :
  forall (key : string) (v w default : R) (db : DB.t),
    let db' := AdminMore.update_platform_setting key v db in
    Admin.get_platform_setting db' key default = v
    /\ (forall other : string,
          other <> key ->
          Admin.get_platform_setting db' other default
          = Admin.get_platform_setting db other default)
    /\ (length (DB.platform_settings db')
        = if existsb (fun kv => (fst kv =? key)%string)
               (DB.platform_settings db)
          then length (DB.platform_settings db)
          else S (length (DB.platform_settings db)))
    /\ AdminMore.update_platform_setting key w db'
       = AdminMore.update_platform_setting key w db.
Proof.
  intros key v w default db db'.
  split; [apply get_update_setting|].
  split; [intros other Hne; apply get_update_setting_other; exact Hne|].
  unfold db', AdminMore.update_platform_setting.
  destruct (find (fun kv => (fst kv =? key)%string) (DB.platform_settings db))
    as [kv|] eqn:Hf.
  - assert (Hex : existsb (fun kv => (fst kv =? key)%string)
                    (DB.platform_settings db) = true).
    { apply existsb_exists; exists kv; apply (find_some _ _ Hf). }
    rewrite Hex; cbn [DB.platform_settings AdminMore.set_platform_settings].
    split; [apply replace_first_length|].
    rewrite (find_replace_first _ _ (key, v) _ kv Hf)
      by (simpl; apply String.eqb_refl).
    unfold AdminMore.set_platform_settings; simpl; f_equal.
    clear Hex Hf; induction (DB.platform_settings db) as [|[k u] l IH];
      simpl; [reflexivity|].
    destruct (k =? key)%string eqn:Hk; simpl.
    + rewrite String.eqb_refl; reflexivity.
    + rewrite Hk, IH; reflexivity.
  - assert (Hex : existsb (fun kv => (fst kv =? key)%string)
                    (DB.platform_settings db) = false).
    { destruct (existsb _ _) eqn:Hex; [|reflexivity].
      apply existsb_exists in Hex; destruct Hex as [kv [Hin Hk]].
      pose proof (find_none _ _ Hf kv Hin) as Hn; simpl in Hn; congruence. }
    rewrite Hex; cbn [DB.platform_settings AdminMore.set_platform_settings].
    split; [rewrite length_app; simpl; lia|].
    rewrite (find_app_none _ _ _ _ Hf); simpl; rewrite String.eqb_refl.
    unfold AdminMore.set_platform_settings; simpl; f_equal.
    rewrite (replace_first_fresh _ _ (key, v)) by
      (try assumption; simpl; apply String.eqb_refl).
    reflexivity.
Qed.

(** The minimum fee of [priced_market] is raised to 7. *)
Lemma platform_setting_round_trip_witness :
  Admin.get_platform_setting
    (AdminMore.update_platform_setting "minimum_delivery_fee" 7
       Examples.priced_market)
    "maximum_delivery_distance" 10
  = Admin.get_platform_setting Examples.priced_market
      "maximum_delivery_distance" 10.
Proof.
  apply (proj1 (proj2
           (platform_setting_round_trip "minimum_delivery_fee" 7 0 10
              Examples.priced_market))).
  discriminate.
Defined.

(** ** The fee settings *)

(** What an update of the fees that is accepted has written. *)
Lemma update_platform_fees_ok :
  forall (caller_id : Z) (data : FeesBody.t) (db : DB.t),
    fst (AdminMore.update_platform_fees caller_id data db) = Ok ->
    Admin.admin_required db caller_id = true
    /\ snd (AdminMore.update_platform_fees caller_id data db)
       = Props.written_fees data db.
Proof.
  intros caller_id data db.
  unfold AdminMore.update_platform_fees, Props.written_fees, Props.fee_fields.
  destruct (Admin.admin_required db caller_id); cbn [negb]; [|discriminate].
  cbv zeta beta; cbn [fold_left fst snd].
  destruct (FeesBody.platform_commission_percentage data) as [c|];
    [destruct (Rlt_dec c 0); [discriminate|];
     destruct (Rlt_dec 50 c); [discriminate|]|];
    (destruct (FeesBody.default_delivery_fee_per_km data) as [f|];
     [destruct (Rlt_dec f 0); [discriminate|]|]);
    (destruct (FeesBody.minimum_delivery_fee data) as [m|];
     [destruct (Rlt_dec m 0); [discriminate|]|]);
    (destruct (FeesBody.maximum_delivery_distance data) as [x|];
     [destruct (Rle_dec x 0); [discriminate|]|]);
    (destruct (FeesBody.default_minimum_order_value data) as [o|];
     [destruct (Rlt_dec o 0); [discriminate|]|]);
    intros _; split; reflexivity.
Qed.

(** The fee settings after the writes of a body. *)
Lemma written_fees_read_back :
  forall (data : FeesBody.t) (db : DB.t),
    Forall
      (fun entry =>
         Admin.get_platform_setting (Props.written_fees data db)
           (fst (fst entry)) (snd entry)
         = Props.fee_after data db entry)
      Props.fee_fields.
Proof.
  intros data db.
  unfold Props.written_fees, Props.fee_fields, Props.fee_after.
  cbn [fold_left fst snd].
  repeat (apply Forall_cons; [|]); try apply Forall_nil; cbn [fst snd];
    destruct (FeesBody.platform_commission_percentage data),
      (FeesBody.default_delivery_fee_per_km data),
      (FeesBody.minimum_delivery_fee data),
      (FeesBody.maximum_delivery_distance data),
      (FeesBody.default_minimum_order_value data);
    repeat first
      [ rewrite get_update_setting
      | rewrite get_update_setting_other by discriminate ];
    reflexivity.
Qed.

Lemma written_fees_keep_cities :
  forall (data : FeesBody.t) (db : DB.t),
    DB.allowed_cities (Props.written_fees data db) = DB.allowed_cities db.
Proof.
  intros data db.
  unfold Props.written_fees, Props.fee_fields; cbn [fold_left fst snd].
  destruct (FeesBody.platform_commission_percentage data),
    (FeesBody.default_delivery_fee_per_km data),
    (FeesBody.minimum_delivery_fee data),
    (FeesBody.maximum_delivery_distance data),
    (FeesBody.default_minimum_order_value data);
    rewrite ?update_setting_keeps_cities; reflexivity.
Qed.

(** X19: An update of the fees is not all or nothing: each field is committed
    before the next one is checked.  When the commission of a body is
    within its bounds and its fee per km is negative, the request is
    refused and the commission is written all the same. *)
Theorem refused_fees_update_is_half_written :
  forall (caller_id : Z) (data : FeesBody.t) (db : DB.t)
         (commission fee_per_km : R),
    Admin.admin_required db caller_id = true ->
    FeesBody.platform_commission_percentage data = Some commission ->
    (0 <= commission <= 50)%R ->
    FeesBody.default_delivery_fee_per_km data = Some fee_per_km ->
    (fee_per_km < 0)%R ->
    AdminMore.update_platform_fees caller_id data db
    = (Error BadRequest,
       AdminMore.update_platform_setting "platform_commission_percentage"
         commission db)
    /\ forall default : R,
         Admin.get_platform_setting
           (snd (AdminMore.update_platform_fees caller_id data db))
           "platform_commission_percentage" default
         = commission.
Proof.
  intros caller_id data db commission fee_per_km Hadmin Hc Hrange Hf Hneg.
  assert (E : AdminMore.update_platform_fees caller_id data db
              = (Error BadRequest,
                 AdminMore.update_platform_setting
                   "platform_commission_percentage" commission db)).
  { unfold AdminMore.update_platform_fees.
    rewrite Hadmin, Hc, Hf; cbn [negb]; cbv zeta beta.
    destruct (Rlt_dec commission 0); [lra|].
    destruct (Rlt_dec 50 commission); [lra|].
    destruct (Rlt_dec fee_per_km 0); [reflexivity | lra]. }
  split; [exact E|].
  intros default; rewrite E; apply get_update_setting.
Qed.

(** The admin sends a commission of 10 and a fee per km of -1. *)
Lemma refused_fees_update_is_half_written_witness :
  fst (AdminMore.update_platform_fees 1 (Examples2.fees_body 10 (-1))
         Examples2.priced_market_with_admin) = Error BadRequest
  /\ Admin.get_platform_setting
       (snd (AdminMore.update_platform_fees 1 (Examples2.fees_body 10 (-1))
               Examples2.priced_market_with_admin))
       "platform_commission_percentage" 5
     = 10%R.
Proof.
  assert (Hc : (0 <= 10 <= 50)%R) by lra.
  assert (Hf : (-1 < 0)%R) by lra.
  destruct (refused_fees_update_is_half_written 1
              (Examples2.fees_body 10 (-1))
              Examples2.priced_market_with_admin 10 (-1) eq_refl eq_refl Hc
              eq_refl Hf) as [E Hread].
  split; [rewrite E; reflexivity | apply Hread].
Defined.

(** ** Fee settings, cities and the quote *)

Lemma active_override_cities :
  forall (db db' : DB.t) (city_id : option Z),
    DB.allowed_cities db' = DB.allowed_cities db ->
    Spec.active_override db' city_id = Spec.active_override db city_id.
Proof.
  intros db db' city_id H.
  unfold Spec.active_override, Admin.get_city; rewrite H; reflexivity.
Qed.

(** X20: The fees that are set are the fees that are quoted.  After an update
    of the fee settings that is accepted, a trip is refused exactly when
    it is longer than the maximum distance as the body gives it (or as it
    was, when the body does not name it); any other trip is quoted at the
    rate of its active city, or else at the fee per km as the body gives
    it, and never below the minimum fee as the body gives it. *)
Theorem fee_settings_drive_the_quote :
  forall (caller_id : Z) (data : FeesBody.t) (db : DB.t) (distance : R)
         (city_id : option Z),
    fst (AdminMore.update_platform_fees caller_id data db) = Ok ->
    let db' := snd (AdminMore.update_platform_fees caller_id data db) in
    let maximum :=
      Props.fee_after data db
        ("maximum_delivery_distance", FeesBody.maximum_delivery_distance,
         10%R) in
    let minimum :=
      Props.fee_after data db
        ("minimum_delivery_fee", FeesBody.minimum_delivery_fee, 5%R) in
    let per_km :=
      match Spec.active_override db city_id with
      | Some city => AllowedCity.delivery_fee_per_km city
      | None =>
        Props.fee_after data db
          ("default_delivery_fee_per_km",
           FeesBody.default_delivery_fee_per_km, 2%R)
      end in
    ((maximum < distance)%R ->
     Admin.calculate_delivery_fee (Some distance) city_id db'
     = inl DistanceExceeded)
    /\ ((distance <= maximum)%R ->
        exists quote : Admin.fee_quote,
          Admin.calculate_delivery_fee (Some distance) city_id db' = inr quote
          /\ Admin.fee_per_km quote = per_km
          /\ Admin.final_delivery_fee quote
             = Rmax (distance * per_km) minimum).
Proof.
  intros caller_id data db distance city_id Hok db' maximum minimum per_km.
  destruct (update_platform_fees_ok _ _ _ Hok) as [_ Hdb].
  fold db' in Hdb.
  pose proof (written_fees_read_back data db) as Hread.
  rewrite <- Hdb, Forall_forall in Hread.
  assert (Hmax : Admin.get_platform_setting db' "maximum_delivery_distance"
                   10 = maximum).
  { apply (Hread ("maximum_delivery_distance",
                  FeesBody.maximum_delivery_distance, 10%R)).
    unfold Props.fee_fields; simpl; auto 10. }
  assert (Hmin : Admin.get_platform_setting db' "minimum_delivery_fee" 5
                 = minimum).
  { apply (Hread ("minimum_delivery_fee", FeesBody.minimum_delivery_fee,
                  5%R)).
    unfold Props.fee_fields; simpl; auto 10. }
  assert (Hrate : Spec.rate db' city_id = per_km).
  { unfold Spec.rate, per_km.
    rewrite (active_override_cities db db' city_id)
      by (rewrite Hdb; apply written_fees_keep_cities).
    destruct (Spec.active_override db city_id); [reflexivity|].
    apply (Hread ("default_delivery_fee_per_km",
                  FeesBody.default_delivery_fee_per_km, 2%R)).
    unfold Props.fee_fields; simpl; auto 10. }
  destruct (calculate_delivery_fee_cases distance city_id db')
    as [Hfar Hnear].
  rewrite Hmax in Hfar, Hnear; rewrite Hmin, Hrate in Hnear.
  split; [exact Hfar|].
  intros Hle; apply Hnear; lra.
Qed.

(** The admin lowers the maximum distance of [priced_market] to 6: a trip
    of 8 km, quoted before, is refused. *)
Lemma fee_settings_drive_the_quote_witness :
  Admin.calculate_delivery_fee (Some 8%R) None
    (snd (AdminMore.update_platform_fees 1
            (FeesBody.mk None None None (Some 6%R) None)
            Examples2.priced_market_with_admin))
  = inl DistanceExceeded.
Proof.
  assert (Hok : fst (AdminMore.update_platform_fees 1
                       (FeesBody.mk None None None (Some 6%R) None)
                       Examples2.priced_market_with_admin) = Ok).
  { unfold AdminMore.update_platform_fees; cbn.
    destruct (Rle_dec 6 0); [lra | reflexivity]. }
  apply (proj1
           (fee_settings_drive_the_quote 1
              (FeesBody.mk None None None (Some 6%R) None)
              Examples2.priced_market_with_admin 8 None Hok)).
  change (6 < 8)%R; lra.
Defined.

Lemma find_remove_first_other :
  forall (A : Type) (p q : A -> bool) (l : list A),
    (forall y, p y = true -> q y = false) ->
    find q (Admin.remove_first p l) = find q l.
Proof.
  intros A p q l Hp; induction l as [|y l IH]; simpl; [reflexivity|].
  destruct (p y) eqn:Hy; simpl.
  - rewrite (Hp y Hy); reflexivity.
  - rewrite IH; reflexivity.
Qed.

Lemma get_city_id :
  forall (db : DB.t) (city_id : Z) (city : AllowedCity.t),
    Admin.get_city db city_id = Some city -> AllowedCity.id city = city_id.
Proof.
  unfold Admin.get_city; intros db city_id city H.
  apply find_some in H; apply Z.eqb_eq, H.
Qed.

(** A quote reads the settings and the city it names, nothing else. *)
Lemma calculate_delivery_fee_reads :
  forall (db db' : DB.t) (distance : option R) (city_id : option Z),
    DB.platform_settings db' = DB.platform_settings db ->
    Spec.active_override db' city_id = Spec.active_override db city_id ->
    Admin.calculate_delivery_fee distance city_id db'
    = Admin.calculate_delivery_fee distance city_id db.
Proof.
  intros db db' distance city_id Hs Hc.
  unfold Admin.calculate_delivery_fee.
  rewrite !select_fee_per_km_rate.
  unfold Spec.rate, Admin.get_platform_setting; rewrite Hs, Hc.
  reflexivity.
Qed.

(** X21: The rate of a city is the rate of the quotes for the city.  After an
    update of a city that is accepted, a quote for the city is at the rate
    of the city as the body leaves it when the city is then active, and at
    the default rate of the platform when it is not.  After a city is
    deleted, a request that names it is quoted like a request that names
    no city.  Both leave the quotes for every other city as they were. *)
Theorem city_rate_drives_the_quote :
  forall (caller_id city_id : Z) (db : DB.t) (distance : option R),
    city_id <> 0 ->
    (forall data : CityBody.t,
        fst (AdminMore.update_allowed_city caller_id city_id data db) = Ok ->
        let db' :=
          snd (AdminMore.update_allowed_city caller_id city_id data db) in
        (exists city : AllowedCity.t,
            Admin.get_city db city_id = Some city
            /\ Admin.get_city db' city_id
               = Some (AdminMore.apply_city_body data city)
            /\ forall quote : Admin.fee_quote,
                 Admin.calculate_delivery_fee distance (Some city_id) db'
                 = inr quote ->
                 Admin.fee_per_km quote
                 = if AllowedCity.is_active
                        (AdminMore.apply_city_body data city)
                   then
                     AllowedCity.delivery_fee_per_km
                       (AdminMore.apply_city_body data city)
                   else
                     Admin.get_platform_setting db
                       "default_delivery_fee_per_km" 2)
        /\ forall other : option Z,
             other <> Some city_id ->
             Admin.calculate_delivery_fee distance other db'
             = Admin.calculate_delivery_fee distance other db)
    /\ (Props.unique_city_ids db ->
        fst (AdminMore.delete_allowed_city caller_id city_id db) = Ok ->
        let db' := snd (AdminMore.delete_allowed_city caller_id city_id db) in
        Admin.calculate_delivery_fee distance (Some city_id) db'
        = Admin.calculate_delivery_fee distance None db
        /\ forall other : option Z,
             other <> Some city_id ->
             Admin.calculate_delivery_fee distance other db'
             = Admin.calculate_delivery_fee distance other db).
Proof.
  intros caller_id city_id db distance Hcid; split.
  - intros data Hok db'.
    unfold AdminMore.update_allowed_city in Hok, db'.
    destruct (negb (Admin.admin_required db caller_id)); [discriminate|].
    destruct (Admin.get_city db city_id) as [city|] eqn:Hcity;
      [|discriminate].
    cbn [snd] in db'; clear Hok.
    pose proof (get_city_id _ _ _ Hcity) as Hid.
    assert (Hcity' : Admin.get_city db' city_id
                     = Some (AdminMore.apply_city_body data city)).
    { unfold Admin.get_city, db', AdminMore.set_allowed_cities;
        cbn [DB.allowed_cities].
      rewrite Hid.
      apply find_replace_first with (y := city); [exact Hcity|].
      simpl; rewrite Hid; apply Z.eqb_refl. }
    split.
    + exists city; split; [reflexivity|]; split; [exact Hcity'|].
      intros quote; unfold Admin.calculate_delivery_fee.
      destruct distance as [d|]; [|discriminate].
      destruct (Rlt_dec _ d); [discriminate|].
      intros H; injection H as <-; cbn [Admin.fee_per_km].
      unfold Admin.select_fee_per_km; cbn [truthy_id].
      rewrite (proj2 (Z.eqb_neq city_id 0) Hcid), Hcity'; reflexivity.
    + intros other Hother.
      apply calculate_delivery_fee_reads; [reflexivity|].
      unfold Spec.active_override.
      destruct other as [k|]; [|reflexivity].
      destruct (k =? 0); [reflexivity|].
      assert (Hk : k <> city_id) by congruence.
      assert (E : Admin.get_city db' k = Admin.get_city db k).
      { unfold Admin.get_city, db', AdminMore.set_allowed_cities;
          cbn [DB.allowed_cities].
        apply find_replace_first_other.
        - simpl; rewrite Hid; apply Z.eqb_neq; auto.
        - intros y Hy; rewrite Hid in Hy; apply Z.eqb_eq in Hy.
          rewrite Hy; apply Z.eqb_neq; auto. }
      rewrite E; reflexivity.
  - intros Hnd Hok db'.
    unfold AdminMore.delete_allowed_city in Hok, db'.
    destruct (negb (Admin.admin_required db caller_id)); [discriminate|].
    destruct (Admin.get_city db city_id) as [city|] eqn:Hcity;
      [|discriminate].
    cbn [snd] in db'; clear Hok.
    pose proof (get_city_id _ _ _ Hcity) as Hid.
    subst city_id.
    split.
    + transitivity (Admin.calculate_delivery_fee distance None db').
      * unfold Admin.calculate_delivery_fee.
        rewrite !select_fee_per_km_rate.
        unfold Spec.rate, Spec.active_override.
        rewrite (proj2 (Z.eqb_neq (AllowedCity.id city) 0) Hcid).
        unfold Admin.get_city, db', AdminMore.set_allowed_cities;
          cbn [DB.allowed_cities].
        rewrite (find_remove_first_none _ AllowedCity.id
                   (AllowedCity.id city) _ Hnd).
        reflexivity.
      * apply calculate_delivery_fee_reads; reflexivity.
    + intros other Hother.
      apply calculate_delivery_fee_reads; [reflexivity|].
      unfold Spec.active_override.
      destruct other as [k|]; [|reflexivity].
      destruct (k =? 0); [reflexivity|].
      assert (Hk : k <> AllowedCity.id city) by congruence.
      assert (E : Admin.get_city db' k = Admin.get_city db k).
      { unfold Admin.get_city, db', AdminMore.set_allowed_cities;
          cbn [DB.allowed_cities].
        apply find_remove_first_other.
        intros y Hy; apply Z.eqb_eq in Hy; rewrite Hy.
        apply Z.eqb_neq; auto. }
      rewrite E; reflexivity.
Qed.

(** The admin deactivates city 1 of [priced_market]: a trip in city 2 is
    quoted as before. *)
Lemma city_rate_drives_the_quote_witness :
  Admin.calculate_delivery_fee (Some 8%R) (Some 2)
    (snd (AdminMore.update_allowed_city 1 1
            (CityBody.mk None None (Some false))
            Examples2.priced_market_with_admin))
  = Admin.calculate_delivery_fee (Some 8%R) (Some 2)
      Examples2.priced_market_with_admin.
Proof.
  assert (H1 : 1 <> 0) by discriminate.
  apply (proj2
           (proj1
              (city_rate_drives_the_quote 1 1
                 Examples2.priced_market_with_admin (Some 8%R) H1)
              (CityBody.mk None None (Some false)) eq_refl)).
  discriminate.
Defined.

(** X22: A trip that is not longer than a trip that is served is served,
    at the same rate and with the same minimum fee; for a rate that is not
    negative the shorter trip never costs more. *)
Theorem delivery_fee_is_monotone :
  forall (db : DB.t) (city_id : option Z) (shorter longer : R)
         (quote : Admin.fee_quote),
    (shorter <= longer)%R ->
    Admin.calculate_delivery_fee (Some longer) city_id db = inr quote ->
    exists quote' : Admin.fee_quote,
      Admin.calculate_delivery_fee (Some shorter) city_id db = inr quote'
      /\ Admin.distance_km quote' = shorter
      /\ Admin.fee_per_km quote' = Admin.fee_per_km quote
      /\ Admin.minimum_fee quote' = Admin.minimum_fee quote
      /\ ((0 <= Admin.fee_per_km quote)%R ->
          (Admin.final_delivery_fee quote'
           <= Admin.final_delivery_fee quote)%R).
Proof.
  intros db city_id shorter longer quote Hle.
  unfold Admin.calculate_delivery_fee.
  set (maximum := Admin.get_platform_setting db "maximum_delivery_distance"
                    10).
  set (minimum := Admin.get_platform_setting db "minimum_delivery_fee" 5).
  set (rate := Admin.select_fee_per_km db city_id).
  destruct (Rlt_dec maximum longer) as [|Hlong]; [discriminate|].
  intros H; injection H as <-; cbn [Admin.fee_per_km Admin.minimum_fee
    Admin.final_delivery_fee].
  destruct (Rlt_dec maximum shorter) as [Hshort|Hshort]; [lra|].
  eexists; split; [reflexivity|].
  cbn [Admin.distance_km Admin.fee_per_km Admin.minimum_fee
       Admin.final_delivery_fee].
  repeat split.
  intros Hrate; rewrite !py_max_Rmax.
  apply Rle_max_compat_r.
  apply Rmult_le_compat_r; assumption.
Qed.

(** Trips of 4 km and of 8 km in city 1 of [priced_market]. *)
Lemma delivery_fee_is_monotone_witness :
  exists quote' : Admin.fee_quote,
    Admin.calculate_delivery_fee (Some 4%R) (Some 1) Examples.priced_market
    = inr quote'
    /\ Admin.fee_per_km quote' = 3%R
    /\ (Admin.final_delivery_fee quote' <= Rmax (8 * 3) 5)%R.
Proof.
  assert (Hle : (4 <= 8)%R) by lra.
  assert (Hq : exists quote,
             Admin.calculate_delivery_fee (Some 8%R) (Some 1)
               Examples.priced_market = inr quote
             /\ Admin.fee_per_km quote = 3%R
             /\ Admin.final_delivery_fee quote = Rmax (8 * 3) 5).
  { apply (calculate_delivery_fee_cases 8 (Some 1) Examples.priced_market).
    change (Admin.get_platform_setting Examples.priced_market
              "maximum_delivery_distance" 10) with 10%R.
    lra. }
  destruct Hq as [quote [Hquote [Hrate Hfee]]].
  destruct (delivery_fee_is_monotone Examples.priced_market (Some 1) 4 8
              quote Hle Hquote) as [quote' [Hq' [_ [Hrate' [_ Hfee']]]]].
  exists quote'; split; [exact Hq'|]; split; [congruence|].
  rewrite <- Hfee; apply Hfee'; rewrite Hrate; lra.
Defined.

(** ** From a position report to the tracking view *)

Lemma hd_error_rev_same :
  forall (A : Type) (x : A) (l rest : list A),
    l <> [] ->
    Forall (eq x) l ->
    hd_error (rev l ++ rest) = Some x.
Proof.
  intros A x l rest Hne Hall.
  destruct (rev l) as [|y r] eqn:Hr.
  - apply (f_equal (@rev A)) in Hr; rewrite rev_involutive in Hr.
    contradiction.
  - simpl; f_equal.
    rewrite Forall_forall in Hall; symmetry; apply Hall.
    apply in_rev; rewrite Hr; left; reflexivity.
Qed.

(** After [deactivate_locations] a deliverer has no active row. *)
Lemma find_deactivated :
  forall (user_id : Z) (locations : list DelivererLocation.t),
    find
      (fun l =>
         ((user_id =? DelivererLocation.deliverer_id l)
          && DelivererLocation.is_active l)%bool)
      (Geolocation.deactivate_locations user_id locations)
    = None.
Proof.
  intros user_id locations; unfold Geolocation.deactivate_locations.
  induction locations as [|l locations IH]; simpl; [reflexivity|].
  rewrite (Z.eqb_sym user_id).
  destruct (DelivererLocation.deliverer_id l =? user_id) eqn:Hu;
    destruct (DelivererLocation.is_active l) eqn:Ha; simpl;
    rewrite ?(Z.eqb_sym user_id), ?Hu, ?Ha; simpl; exact IH.
Qed.

Lemma In_firstn :
  forall (A : Type) (n : nat) (l : list A) (x : A),
    In x (firstn n l) -> In x l.
Proof.
  intros A n; induction n as [|n IH]; intros [|y l] x; simpl;
    try contradiction.
  intros [H|H]; [left; exact H | right; apply IH; exact H].
Qed.

(** What every tracking view shows of the history of its order. *)
Lemma track_order_history :
  forall (user_id order_id : Z) (db : DB.t) (view : TrackingView.t),
    Geolocation.track_order user_id order_id db = inr view ->
    TrackingView.order_id view = order_id
    /\ (length (TrackingView.tracking_history view) <= 10)%nat
    /\ Forall (fun t => OrderTracking.order_id t = order_id)
         (TrackingView.tracking_history view)
    /\ hd_error (TrackingView.tracking_history view)
       = TrackingView.latest_tracking view.
Proof.
  intros user_id order_id db view; unfold Geolocation.track_order.
  destruct (get_order db order_id) as [o|]; [|discriminate].
  destruct (get_user db user_id) as [user|]; [|discriminate].
  destruct (negb _); [discriminate|].
  remember (firstn 10 (Geolocation.trackings_of db order_id)) as history
    eqn:Hh.
  intros H; injection H as <-; cbn [TrackingView.order_id
    TrackingView.tracking_history TrackingView.latest_tracking].
  subst history.
  split; [reflexivity|]; split; [apply firstn_le_length|]; split.
  - apply Forall_forall; intros t Ht.
    apply In_firstn in Ht; unfold Geolocation.trackings_of in Ht.
    apply in_rev, filter_In in Ht; apply Z.eqb_eq, Ht.
  - destruct (Geolocation.trackings_of db order_id); reflexivity.
Qed.

(** X23: The position a deliverer reports is the position the order is
    tracked at.  After a report that is accepted, whoever could track an
    order in delivery that is bound to the deliverer is shown the new
    tracking row of the order as its latest tracking and at the head of
    its history, and the reported position as the current location of the
    deliverer.  A history never has more than ten rows, all of the order
    that is tracked. *)
Theorem reported_position_is_tracked :
  forall (now : R) (user_id viewer_id order_id : Z) (data : LocationBody.t)
         (db : DB.t) (o : Order.t) (before : TrackingView.t),
    user_id <> 0 ->
    fst (Geolocation.update_deliverer_location now user_id data db) = Ok ->
    get_order db order_id = Some o ->
    Order.deliverer_id o = Some user_id ->
    Order.status o = "delivering" ->
    Geolocation.track_order viewer_id order_id db = inr before ->
    let db' := snd (Geolocation.update_deliverer_location now user_id data db)
    in
    exists (latitude longitude : R) (view : TrackingView.t),
      LocationBody.latitude data = Some latitude
      /\ LocationBody.longitude data = Some longitude
      /\ Geolocation.track_order viewer_id order_id db' = inr view
      /\ TrackingView.status view = "delivering"
      /\ TrackingView.latest_tracking view
         = Some (Geolocation.tracking_row now user_id latitude longitude o)
      /\ TrackingView.current_location view
         = Some
             (DelivererLocation.mk user_id latitude longitude
                (LocationBody.accuracy data) (LocationBody.speed data)
                (LocationBody.heading data) true now)
      /\ hd_error (TrackingView.tracking_history view)
         = TrackingView.latest_tracking view
      /\ (length (TrackingView.tracking_history view) <= 10)%nat
      /\ Forall (fun t => OrderTracking.order_id t = order_id)
           (TrackingView.tracking_history view).
Proof.
  intros now user_id viewer_id order_id data db o before Hu Hok Ho Hd Hs
    Hbefore db'.
  destruct (update_location_ok now user_id data db Hok)
    as [latitude [longitude [Hlat [Hlon [_ [_ Hdb]]]]]].
  fold db' in Hdb.
  exists latitude, longitude.
  assert (Hview : exists view,
             Geolocation.track_order viewer_id order_id db' = inr view
             /\ TrackingView.status view = "delivering"
             /\ TrackingView.latest_tracking view
                = Some
                    (Geolocation.tracking_row now user_id latitude longitude
                       o)
             /\ TrackingView.current_location view
                = Some
                    (DelivererLocation.mk user_id latitude longitude
                       (LocationBody.accuracy data) (LocationBody.speed data)
                       (LocationBody.heading data) true now)).
  { unfold Geolocation.track_order in Hbefore |- *.
    rewrite Hdb.
    change (get_order (DB.set_order_tracking _ _) order_id)
      with (get_order db order_id).
    change (get_user (DB.set_order_tracking _ _) viewer_id)
      with (get_user db viewer_id).
    rewrite Ho in Hbefore |- *.
    destruct (get_user db viewer_id) as [viewer|]; [|discriminate].
    change (Geolocation.has_access (DB.set_order_tracking _ _) viewer
              viewer_id o)
      with (Geolocation.has_access db viewer viewer_id o).
    destruct (negb (Geolocation.has_access db viewer viewer_id o));
      [discriminate|].
    eexists; split; [reflexivity|].
    cbn [TrackingView.status TrackingView.latest_tracking
         TrackingView.current_location].
    split; [exact Hs|]; split.
    - unfold Geolocation.trackings_of;
        cbn [DB.order_tracking DB.set_order_tracking
             DB.set_deliverer_locations].
      rewrite filter_app, rev_app_distr.
      apply hd_error_rev_same.
      + assert (Hin : In (Geolocation.tracking_row now user_id latitude
                            longitude o)
                        (filter
                           (fun t => OrderTracking.order_id t =? order_id)
                           (map
                              (Geolocation.tracking_row now user_id latitude
                                 longitude)
                              (Geolocation.active_orders db user_id)))).
        { apply filter_In; split.
          - apply in_map; unfold Geolocation.active_orders.
            apply filter_In; split.
            + unfold get_order in Ho; apply (find_some _ _ Ho).
            + rewrite Hd, Hs; simpl; rewrite Z.eqb_refl; reflexivity.
          - simpl; apply Z.eqb_eq; eapply get_order_id; exact Ho. }
        intros E; rewrite E in Hin; contradiction.
      + apply Forall_forall; intros t Ht.
        apply filter_In in Ht; destruct Ht as [Ht Hid].
        apply in_map_iff in Ht; destruct Ht as [o2 [<- _]].
        simpl in Hid; apply Z.eqb_eq in Hid.
        unfold Geolocation.tracking_row.
        rewrite Hid, (get_order_id _ _ _ Ho); reflexivity.
    - rewrite Hd; cbn [truthy_id id_eqb].
      rewrite (proj2 (Z.eqb_neq user_id 0) Hu); cbn [negb].
      cbn [DB.deliverer_locations DB.set_order_tracking
           DB.set_deliverer_locations].
      rewrite (find_app_none _ _ _ _ (find_deactivated user_id _)).
      simpl; rewrite Z.eqb_refl; reflexivity. }
  destruct Hview as [view [Htrack [Hstatus [Hlatest Hcurrent]]]].
  destruct (track_order_history _ _ _ _ Htrack) as [_ [Hlen [Hall Hhd]]].
  exists view; repeat split; assumption.
Qed.

(** Deliverer 8 of [two_in_flight] reports a position; client 3 tracks
    order 100. *)
Lemma reported_position_is_tracked_witness :
  exists (latitude longitude : R) (view : TrackingView.t),
    Geolocation.track_order 3 100
      (snd (Geolocation.update_deliverer_location 9 8
              (Examples.report 1 2) Examples.two_in_flight))
    = inr view
    /\ TrackingView.current_location view
       = Some (DelivererLocation.mk 8 latitude longitude None None None true 9).
Proof.
  assert (H8 : 8 <> 0) by discriminate.
  destruct (reported_position_is_tracked 9 8 3 100 (Examples.report 1 2)
              Examples.two_in_flight
              (Order.mk 100 3 20 (Some 8) "delivering" "Rua Augusta 10"
                 "Sao Paulo" None 0)
              (TrackingView.mk 100 "delivering" None None [])
              H8 eq_refl eq_refl eq_refl eq_refl eq_refl)
    as [latitude [longitude [view [_ [_ [Htrack [_ [_ [Hcurrent _]]]]]]]]].
  exists latitude, longitude, view; split; assumption.
Defined.

(** ** Placing an order *)

Lemma sold_by_id :
  forall (store_id product_id : Z) (p : Product.t),
    OrdersMore.sold_by store_id product_id p = true ->
    Product.id p = product_id.
Proof.
  unfold OrdersMore.sold_by; intros store_id product_id p H.
  apply andb_prop in H; destruct H as [H _].
  apply andb_prop in H; destruct H as [H _].
  apply Z.eqb_eq; exact H.
Qed.

Lemma sold_by_stock_taken :
  forall (store_id product_id : Z) (p p' : Product.t),
    Product.id p' = Product.id p ->
    Product.store_id p' = Product.store_id p ->
    Product.is_active p' = Product.is_active p ->
    OrdersMore.sold_by store_id product_id p'
    = OrdersMore.sold_by store_id product_id p.
Proof.
  unfold OrdersMore.sold_by; intros store_id product_id p p' -> -> ->.
  reflexivity.
Qed.

(** What the first loop of [create_order] has checked when it ends
    well. *)
Lemma check_items_ok :
  forall (store_id : Z) (products : list Product.t)
         (items : list OrderBody.item) (order_items : list (Product.t * Z)),
    OrdersMore.check_items store_id products items = inr order_items ->
    Forall2
      (fun item_data line =>
         OrderBody.product_id item_data = Some (Product.id (fst line))
         /\ OrderBody.quantity item_data = Some (snd line)
         /\ 0 < snd line
         /\ find (OrdersMore.sold_by store_id (Product.id (fst line)))
              products = Some (fst line)
         /\ snd line <= Product.stock_quantity (fst line))
      items order_items.
Proof.
  intros store_id products items; induction items as [|item_data rest IH];
    simpl; intros order_items H.
  - injection H as <-; constructor.
  - destruct (OrderBody.product_id item_data) as [pid|] eqn:Hpid;
      [|discriminate].
    destruct (OrderBody.quantity item_data) as [q|] eqn:Hqty;
      [|discriminate].
    destruct (_ || _)%bool; [discriminate|].
    destruct (Z.leb_spec q 0) as [|Hq]; [discriminate|].
    destruct (find _ products) as [p|] eqn:Hf; [|discriminate].
    destruct (Z.ltb_spec (Product.stock_quantity p) q) as [|Hs];
      [discriminate|].
    destruct (OrdersMore.check_items store_id products rest) as [e|l];
      [discriminate|].
    injection H as <-; constructor; [|apply IH; reflexivity].
    cbn [fst snd].
    pose proof (sold_by_id _ _ _ (proj2 (find_some _ _ Hf))) as Hid.
    rewrite Hid, Hpid, Hqty; repeat split; try assumption; reflexivity.
Qed.

Lemma Forall2_replace_first_r :
  forall (A : Type) (R R' : A -> A -> Prop) (p : A -> bool) (x b : A)
         (l0 l : list A),
    Forall2 R l0 l ->
    find p l = Some b ->
    (forall a c, R a c -> R' a c) ->
    (forall a, R a b -> R' a x) ->
    Forall2 R' l0 (replace_first p x l).
Proof.
  intros A R R' p x b l0 l H; induction H as [|a c l0 l Hac Hl IH]; simpl;
    intros Hf Hmono Hx; [constructor|].
  destruct (p c).
  - injection Hf as ->; constructor; [apply Hx; exact Hac|].
    eapply Forall2_impl; [exact Hmono | exact Hl].
  - constructor; [apply Hmono; exact Hac | apply IH; assumption].
Qed.

(** A query finds its row at the same place in two tables whose rows
    agree on what the query reads. *)
Lemma find_Forall2 :
  forall (A : Type) (R : A -> A -> Prop) (p : A -> bool) (l0 l : list A)
         (a : A),
    Forall2 R l0 l ->
    (forall x y, R x y -> p y = p x) ->
    find p l0 = Some a ->
    exists b : A, find p l = Some b /\ R a b.
Proof.
  intros A R p l0 l a H; induction H as [|x y l0 l Hxy Hl IH]; simpl;
    intros Hp Hf; [discriminate|].
  rewrite (Hp x y Hxy).
  destruct (p x); [injection Hf as <-; exists y; split; auto|].
  apply IH; assumption.
Qed.

Lemma stock_taken_refl : forall p : Product.t, Props.stock_taken p p.
Proof.
  intros p; unfold Props.stock_taken; repeat split; lia.
Qed.

(** The second loop of [create_order] takes stock and nothing else. *)
Lemma take_stock_fold :
  forall (store_id : Z) (products0 : list Product.t)
         (order_items : list (Product.t * Z)) (products : list Product.t),
    Forall
      (fun line =>
         0 < snd line
         /\ find (OrdersMore.sold_by store_id (Product.id (fst line)))
              products0 = Some (fst line))
      order_items ->
    Forall2 Props.stock_taken products0 products ->
    Forall2 Props.stock_taken products0
      (fold_left (OrdersMore.take_stock store_id) order_items products)
    /\ fold_right Z.add 0
         (map Product.stock_quantity
            (fold_left (OrdersMore.take_stock store_id) order_items products))
       = fold_right Z.add 0 (map Product.stock_quantity products)
         - fold_right Z.add 0 (map snd order_items).
Proof.
  intros store_id products0 order_items.
  induction order_items as [|line rest IH]; intros products Hall Hrel; simpl.
  - split; [exact Hrel | lia].
  - inversion Hall as [|? ? [Hq Hf] Hrest]; subst.
    destruct (find_Forall2 _ Props.stock_taken _ _ _ _ Hrel
                (fun x y H =>
                   sold_by_stock_taken store_id (Product.id (fst line)) x y
                     (proj1 H) (proj1 (proj2 H))
                     (proj1 (proj2 (proj2 (proj2 H)))))
                Hf) as [b [Hb Hab]].
    assert (Hstep : Forall2 Props.stock_taken products0
                      (OrdersMore.take_stock store_id products line)).
    { unfold OrdersMore.take_stock; rewrite Hb.
      eapply Forall2_replace_first_r;
        [exact Hrel | exact Hb | auto |].
      intros a [H1 [H2 [H3 [H4 H5]]]].
      unfold Props.stock_taken; simpl; repeat split; try assumption; lia. }
    destruct (IH _ Hrest Hstep) as [IH1 IH2].
    split; [exact IH1|].
    rewrite IH2; unfold OrdersMore.take_stock at 1; rewrite Hb.
    rewrite (sum_replace_first _ Product.stock_quantity _ _ b) by exact Hb.
    simpl; lia.
Qed.

(** When no product is named twice, each product gives stock once, and
    not more than it has. *)
Lemma take_stock_fold_distinct :
  forall (store_id : Z) (products0 : list Product.t)
         (order_items : list (Product.t * Z)) (done : list Z)
         (products : list Product.t),
    Forall
      (fun line =>
         0 < snd line
         /\ find (OrdersMore.sold_by store_id (Product.id (fst line)))
              products0 = Some (fst line)
         /\ snd line <= Product.stock_quantity (fst line))
      order_items ->
    NoDup (map (fun line => Product.id (fst line)) order_items) ->
    (forall line, In line order_items -> ~ In (Product.id (fst line)) done) ->
    Forall2
      (fun p p' =>
         Props.stock_taken p p'
         /\ (Product.stock_quantity p' = Product.stock_quantity p
             \/ (0 <= Product.stock_quantity p' /\ In (Product.id p') done)))
      products0 products ->
    Forall2
      (fun p p' =>
         Product.stock_quantity p' = Product.stock_quantity p
         \/ 0 <= Product.stock_quantity p')
      products0
      (fold_left (OrdersMore.take_stock store_id) order_items products).
Proof.
  intros store_id products0 order_items.
  induction order_items as [|line rest IH];
    intros done products Hall Hnd Hdone Hrel; simpl.
  - eapply Forall2_impl; [|exact Hrel].
    intros p p' [_ [H|[H _]]]; [left | right]; exact H.
  - inversion Hall as [|? ? [Hq [Hf Hs]] Hrest]; subst.
    simpl in Hnd; inversion Hnd as [|? ? Hnotin Hnd']; subst.
    destruct (find_Forall2 _ _ _ _ _ _ Hrel
                (fun x y H =>
                   sold_by_stock_taken store_id (Product.id (fst line)) x y
                     (proj1 (proj1 H)) (proj1 (proj2 (proj1 H)))
                     (proj1 (proj2 (proj2 (proj2 (proj1 H))))))
                Hf) as [b [Hb [Hab Hstock]]].
    pose proof (sold_by_id _ _ _ (proj2 (find_some _ _ Hb))) as Hbid.
    assert (Hfresh : Product.stock_quantity b
                     = Product.stock_quantity (fst line)).
    { destruct Hstock as [H|[_ H]]; [exact H|].
      exfalso; apply (Hdone line (or_introl eq_refl)).
      rewrite <- Hbid; exact H. }
    apply (IH (Product.id (fst line) :: done)); try assumption.
    + intros l Hl [E|Hin].
      * apply Hnotin; rewrite E.
        apply (in_map (fun line => Product.id (fst line))); exact Hl.
      * apply (Hdone l (or_intror Hl)); exact Hin.
    + unfold OrdersMore.take_stock; rewrite Hb.
      eapply Forall2_replace_first_r; [exact Hrel | exact Hb | |].
      * intros a c [H1 [H2|[H2 H3]]]; (split; [exact H1|]);
          [left; exact H2 | right; split; [exact H2 | right; exact H3]].
      * intros a [[H1 [H2 [H3 [H4 H5]]]] _]; split.
        -- unfold Props.stock_taken; simpl; repeat split; try assumption.
           lia.
        -- right; simpl; split; [lia | left; symmetry; exact Hbid].
Qed.

Lemma total_amount_sum :
  forall order_items : list (Product.t * Z),
    OrdersMore.total_amount order_items
    = fold_right Rplus 0%R (map OrdersMore.item_total order_items).
Proof.
  intros order_items; unfold OrdersMore.total_amount.
  assert (H : forall (l : list (Product.t * Z)) (start : R),
             fold_left (fun total line => (total + OrdersMore.item_total line)%R)
               l start
             = (start + fold_right Rplus 0 (map OrdersMore.item_total l))%R).
  { intros l; induction l as [|x l IH]; intros start; simpl; [lra|].
    rewrite IH; lra. }
  rewrite H; lra.
Qed.

(** What an order that is accepted has checked and written. *)
Lemma create_order_ok :
  forall (new_id : Z) (now : R) (user_id : Z) (data : OrderBody.t)
         (db db' : DB.t) (catalogue catalogue' : Catalogue.t),
    OrdersMore.create_order new_id now user_id data (db, catalogue)
    = (Ok, (db', catalogue')) ->
    exists order_items : list (Product.t * Z),
      OrdersMore.check_items (OrderBody.store_id data)
        (Catalogue.products catalogue) (OrderBody.items data)
      = inr order_items
      /\ Spec.placing_client db user_id
           (Order.mk new_id user_id (OrderBody.store_id data) None "pending"
              (OrderBody.delivery_address data) (OrderBody.delivery_city data)
              (Some (OrderBody.notes data)) now)
      /\ db'
         = DB.set_orders
             (DB.orders db
              ++ [Order.mk new_id user_id (OrderBody.store_id data) None
                    "pending" (OrderBody.delivery_address data)
                    (OrderBody.delivery_city data)
                    (Some (OrderBody.notes data)) now])
             db
      /\ Catalogue.products catalogue'
         = fold_left (OrdersMore.take_stock (OrderBody.store_id data))
             order_items (Catalogue.products catalogue)
      /\ Catalogue.order_items catalogue'
         = (Catalogue.order_items catalogue
            ++ map (OrdersMore.order_item_row new_id) order_items)%list
      /\ Catalogue.order_amounts catalogue'
         = (Catalogue.order_amounts catalogue
            ++ [OrderAmount.mk new_id (OrdersMore.total_amount order_items)
                  match OrderBody.delivery_fee data with
                  | Some fee => fee
                  | None => 0%R
                  end (OrderBody.payment_method data)])%list.
Proof.
  intros new_id now user_id data db db' catalogue catalogue'.
  unfold OrdersMore.create_order, Spec.placing_client.
  destruct (get_user db user_id) as [user|]; [|discriminate].
  destruct (String.eqb_spec (User.user_type user) "client") as [Ht|];
    cbn [negb]; [|discriminate].
  destruct (negb (OrdersMore.isdigit (OrderBody.store_id data)));
    [discriminate|].
  destruct (find _ (Catalogue.store_flags catalogue)); [|discriminate].
  destruct (OrderBody.items data) as [|item_data rest] eqn:Hitems;
    [discriminate|].
  destruct (OrderBody.delivery_address data =? "")%string; [discriminate|].
  destruct (negb (str_in _ _)); [discriminate|].
  destruct (OrdersMore.check_items _ _ _) as [e|order_items];
    [discriminate|].
  intros H; injection H as <- <-.
  exists order_items; repeat split.
  exists user; repeat split; assumption.
Qed.

Lemma Forall2_right :
  forall (A B : Type) (R : A -> B -> Prop) (P : B -> Prop) (l : list A)
         (l' : list B),
    Forall2 R l l' -> (forall a b, R a b -> P b) -> Forall P l'.
Proof.
  intros A B R P l l' H HP; induction H; constructor; eauto.
Qed.

Lemma Forall_stock_after :
  forall l l' : list Product.t,
    Forall2
      (fun p p' =>
         Product.stock_quantity p' = Product.stock_quantity p
         \/ 0 <= Product.stock_quantity p')
      l l' ->
    Forall (fun p => 0 <= Product.stock_quantity p) l ->
    Forall (fun p => 0 <= Product.stock_quantity p) l'.
Proof.
  intros l l' H; induction H as [|p p' l l' Hp _ IH]; intros Hall;
    constructor; inversion Hall; subst.
  - destruct Hp as [Hp|Hp]; [rewrite Hp|]; assumption.
  - apply IH; assumption.
Qed.

(** X24: An order is paid from the stock.  When an order is accepted, the
    products are the products as they were with the quantities of the
    order taken from their stock, and nothing else changed: the stock of
    all products together goes down by the quantities of the order
    together.  When the order names no product twice and no stock was
    negative, no stock is negative afterwards.  The order gets one item
    row for each item of the body, each with a quantity above zero and
    the price of the product times the quantity, and its amount is the
    sum of its item rows. *)
Theorem order_is_taken_from_stock :
  forall (new_id : Z) (now : R) (user_id : Z) (data : OrderBody.t)
         (db db' : DB.t) (catalogue catalogue' : Catalogue.t),
    OrdersMore.create_order new_id now user_id data (db, catalogue)
    = (Ok, (db', catalogue')) ->
    Props.total_stock catalogue'
    = Props.total_stock catalogue - Props.ordered_quantity data
    /\ Forall2 Props.stock_taken (Catalogue.products catalogue)
         (Catalogue.products catalogue')
    /\ (NoDup (Props.ordered_products data) ->
        Props.stock_is_not_negative catalogue ->
        Props.stock_is_not_negative catalogue')
    /\ exists (rows : list OrderItem.t) (amount : OrderAmount.t),
         Catalogue.order_items catalogue'
         = (Catalogue.order_items catalogue ++ rows)%list
         /\ Catalogue.order_amounts catalogue'
            = (Catalogue.order_amounts catalogue ++ [amount])%list
         /\ length rows = length (OrderBody.items data)
         /\ Forall
              (fun row =>
                 OrderItem.order_id row = new_id
                 /\ 0 < OrderItem.quantity row
                 /\ OrderItem.total_price row
                    = (OrderItem.unit_price row
                       * IZR (OrderItem.quantity row))%R)
              rows
         /\ OrderAmount.order_id amount = new_id
         /\ OrderAmount.total_amount amount
            = fold_right Rplus 0%R (map OrderItem.total_price rows).
Proof.
  intros new_id now user_id data db db' catalogue catalogue' Hok.
  destruct (create_order_ok _ _ _ _ _ _ _ _ Hok)
    as [order_items [Hcheck [_ [_ [Hproducts [Hitems Hamounts]]]]]].
  pose proof (check_items_ok _ _ _ _ Hcheck) as Hfacts.
  assert (Hlines : Forall
                     (fun line =>
                        0 < snd line
                        /\ find
                             (OrdersMore.sold_by (OrderBody.store_id data)
                                (Product.id (fst line)))
                             (Catalogue.products catalogue) = Some (fst line))
                     order_items).
  { eapply Forall2_right; [exact Hfacts|].
    intros a b [_ [_ [H1 [H2 _]]]]; split; assumption. }
  destruct (take_stock_fold (OrderBody.store_id data)
              (Catalogue.products catalogue) order_items
              (Catalogue.products catalogue) Hlines
              (Forall2_same _ _ _ stock_taken_refl)) as [Hrel Hsum].
  split; [|split; [|split]].
  - unfold Props.total_stock, Props.ordered_quantity.
    rewrite Hproducts, Hsum; f_equal.
    clear - Hfacts; induction Hfacts as [|a b l l' [_ [Hq _]] _ IH]; simpl;
      [reflexivity|].
    rewrite Hq, IH; reflexivity.
  - rewrite Hproducts; exact Hrel.
  - intros Hnd Hstock; unfold Props.stock_is_not_negative in *.
    rewrite Hproducts.
    apply (Forall_stock_after (Catalogue.products catalogue));
      [|exact Hstock].
    apply (take_stock_fold_distinct (OrderBody.store_id data)
             (Catalogue.products catalogue) order_items []).
    + eapply Forall2_right; [exact Hfacts|].
      intros a b [_ [_ [H1 [H2 H3]]]]; repeat split; assumption.
    + unfold Props.ordered_products in Hnd.
      assert (E : map OrderBody.product_id (OrderBody.items data)
                  = map Some
                      (map (fun line => Product.id (fst line)) order_items)).
      { clear - Hfacts; induction Hfacts as [|a b l l' [Hp _] _ IH]; simpl;
          [reflexivity|].
        rewrite Hp, IH; reflexivity. }
      rewrite E in Hnd; apply NoDup_map_inv in Hnd; exact Hnd.
    + intros line _ H; exact H.
    + apply Forall2_same; intros p; split;
        [apply stock_taken_refl | left; reflexivity].
  - eexists; eexists; split; [exact Hitems|]; split; [exact Hamounts|].
    split; [|split; [|split]].
    + rewrite length_map; symmetry; eapply Forall2_length; exact Hfacts.
    + apply Forall_forall; intros row Hrow.
      apply in_map_iff in Hrow; destruct Hrow as [line [<- Hin]].
      rewrite Forall_forall in Hlines.
      destruct (Hlines line Hin) as [Hq _].
      cbn [OrdersMore.order_item_row OrderItem.order_id OrderItem.quantity
           OrderItem.total_price OrderItem.unit_price].
      repeat split; exact Hq.
    + reflexivity.
    + cbn [OrderAmount.total_amount].
      rewrite total_amount_sum, map_map; reflexivity.
Qed.

(** Client 3 orders the [basket] from the [shop]. *)
Lemma order_is_taken_from_stock_witness :
  Props.total_stock
    (snd (snd (OrdersMore.create_order 102 1 3 Examples2.basket
                 (Examples.market, Examples2.shop))))
  = Props.total_stock Examples2.shop - 5
  /\ Props.stock_is_not_negative
       (snd (snd (OrdersMore.create_order 102 1 3 Examples2.basket
                    (Examples.market, Examples2.shop)))).
Proof.
  destruct (order_is_taken_from_stock 102 1 3 Examples2.basket
              Examples.market _ Examples2.shop _ eq_refl)
    as [Htotal [_ [Hstock _]]].
  split; [exact Htotal|].
  apply Hstock.
  - unfold Props.ordered_products; simpl.
    repeat (apply NoDup_cons; [simpl; intuition discriminate|]).
    apply NoDup_nil.
  - unfold Props.stock_is_not_negative; simpl.
    repeat (apply Forall_cons; [discriminate|]); apply Forall_nil.
Defined.

(** The stock of a product is checked item by item against the stock
    before the order: client 3 asks for three of product 1, of which there
    are five, twice in one order; the order is accepted and the stock of
    product 1 is then below zero. *)
Lemma double_basket_overdraws :
  fst (OrdersMore.create_order 102 1 3 Examples2.double_basket
         (Examples.market, Examples2.shop)) = Ok
  /\ map Product.stock_quantity
       (Catalogue.products
          (snd (snd (OrdersMore.create_order 102 1 3 Examples2.double_basket
                       (Examples.market, Examples2.shop)))))
     = [-1; 3; 9].
Proof.
  split; reflexivity.
Qed.

(** X25: A new order starts its life pending.  It is the first of the orders
    of the client, who can open it; it is not on the list of the orders
    that deliverers may claim, and a claim of it is refused; the user of
    the store it was ordered from can accept it. *)
Theorem new_order_starts_pending :
  forall (new_id : Z) (now : R) (user_id : Z) (data : OrderBody.t)
         (db db' : DB.t) (catalogue catalogue' : Catalogue.t),
    get_order db new_id = None ->
    OrdersMore.create_order new_id now user_id data (db, catalogue)
    = (Ok, (db', catalogue')) ->
    let order :=
      Order.mk new_id user_id (OrderBody.store_id data) None "pending"
        (OrderBody.delivery_address data) (OrderBody.delivery_city data)
        (Some (OrderBody.notes data)) now in
    get_order db' new_id = Some order
    /\ (exists mine : list Order.t,
          OrderQueries.get_my_orders user_id db = inr mine
          /\ OrderQueries.get_my_orders user_id db' = inr (order :: mine))
    /\ OrderQueries.get_order user_id new_id db' = inr order
    /\ Orders.available_orders db' = Orders.available_orders db
    /\ (forall (time : R) (deliverer_id : Z),
          exists e : error,
            Orders.accept_delivery time deliverer_id new_id db'
            = (Error e, db'))
    /\ (forall (time : R) (owner_id : Z) (owner : User.t) (store : Store.t),
          get_user db owner_id = Some owner ->
          User.user_type owner = "store" ->
          store_of_user db owner_id = Some store ->
          Store.id store = OrderBody.store_id data ->
          fst (Orders.update_order_status time owner_id new_id "accepted" db')
          = Ok).
Proof.
  intros new_id now user_id data db db' catalogue catalogue' Hfresh Hok order.
  destruct (create_order_ok _ _ _ _ _ _ _ _ Hok)
    as [_ [_ [[user [Hu [Ht _]]] [Hdb _]]]].
  fold order in Hdb.
  assert (Ho : get_order db' new_id = Some order).
  { rewrite Hdb; unfold get_order in *; cbn [DB.orders DB.set_orders].
    rewrite (find_app_none _ _ _ _ Hfresh); simpl.
    rewrite Z.eqb_refl; reflexivity. }
  assert (Husers : forall k, get_user db' k = get_user db k)
    by (intros k; rewrite Hdb; reflexivity).
  assert (Hstores : forall k, store_of_user db' k = store_of_user db k)
    by (intros k; rewrite Hdb; reflexivity).
  split; [exact Ho|]; split; [|split; [|split; [|split]]].
  - unfold OrderQueries.get_my_orders.
    rewrite Husers, Hu, Ht, String.eqb_refl.
    eexists; split; [reflexivity|]; f_equal.
    unfold OrderQueries.newest_first; rewrite Hdb;
      cbn [DB.orders DB.set_orders].
    rewrite filter_app, rev_app_distr; simpl.
    rewrite Z.eqb_refl; reflexivity.
  - unfold OrderQueries.get_order, OrderQueries.has_access.
    rewrite Ho, Husers, Hu, Ht, String.eqb_refl.
    cbn [Order.client_id order andb negb]; rewrite Z.eqb_refl; reflexivity.
  - unfold Orders.available_orders; rewrite Hdb;
      cbn [DB.orders DB.set_orders].
    rewrite filter_app; simpl; apply app_nil_r.
  - intros time deliverer_id; unfold Orders.accept_delivery.
    destruct (get_user db' deliverer_id); [|eexists; reflexivity].
    destruct (negb _); [eexists; reflexivity|].
    rewrite Ho; eexists; reflexivity.
  - intros time owner_id owner store Howner Htype Hstore Hid.
    rewrite (update_order_status_cases time owner_id new_id "accepted" db'
               order owner Ho);
      [|rewrite Husers; exact Howner | discriminate].
    assert (Hperm : Orders.has_permission db' owner owner_id order = true).
    { unfold Orders.has_permission.
      rewrite Htype, Hstores, Hstore; simpl.
      rewrite Hid; apply Z.eqb_refl. }
    rewrite Hperm, Htype; reflexivity.
Qed.

(** Client 3 orders the [basket]; the user of store 20 accepts the
    order. *)
Lemma new_order_starts_pending_witness :
  let db' :=
    fst (snd (OrdersMore.create_order 102 1 3 Examples2.basket
                (Examples.market, Examples2.shop))) in
  Orders.available_orders db' = Orders.available_orders Examples.market
  /\ fst (Orders.update_order_status 2 2 102 "accepted" db') = Ok.
Proof.
  destruct (new_order_starts_pending 102 1 3 Examples2.basket
              Examples.market _ Examples2.shop _ eq_refl eq_refl)
    as [_ [_ [_ [Havailable [_ Haccept]]]]].
  split; [exact Havailable|].
  exact (Haccept 2%R 2 Examples.store_user (Store.mk 20 2) eq_refl eq_refl
           eq_refl eq_refl).
Defined.

(** ** The approval of stores and the orders *)

Lemma takes_orders_find :
  forall (catalogue : Catalogue.t) (store_id : Z) (store : StoreFlags.t),
    Props.unique_store_rows catalogue ->
    find (fun s => StoreFlags.id s =? store_id)
      (Catalogue.store_flags catalogue) = Some store ->
    Props.takes_orders catalogue store_id
    = (StoreFlags.is_approved store && StoreFlags.is_active store)%bool.
Proof.
  intros catalogue store_id store; unfold Props.unique_store_rows,
    Props.takes_orders.
  induction (Catalogue.store_flags catalogue) as [|y l IH]; simpl;
    [discriminate|].
  intros Hnd Hf; inversion Hnd as [|? ? Hnotin Hnd']; subst.
  destruct (Z.eqb_spec (StoreFlags.id y) store_id) as [E|N]; cbn [andb].
  - injection Hf as ->.
    destruct (StoreFlags.is_approved store && StoreFlags.is_active store)%bool;
      [reflexivity|]; cbn [orb].
    destruct (existsb _ l) eqn:Hex; [|reflexivity].
    apply existsb_exists in Hex; destruct Hex as [z [Hz Hc]].
    apply andb_prop in Hc; destruct Hc as [Hc _].
    apply andb_prop in Hc; destruct Hc as [Hc _].
    apply Z.eqb_eq in Hc.
    exfalso; apply Hnotin; rewrite E, <- Hc; apply in_map; exact Hz.
  - apply IH; assumption.
Qed.

Lemma store_flags_written :
  forall (catalogue : Catalogue.t) (store_id : Z) (store row : StoreFlags.t),
    Props.unique_store_rows catalogue ->
    find (fun s => StoreFlags.id s =? store_id)
      (Catalogue.store_flags catalogue) = Some store ->
    StoreFlags.id row = StoreFlags.id store ->
    let catalogue' :=
      AdminStores.set_store_flags
        (replace_first (fun s => StoreFlags.id s =? StoreFlags.id store) row
           (Catalogue.store_flags catalogue))
        catalogue in
    Props.unique_store_rows catalogue'
    /\ find (fun s => StoreFlags.id s =? store_id)
         (Catalogue.store_flags catalogue') = Some row.
Proof.
  intros catalogue store_id store row Hnd Hf Hid catalogue'.
  assert (Hsid : StoreFlags.id store = store_id).
  { apply find_some in Hf; apply Z.eqb_eq, Hf. }
  unfold catalogue', Props.unique_store_rows, AdminStores.set_store_flags;
    cbn [Catalogue.store_flags].
  rewrite <- Hid; split.
  - rewrite (map_replace_first _ StoreFlags.id row); exact Hnd.
  - rewrite Hid, Hsid.
    apply find_replace_first with (y := store); [exact Hf|].
    rewrite Hid, Hsid; apply Z.eqb_refl.
Qed.

(** Only a store that is approved and active gets orders. *)
Lemma create_order_store :
  forall (new_id : Z) (now : R) (user_id : Z) (data : OrderBody.t)
         (db : DB.t) (catalogue : Catalogue.t),
    fst (OrdersMore.create_order new_id now user_id data (db, catalogue))
    = Ok ->
    Props.takes_orders catalogue (OrderBody.store_id data) = true.
Proof.
  intros new_id now user_id data db catalogue.
  unfold OrdersMore.create_order, Props.takes_orders.
  destruct (get_user db user_id) as [user|]; [|discriminate].
  destruct (negb _); [discriminate|].
  destruct (negb _); [discriminate|].
  destruct (find _ (Catalogue.store_flags catalogue)) as [s|] eqn:Hf;
    [|discriminate].
  intros _; apply existsb_exists; exists s; apply (find_some _ _ Hf).
Qed.

(** X26: Approval gates the orders of a store.  A store that the admin has
    rejected, or sent back to review, takes no orders.  Approving a store
    opens it only if it is active: a store that was rejected stays closed
    when the admin approves it again, and opens when the admin first
    reactivates and then approves it.  An order is accepted only for a
    store that takes orders. *)
Theorem store_approval_gates_ordering :
  forall (caller_id store_id : Z) (db : DB.t) (catalogue : Catalogue.t)
         (store : StoreFlags.t),
    Props.unique_store_rows catalogue ->
    find (fun s => StoreFlags.id s =? store_id)
      (Catalogue.store_flags catalogue) = Some store ->
    (forall (db' : DB.t) (catalogue' : Catalogue.t),
        AdminStores.reject_store caller_id store_id (db, catalogue)
        = (Ok, (db', catalogue'))
        \/ AdminStores.reactivate_store caller_id store_id (db, catalogue)
           = (Ok, (db', catalogue')) ->
        Props.takes_orders catalogue' store_id = false)
    /\ (forall (db' : DB.t) (catalogue' : Catalogue.t),
          AdminStores.approve_store caller_id store_id (db, catalogue)
          = (Ok, (db', catalogue')) ->
          Props.takes_orders catalogue' store_id
          = StoreFlags.is_active store)
    /\ (forall (db1 db2 : DB.t) (catalogue1 catalogue2 : Catalogue.t),
          AdminStores.reject_store caller_id store_id (db, catalogue)
          = (Ok, (db1, catalogue1)) ->
          AdminStores.approve_store caller_id store_id (db1, catalogue1)
          = (Ok, (db2, catalogue2)) ->
          Props.takes_orders catalogue2 store_id = false)
    /\ (forall (db1 db2 : DB.t) (catalogue1 catalogue2 : Catalogue.t),
          AdminStores.reactivate_store caller_id store_id (db, catalogue)
          = (Ok, (db1, catalogue1)) ->
          AdminStores.approve_store caller_id store_id (db1, catalogue1)
          = (Ok, (db2, catalogue2)) ->
          Props.takes_orders catalogue2 store_id = true)
    /\ (forall (new_id : Z) (now : R) (user_id : Z) (data : OrderBody.t),
          OrderBody.store_id data = store_id ->
          Props.takes_orders catalogue store_id = false ->
          fst (OrdersMore.create_order new_id now user_id data
                 (db, catalogue)) <> Ok).
Proof.
  intros caller_id store_id db catalogue store Hnd Hf.
  assert (Hwrite : forall (db0 : DB.t) (c0 : Catalogue.t) (s0 : StoreFlags.t),
             Props.unique_store_rows c0 ->
             find (fun s => StoreFlags.id s =? store_id)
               (Catalogue.store_flags c0) = Some s0 ->
             (forall db' c',
                 AdminStores.reject_store caller_id store_id (db0, c0)
                 = (Ok, (db', c')) ->
                 Props.unique_store_rows c'
                 /\ find (fun s => StoreFlags.id s =? store_id)
                      (Catalogue.store_flags c')
                    = Some
                        (StoreFlags.mk (StoreFlags.id s0)
                           (StoreFlags.user_id s0) false false))
             /\ (forall db' c',
                   AdminStores.reactivate_store caller_id store_id (db0, c0)
                   = (Ok, (db', c')) ->
                   Props.unique_store_rows c'
                   /\ find (fun s => StoreFlags.id s =? store_id)
                        (Catalogue.store_flags c')
                      = Some
                          (StoreFlags.mk (StoreFlags.id s0)
                             (StoreFlags.user_id s0) false true))
             /\ (forall db' c',
                   AdminStores.approve_store caller_id store_id (db0, c0)
                   = (Ok, (db', c')) ->
                   Props.unique_store_rows c'
                   /\ find (fun s => StoreFlags.id s =? store_id)
                        (Catalogue.store_flags c')
                      = Some
                          (StoreFlags.mk (StoreFlags.id s0)
                             (StoreFlags.user_id s0) true
                             (StoreFlags.is_active s0)))).
  { intros db0 c0 s0 Hnd0 Hf0.
    split; [|split]; intros db' c';
      unfold AdminStores.reject_store, AdminStores.reactivate_store,
        AdminStores.approve_store;
      (destruct (negb (Admin.admin_required db0 caller_id));
       [discriminate|]);
      rewrite Hf0;
      (destruct (get_user db0 (StoreFlags.user_id s0)); [|discriminate]);
      intros H; injection H as _ <-;
      apply store_flags_written; try assumption; reflexivity. }
  destruct (Hwrite db catalogue store Hnd Hf) as [Hrej [Hrea Happ]].
  split; [|split; [|split; [|split]]].
  - intros db' catalogue' [H|H].
    + destruct (Hrej _ _ H) as [Hnd' Hf'].
      rewrite (takes_orders_find _ _ _ Hnd' Hf'); reflexivity.
    + destruct (Hrea _ _ H) as [Hnd' Hf'].
      rewrite (takes_orders_find _ _ _ Hnd' Hf'); reflexivity.
  - intros db' catalogue' H.
    destruct (Happ _ _ H) as [Hnd' Hf'].
    rewrite (takes_orders_find _ _ _ Hnd' Hf'); reflexivity.
  - intros db1 db2 catalogue1 catalogue2 H1 H2.
    destruct (Hrej _ _ H1) as [Hnd1 Hf1].
    destruct (Hwrite db1 catalogue1 _ Hnd1 Hf1) as [_ [_ Happ1]].
    destruct (Happ1 _ _ H2) as [Hnd2 Hf2].
    rewrite (takes_orders_find _ _ _ Hnd2 Hf2); reflexivity.
  - intros db1 db2 catalogue1 catalogue2 H1 H2.
    destruct (Hrea _ _ H1) as [Hnd1 Hf1].
    destruct (Hwrite db1 catalogue1 _ Hnd1 Hf1) as [_ [_ Happ1]].
    destruct (Happ1 _ _ H2) as [Hnd2 Hf2].
    rewrite (takes_orders_find _ _ _ Hnd2 Hf2); reflexivity.
  - intros new_id now user_id data Hsid Hclosed Hok.
    apply create_order_store in Hok.
    rewrite Hsid in Hok; congruence.
Qed.

(** The admin rejects store 20 of the [shop] and approves it again: the
    store stays closed. *)
Lemma store_approval_gates_ordering_witness :
  Props.takes_orders
    (snd (snd (AdminStores.approve_store 1 20
                 (snd (AdminStores.reject_store 1 20
                         (Examples.market, Examples2.shop))))))
    20
  = false.
Proof.
  assert (Hnd : Props.unique_store_rows Examples2.shop) by unique_ids.
  exact (proj1 (proj2 (proj2
           (store_approval_gates_ordering 1 20 Examples.market Examples2.shop
              (StoreFlags.mk 20 2 true true) Hnd eq_refl)))
           _ _ _ _ eq_refl eq_refl).
Defined.

(** ** Settings that are written without a check *)

Lemma write_setting_update :
  forall (db : DB.t) (key : string) (value : R),
    AdminSettings.write_setting db (key, value)
    = AdminMore.update_platform_setting key value db.
Proof.
  reflexivity.
Qed.

Lemma write_settings_read :
  forall (data : list (string * R)) (db : DB.t),
    NoDup (map fst data) ->
    (forall (key : string) (v default : R),
        In (key, v) data ->
        Admin.get_platform_setting
          (fold_left AdminSettings.write_setting data db) key default = v)
    /\ (forall (key : string) (default : R),
          ~ In key (map fst data) ->
          Admin.get_platform_setting
            (fold_left AdminSettings.write_setting data db) key default
          = Admin.get_platform_setting db key default).
Proof.
  intros data; induction data as [|[k w] data IH]; intros db Hnd; simpl.
  - split; [intros key v default [] | reflexivity].
  - inversion Hnd as [|? ? Hnotin Hnd']; subst.
    destruct (IH (AdminSettings.write_setting db (k, w)) Hnd') as [IH1 IH2].
    split.
    + intros key v default [E|Hin].
      * injection E as -> ->.
        rewrite IH2 by exact Hnotin.
        rewrite write_setting_update; apply get_update_setting.
      * apply IH1; exact Hin.
    + intros key default Hkey.
      rewrite IH2 by (intros H; apply Hkey; right; exact H).
      rewrite write_setting_update.
      apply get_update_setting_other.
      intros E; apply Hkey; left; symmetry; exact E.
Qed.

Lemma write_settings_keep_cities :
  forall (data : list (string * R)) (db : DB.t),
    DB.allowed_cities (fold_left AdminSettings.write_setting data db)
    = DB.allowed_cities db.
Proof.
  intros data; induction data as [|[k w] data IH]; intros db;
    cbn [fold_left]; [reflexivity|].
  rewrite IH, write_setting_update; apply update_setting_keeps_cities.
Qed.

(** X27: The settings endpoint writes what it is given.  For an admin and a
    body with different keys, [update_platform_settings] succeeds, every
    key of the body is then read with the value of the body and every
    other key as before.  No bound is checked: a maximum distance that is
    not above zero is written like any other, the fee settings are then
    out of the bounds that [update_platform_fees] keeps, and every trip
    longer than the written maximum is refused a quote. *)
Theorem settings_are_written_unchecked :
  forall (caller_id : Z) (data : list (string * R)) (db : DB.t),
    Admin.admin_required db caller_id = true ->
    NoDup (map fst data) ->
    let db' := snd (AdminSettings.update_platform_settings caller_id data db)
    in
    fst (AdminSettings.update_platform_settings caller_id data db) = Ok
    /\ (forall (key : string) (v default : R),
          In (key, v) data ->
          Admin.get_platform_setting db' key default = v)
    /\ (forall (key : string) (default : R),
          ~ In key (map fst data) ->
          Admin.get_platform_setting db' key default
          = Admin.get_platform_setting db key default)
    /\ (forall maximum : R,
          In ("maximum_delivery_distance", maximum) data ->
          ((maximum <= 0)%R -> ~ Props.fees_in_range db')
          /\ forall (distance : R) (city_id : option Z),
               (maximum < distance)%R ->
               Admin.calculate_delivery_fee (Some distance) city_id db'
               = inl DistanceExceeded).
Proof.
  intros caller_id data db Hadmin Hnd db'.
  assert (Hdb : AdminSettings.update_platform_settings caller_id data db
                = (Ok, fold_left AdminSettings.write_setting data db)).
  { unfold AdminSettings.update_platform_settings; rewrite Hadmin.
    reflexivity. }
  unfold db'; clear db'; rewrite Hdb; cbn [fst snd].
  destruct (write_settings_read data db Hnd) as [Hread Hother].
  split; [reflexivity|]; split; [exact Hread|]; split; [exact Hother|].
  intros maximum Hin; split.
  - intros Hle [_ [_ [_ [Hmax _]]]].
    rewrite (Hread _ _ 10%R Hin) in Hmax; lra.
  - intros distance city_id Hfar.
    apply (calculate_delivery_fee_cases distance city_id
             (fold_left AdminSettings.write_setting data db)).
    rewrite (Hread _ _ 10%R Hin); exact Hfar.
Qed.

(** The admin of [priced_market_with_admin] writes a maximum distance of
    -1: a trip of 1 km is refused. *)
Lemma settings_are_written_unchecked_witness :
  Admin.calculate_delivery_fee (Some 1%R) None
    (snd (AdminSettings.update_platform_settings 1
            [("maximum_delivery_distance", (-1)%R)]
            Examples2.priced_market_with_admin))
  = inl DistanceExceeded.
Proof.
  assert (Hnd : NoDup (map fst [("maximum_delivery_distance", (-1)%R)])).
  { simpl; apply NoDup_cons; [intros [] | apply NoDup_nil]. }
  destruct (settings_are_written_unchecked 1
              [("maximum_delivery_distance", (-1)%R)]
              Examples2.priced_market_with_admin eq_refl Hnd)
    as [_ [_ [_ Hmax]]].
  apply (proj2 (Hmax (-1)%R (or_introl eq_refl))); lra.
Defined.
